(** * Rule-based itinerary planner: a shallow embedding of
      [itinerary/services.py] ([ItineraryPlannerService]) and the properties
      of its filter, selector, clusterer and day scheduler.

    Conventions of the embedding.
    - Python [int] is [Z]; Python [float] is the kernel's binary64 [float];
      a nullable [DecimalField] is [option float], holding the value
      [float(field)] (a Decimal is falsy exactly when that value is zero).
    - A raised exception is the [Raise] branch of [Py.result].
    - The source's haversine [_calculate_distance] (libm's sin, cos, asin)
      and the built-ins [round] and [sum] over floats are parameters of the
      [Planner] section;
      [datetime.strptime(_, '%Y-%m-%d')] is a parameter too and the clock
      read by [datetime.now()] is an explicit argument.  The distance is a
      total function here: the [ValueError] that [math.asin] raises when
      rounding pushes the haversine term above 1 (near-antipodal points) is
      outside the model.
    - A calendar date is its proleptic Gregorian ordinal; a time of day is
      the number of minutes since 1900-01-01 00:00 (what [strptime('%H:%M')]
      yields), rendered by [strftime_HM].  The range limit of [datetime]
      (year 9999, an [OverflowError] of [date + timedelta]) is not modelled.
    - The comparisons [t > m * 1.5] of an int [t] with an int limit [m] are
      the integer comparison [3 * m < 2 * t], which is what the float
      product gives as long as [3 * m] is below 2^53.
    - A queryset is the list of its rows in the order the database returns
      them. *)

From Stdlib Require Import ZArith List String Ascii Floats Lia.
From stdpp Require Import base option list gmap sets strings.

#[local] Open Scope Z_scope.
#[local] Set Warnings "-inexact-float".

(** ** The Python runtime pieces the planner relies on *)

Module Py.

Inductive exn : Set :=
| TypeError | ValueError | OverflowError | KeyError | MultipleObjectsReturned.

Inductive result (A : Type) : Type :=
| Ok (a : A)
| Raise (e : exn).
#[global] Arguments Ok {A} a.
#[global] Arguments Raise {A} e.

#[global] Instance result_ret : MRet result := @Ok.
#[global] Instance result_bind : MBind result :=
  λ A B f m, match m with Ok a => f a | Raise e => Raise e end.

Definition returns {A} (m : result A) : bool :=
  match m with Ok _ => true | Raise _ => false end.

(** [float(x)] for a nullable Decimal: [float(None)] is a TypeError. *)
Definition float_of (x : option float) : result float :=
  match x with Some v => Ok v | None => Raise TypeError end.

(** Truthiness of a nullable Decimal: not None and not zero. *)
Definition truthy (x : option float) : bool :=
  match x with Some v => negb (v =? 0)%float | None => false end.

(** [int(x)] for a float: truncation towards zero; NaN is a ValueError and
    an infinity an OverflowError. *)
Definition int (x : float) : result Z :=
  match Prim2SF x with
  | S754_zero _ => Ok 0
  | S754_infinity _ => Raise OverflowError
  | S754_nan => Raise ValueError
  | S754_finite s m e =>
      let a := Z.shiftl (Z.pos m) e in Ok (if s then - a else a)
  end.

(** [l[:n]], also for a negative [n]. *)
Definition slice_to {A} (l : list A) (n : Z) : list A :=
  if 0 <=? n then take (Z.to_nat n) l
  else take (Z.to_nat (Z.of_nat (length l) + n)) l.

(** [range(a, b)]. *)
Definition range (a b : Z) : list Z := seqZ a (b - a).

(** [x or d] for an int. *)
Definition int_or (x d : Z) : Z := if x =? 0 then d else x.

(** [l.sort(key=...)]: the stable sort, written as the insertion of each
    element behind the elements that are not greater.  [lt a b] is the
    comparison [key(a) < key(b)]; [reverse=True] is the same sort under the
    converse comparison. *)
Fixpoint insert_sorted {A} (lt : A → A → bool) (x : A) (l : list A) : list A :=
  match l with
  | [] => [x]
  | y :: l' => if lt x y then x :: y :: l' else y :: insert_sorted lt x l'
  end.

Definition sorted {A} (lt : A → A → bool) (l : list A) : list A :=
  fold_left (λ acc x, insert_sorted lt x acc) l [].

Definition digit (n : Z) : ascii := ascii_of_nat (48 + Z.to_nat n).

(** [t.strftime('%H:%M')] for a time given in minutes. *)
Definition strftime_HM (t : Z) : string :=
  let m := t `mod` 1440 in
  let h := m `div` 60 in
  let mi := m `mod` 60 in
  String (digit (h `div` 10)) (String (digit (h `mod` 10)) (String ":"%char
    (String (digit (mi `div` 10)) (String (digit (mi `mod` 10)) EmptyString)))).

End Py.
Import Py.

(** ** Data model *)

Module Destination.
Record t : Type := mk {
  id : Z;
  name : string;
  category : string;
  latitude : option float;
  longitude : option float;
  avg_duration_minutes : Z;
  entrance_fee : option float;
  budget_category : string;
  wheelchair_friendly : bool;
  kid_friendly : bool;
  senior_friendly : bool;
  status : string;
  is_active : bool;
}.
End Destination.

Module Accommodation.
Record t : Type := mk {
  id : Z;
  name : string;
  type : string;
  budget_category : string;
  latitude : option float;
  longitude : option float;
  wheelchair_friendly : bool;
  pet_friendly : bool;
  status : string;
  is_active : bool;
}.
End Accommodation.

Module TravelPreferences.
Record t : Type := mk {
  days : Z;
  pax : Z;
  budget_category : string;
  starting_point : string;
  transport_mode : list string;
  interests : list string;
  pace_preference : string;
  has_children : bool;
  has_seniors : bool;
  has_disabilities : bool;
  has_pets : bool;
  include_accommodation : bool;
  accommodation_types : list string;
  max_travel_time : Z;
  must_visit_ids : list Z;
  exclude_destination_ids : list Z;
  exclude_categories : list string;
  accommodation_id : option Z;
  point_of_origin : string;
  travel_time_hours : float;
  activity_on_same_day : bool;
  start_date : option string;
}.
End TravelPreferences.

Module Activity.
Record t : Type := mk {
  destination : Destination.t;
  start_time : string;
  end_time : string;
  duration_minutes : Z;
  travel_time_from_previous : Z;
  distance_from_previous : float;
  activity_type : string;
}.
End Activity.

Module DayPlan.
Record t : Type := mk {
  day_number : Z;
  date : Z;
  activities : list Activity.t;
  accommodation : option Accommodation.t;
  total_activities : Z;
  total_travel_time : Z;
  total_distance : float;
  is_rest_day : bool;
  is_travel_day : bool;
  day_type : string;
}.
End DayPlan.

Module PaceConfig.
Record t : Type := mk {
  activities_per_day : Z * Z;
  max_daily_travel_time : Z;
  buffer_time : Z;
  earliest_start : Z;
  latest_end : Z;
  mandatory_rest : bool;
}.
End PaceConfig.

(** [PACE_RULES]; the clock times '09:00', '18:00', ... are given in minutes. *)
Definition PACE_RULES (pace : string) : option PaceConfig.t :=
  if String.eqb pace "relaxed" then
    Some (PaceConfig.mk (2, 3) 60 90 (9 * 60) (18 * 60) true)
  else if String.eqb pace "moderate" then
    Some (PaceConfig.mk (3, 4) 120 60 (8 * 60) (20 * 60) false)
  else if String.eqb pace "packed" then
    Some (PaceConfig.mk (5, 7) 180 30 (6 * 60) (22 * 60) false)
  else None.

Definition INTEREST_MAPPING : list (string * list string) :=
  [ ("nature", ["nature"]);
    ("beaches", ["nature"]);
    ("adventure", ["adventure"; "nature"]);
    ("cultural", ["cultural"]);
    ("historical", ["historical"; "cultural"]);
    ("wildlife", ["adventure"; "nature"]);
    ("photography", ["nature"; "cultural"; "historical"]);
    ("relaxation", ["nature"]);
    ("hiking", ["adventure"; "nature"]);
    ("water_sports", ["adventure"; "nature"]);
    ("local_cuisine", ["cultural"; "food"]);
    ("shopping", ["shopping"; "other"]) ]%string.

(** [d.get(k, default)] on a dict given as its list of items. *)
Definition dict_get {V} (d : list (string * V)) (k : string) (default : V) : V :=
  match List.find (λ kv, String.eqb (fst kv) k) d with
  | Some kv => snd kv
  | None => default
  end.

Definition budget_hierarchy : list (string * Z) :=
  [("low", 1); ("medium", 2); ("high", 3)]%string.

(** [[k for k, v in budget_hierarchy.items() if v <= user_budget_level]] *)
Definition acceptable_budgets (budget_category : string) : list string :=
  let user_budget_level := dict_get budget_hierarchy budget_category 2 in
  fst <$> List.filter (λ kv, snd kv <=? user_budget_level) budget_hierarchy.

Definition is_empty {A} (l : list A) : bool :=
  match l with [] => true | _ => false end.

(** ** PreferenceFilter: [_filter_destinations] *)

Definition _filter_destinations (prefs : TravelPreferences.t)
    (catalog : list Destination.t) : list Destination.t :=
  let queryset :=
    List.filter (λ d, Destination.is_active d
                      && String.eqb (Destination.status d) "active") catalog in
  let queryset :=
    if is_empty (TravelPreferences.exclude_destination_ids prefs) then queryset
    else List.filter (λ d, negb (bool_decide
           (Destination.id d ∈ TravelPreferences.exclude_destination_ids prefs)))
           queryset in
  let queryset :=
    if is_empty (TravelPreferences.exclude_categories prefs) then queryset
    else List.filter (λ d, negb (bool_decide
           (Destination.category d ∈ TravelPreferences.exclude_categories prefs)))
           queryset in
  let queryset :=
    List.filter (λ d, bool_decide (Destination.budget_category d
           ∈ acceptable_budgets (TravelPreferences.budget_category prefs)))
           queryset in
  let queryset :=
    if TravelPreferences.has_children prefs
    then List.filter Destination.kid_friendly queryset else queryset in
  let queryset :=
    if TravelPreferences.has_seniors prefs
    then List.filter Destination.senior_friendly queryset else queryset in
  let queryset :=
    if TravelPreferences.has_disabilities prefs
    then List.filter Destination.wheelchair_friendly queryset else queryset in
  queryset.

(** ** AccommodationSelector: [_select_accommodations] *)

(** [Accommodation.objects.get(id=..., is_active=True, status='active')]:
    [None] stands for [Accommodation.DoesNotExist], which the caller catches. *)
Definition accommodation_get (catalog : list Accommodation.t) (aid : Z)
    : result (option Accommodation.t) :=
  match List.filter (λ a, (Accommodation.id a =? aid)
                          && Accommodation.is_active a
                          && String.eqb (Accommodation.status a) "active") catalog with
  | [] => Ok None
  | [a] => Ok (Some a)
  | _ => Raise MultipleObjectsReturned
  end.

(** The automatic selection below the [try] block. *)
Definition auto_select_accommodations (prefs : TravelPreferences.t)
    (catalog : list Accommodation.t) : list Accommodation.t :=
  let queryset :=
    List.filter (λ a, Accommodation.is_active a
                      && String.eqb (Accommodation.status a) "active") catalog in
  let queryset :=
    List.filter (λ a, bool_decide (Accommodation.budget_category a
           ∈ acceptable_budgets (TravelPreferences.budget_category prefs)))
           queryset in
  let queryset :=
    if is_empty (TravelPreferences.accommodation_types prefs) then queryset
    else List.filter (λ a, bool_decide
           (Accommodation.type a ∈ TravelPreferences.accommodation_types prefs))
           queryset in
  let queryset :=
    if TravelPreferences.has_pets prefs
    then List.filter Accommodation.pet_friendly queryset else queryset in
  let queryset :=
    if TravelPreferences.has_disabilities prefs
    then List.filter Accommodation.wheelchair_friendly queryset else queryset in
  let limit := if TravelPreferences.days prefs <=? 3 then 1 else 2 in
  slice_to queryset limit.

(** An [Optional[int]] is truthy when it is neither None nor 0. *)
Definition truthy_id (x : option Z) : option Z :=
  match x with Some i => if i =? 0 then None else Some i | None => None end.

Definition _select_accommodations (prefs : TravelPreferences.t)
    (catalog : list Accommodation.t) : result (list Accommodation.t) :=
  if negb (TravelPreferences.include_accommodation prefs) then Ok []
  else
    match truthy_id (TravelPreferences.accommodation_id prefs) with
    | Some aid =>
        found ← accommodation_get catalog aid;
        match found with
        | Some accommodation => Ok [accommodation]
        | None => Ok (auto_select_accommodations prefs catalog)
        end
    | None => Ok (auto_select_accommodations prefs catalog)
    end.

(** ** The service object: [__init__] and [_parse_start_date] *)

Module Service.
Record t : Type := mk {
  prefs : TravelPreferences.t;
  pace_config : PaceConfig.t;
  trip_start_date : Z;
  needs_arrival_travel : bool;
  needs_departure_travel : bool;
}.
End Service.

(** A day's running state in [_build_daily_itinerary]: the local variables
    of one iteration of the loop over the active days. *)
Module DayState.
Record t : Type := mk {
  current_time : Z;
  last_lat : float;
  last_lon : float;
  total_travel : Z;
  total_distance : float;
  activities_added : Z;
  daily_activities : list Activity.t;
}.
End DayState.

(** The variables that live across the days of the loop. *)
Module TripState.
Record t : Type := mk {
  current_day : Z;
  other_dest_index : nat;
  itinerary : list DayPlan.t;
}.
End TripState.

(** [float(x) if x else d] *)
Definition coord_or (x : option float) (d : float) : float :=
  match x with
  | Some v => if (v =? 0)%float then d else v
  | None => d
  end.

(** [dest in l] for model instances: Django compares them by primary key. *)
Definition dest_in (dest : Destination.t) (l : list Destination.t) : bool :=
  existsb (λ d, Destination.id d =? Destination.id dest) l.

Definition is_must_visit (prefs : TravelPreferences.t) (dest : Destination.t) : bool :=
  bool_decide (Destination.id dest ∈ TravelPreferences.must_visit_ids prefs).

(** The serialized result: the dicts of [_serialize_itinerary] (the
    description, address, opening hours and image fields are left out). *)

Module ActivityData.
Record t : Type := mk {
  destination_id : Z;
  destination_name : string;
  category : string;
  latitude : option float;
  longitude : option float;
  start_time : string;
  end_time : string;
  duration_minutes : Z;
  travel_time_from_previous : Z;
  distance_from_previous_km : float;
  entrance_fee : float;
  activity_type : string;
}.
End ActivityData.

Module AccommodationData.
Record t : Type := mk {
  id : Z;
  name : string;
  type : string;
  latitude : option float;
  longitude : option float;
}.
End AccommodationData.

Module DayData.
Record t : Type := mk {
  day_number : Z;
  date : Z;
  is_rest_day : bool;
  is_travel_day : bool;
  day_type : string;
  activities : list ActivityData.t;
  accommodation : option AccommodationData.t;
  total_activities : Z;
  total_travel_time_minutes : Z;
  total_distance_km : float;
}.
End DayData.

Module Summary.
Record t : Type := mk {
  total_destinations : Z;
  total_travel_time_minutes : Z;
  total_travel_time_hours : float;
  total_distance_km : float;
  total_entrance_fees : float;
  currency : string;
}.
End Summary.

Module Itinerary.
Record t : Type := mk {
  preferences : TravelPreferences.t;
  itinerary : list DayData.t;
  summary : Summary.t;
}.
End Itinerary.

(** [float(z)] for an int; exact below 2^53, which the minutes and party
    sizes of a trip are. *)
Definition float_of_Z (z : Z) : float :=
  match z with
  | Z0 => 0%float
  | Zpos _ => PrimFloat.of_uint63 (Uint63.of_Z z)
  | Zneg _ => (- PrimFloat.of_uint63 (Uint63.of_Z (- z)))%float
  end.

(** [float(x) if x else None] *)
Definition float_or_none (x : option float) : option float :=
  if truthy x then x else None.

(** ** Concrete scenarios

    Values of the parameters at the points the scenarios below visit, as the
    source computes them there: [_calculate_distance] between an
    accommodation at (12.58, 124.08), a destination 50 km to its north at
    (13.03, 124.08) and one 29 km to its north at (12.84, 124.08); the
    distance of a point to itself is 0.0. *)

Definition haversine_samples : list (float * float * float * float * float) :=
  [ (12.58, 124.08, 13.03, 124.08, 50.03771699005136);
    (13.03, 124.08, 12.58, 124.08, 50.03771699005136);
    (13.03, 124.08, 12.84, 124.08, 21.127036062466104);
    (12.84, 124.08, 13.03, 124.08, 21.127036062466104);
    (12.58, 124.08, 12.84, 124.08, 28.910680927585247);
    (12.84, 124.08, 12.58, 124.08, 28.910680927585247) ]%float.

Definition sample_distance (lat1 lon1 lat2 lon2 : float) : float :=
  match List.find (λ '(a, b, c, d, _),
          (a =? lat1)%float && (b =? lon1)%float
          && (c =? lat2)%float && (d =? lon2)%float) haversine_samples with
  | Some (_, _, _, _, km) => km
  | None => 0%float
  end.

(** [round(x, 2)] at the distances above and their sums; elsewhere the
    scenarios only round 0.0. *)
Definition round_samples : list (float * float) :=
  [ (100.07543398010272, 100.08);
    (57.821361855170494, 57.82);
    (50.03771699005136, 50.04);
    (28.910680927585247, 28.91);
    (21.127036062466104, 21.13) ]%float.

Definition sample_round (x : float) (ndigits : Z) : float :=
  match List.find (λ '(a, _), (a =? x)%float) round_samples with
  | Some (_, r) => r
  | None => x
  end.

(** [sum] adds from the left, starting at 0. *)
Definition sample_sum (l : list float) : float :=
  fold_left (λ a x, (a + x)%float) l 0%float.

(** [strptime] at the one date the scenarios use: 2025-06-01. *)
Definition sample_strptime (s : string) : option Z :=
  if String.eqb s "2025-06-01" then Some 739403 else None.

(** The inputs of the scenarios. *)

Definition mk_dest (id : Z) (lat lon : option float) : Destination.t :=
  Destination.mk id "Subic Beach" "nature" lat lon 60 None "low" true true true
    "active" true.

Definition mk_acc (id : Z) (lat lon : option float) : Accommodation.t :=
  Accommodation.mk id "Matnog Inn" "inn" "low" lat lon true true "active" true.

Definition mk_prefs (days : Z) (pace : string) (travel_time_hours : float)
    (activity_on_same_day : bool) (must_visit_ids : list Z)
    (include_accommodation : bool) (start_date : option string)
    : TravelPreferences.t :=
  TravelPreferences.mk days 2 "medium" "sorsogon_city" [] ["nature"%string] pace
    false false false false include_accommodation [] 120 must_visit_ids [] []
    None "Sorsogon City" travel_time_hours activity_on_same_day start_date.

(** [dataclasses.replace(prefs, accommodation_id=aid)] *)
Definition with_accommodation_id (prefs : TravelPreferences.t) (aid : option Z)
    : TravelPreferences.t :=
  TravelPreferences.mk (TravelPreferences.days prefs) (TravelPreferences.pax prefs)
    (TravelPreferences.budget_category prefs)
    (TravelPreferences.starting_point prefs)
    (TravelPreferences.transport_mode prefs) (TravelPreferences.interests prefs)
    (TravelPreferences.pace_preference prefs) (TravelPreferences.has_children prefs)
    (TravelPreferences.has_seniors prefs) (TravelPreferences.has_disabilities prefs)
    (TravelPreferences.has_pets prefs) (TravelPreferences.include_accommodation prefs)
    (TravelPreferences.accommodation_types prefs)
    (TravelPreferences.max_travel_time prefs) (TravelPreferences.must_visit_ids prefs)
    (TravelPreferences.exclude_destination_ids prefs)
    (TravelPreferences.exclude_categories prefs)
    aid
    (TravelPreferences.point_of_origin prefs)
    (TravelPreferences.travel_time_hours prefs)
    (TravelPreferences.activity_on_same_day prefs)
    (TravelPreferences.start_date prefs).

(** [dataclasses.replace(prefs, max_travel_time=m)] *)
Definition with_max_travel_time (prefs : TravelPreferences.t) (m : Z)
    : TravelPreferences.t :=
  TravelPreferences.mk (TravelPreferences.days prefs) (TravelPreferences.pax prefs)
    (TravelPreferences.budget_category prefs)
    (TravelPreferences.starting_point prefs)
    (TravelPreferences.transport_mode prefs) (TravelPreferences.interests prefs)
    (TravelPreferences.pace_preference prefs) (TravelPreferences.has_children prefs)
    (TravelPreferences.has_seniors prefs) (TravelPreferences.has_disabilities prefs)
    (TravelPreferences.has_pets prefs) (TravelPreferences.include_accommodation prefs)
    (TravelPreferences.accommodation_types prefs)
    m (TravelPreferences.must_visit_ids prefs)
    (TravelPreferences.exclude_destination_ids prefs)
    (TravelPreferences.exclude_categories prefs)
    (TravelPreferences.accommodation_id prefs)
    (TravelPreferences.point_of_origin prefs)
    (TravelPreferences.travel_time_hours prefs)
    (TravelPreferences.activity_on_same_day prefs)
    (TravelPreferences.start_date prefs).

(** An inn, a must-visit destination 50 km to its north and another
    destination 29 km to its north. *)
Definition north_accs : list Accommodation.t :=
  [mk_acc 1 (Some 12.58%float) (Some 124.08%float)].
Definition north_dests : list Destination.t :=
  [ mk_dest 10 (Some 13.03%float) (Some 124.08%float);
    mk_dest 11 (Some 12.84%float) (Some 124.08%float) ].

(** Two relaxed days from the inn, destination 10 a must-visit. *)
Definition north_prefs : TravelPreferences.t :=
  mk_prefs 2 "relaxed" 0 true [10] true None.

(** Three moderate days, two hours from the origin, no activity on the day
    of arrival. *)
Definition arrival_prefs : TravelPreferences.t :=
  mk_prefs 3 "moderate" 2 false [] true (Some "2025-06-01"%string).

(** A relaxed week without travel days. *)
Definition week_prefs : TravelPreferences.t :=
  mk_prefs 7 "relaxed" 0 true [] true (Some "2025-06-01"%string).

(** Three destinations without coordinates, all of them must-visit, for one
    relaxed day without accommodation. *)
Definition here_dests : list Destination.t :=
  [mk_dest 1 None None; mk_dest 2 None None; mk_dest 3 None None].
Definition here_prefs : TravelPreferences.t :=
  mk_prefs 1 "relaxed" 0 true [1; 2; 3] false None.

(** The same destinations as fillers around the inn. *)
Definition inn_prefs : TravelPreferences.t :=
  mk_prefs 1 "relaxed" 0 true [] true None.

(** Five relaxed days with same-day activity, two hours from the origin. *)
Definition five_prefs : TravelPreferences.t :=
  mk_prefs 5 "relaxed" 2 true [] true (Some "2025-06-01"%string).

(** The service objects [ItineraryPlannerService(prefs)] of the scenarios,
    constructed on the day 739000 (2024-04-24). *)
Definition relaxed_pace : PaceConfig.t :=
  PaceConfig.mk (2, 3) 60 90 (9 * 60) (18 * 60) true.
Definition moderate_pace : PaceConfig.t :=
  PaceConfig.mk (3, 4) 120 60 (8 * 60) (20 * 60) false.
Definition north_self : Service.t :=
  Service.mk north_prefs relaxed_pace 739000 false false.
Definition hurried_self : Service.t :=
  Service.mk (with_max_travel_time north_prefs 20) relaxed_pace 739000 false false.
Definition arrival_self : Service.t :=
  Service.mk arrival_prefs moderate_pace 739403 true true.
Definition week_self : Service.t :=
  Service.mk week_prefs relaxed_pace 739403 false false.
Definition here_self : Service.t :=
  Service.mk here_prefs relaxed_pace 739000 false false.
Definition inn_self : Service.t :=
  Service.mk inn_prefs relaxed_pace 739000 false false.
Definition five_self : Service.t :=
  Service.mk five_prefs relaxed_pace 739403 true true.

(** The day's state in [north_prefs] once destination 10 has been visited
    from the inn: 75 minutes of travel, one activity. *)
Definition after_must_visit : DayState.t :=
  DayState.mk (9 * 60 + 75 + 60 + 90) 13.03 124.08 75 50.03771699005136 1 [].

Section Planner.

(** [_calculate_distance lat1 lon1 lat2 lon2], in km. *)
Variable _calculate_distance : float → float → float → float → float.
(** The built-ins [round(x, ndigits)] and [sum] over floats. *)
Variable py_round : float → Z → float.
Variable py_sum : list float → float.
(** [datetime.strptime(s, '%Y-%m-%d')]: the date's ordinal, [None] for a
    ValueError. *)
Variable strptime_date : string → option Z.

Definition _parse_start_date (now : Z) (prefs : TravelPreferences.t) : Z :=
  match TravelPreferences.start_date prefs with
  | Some s =>
      if String.eqb s "" then now
      else match strptime_date s with Some d => d | None => now end
  | None => now
  end.

Definition init (now : Z) (prefs : TravelPreferences.t) : result Service.t :=
  match PACE_RULES (TravelPreferences.pace_preference prefs) with
  | None => Raise KeyError
  | Some pace_config =>
      Ok (Service.mk prefs pace_config (_parse_start_date now prefs)
            (0 <? TravelPreferences.travel_time_hours prefs)%float
            (0 <? TravelPreferences.travel_time_hours prefs)%float)
  end.

(** ** RelevanceScorer: [_score_destinations] *)

Definition score_destination (prefs : TravelPreferences.t) (dest : Destination.t) : float :=
  let score := 0%float in
  let score :=
    fold_left (λ score interest,
      if bool_decide (Destination.category dest ∈ dict_get INTEREST_MAPPING interest [])
      then (score + 10)%float else score)
      (TravelPreferences.interests prefs) score in
  let score := if is_must_visit prefs dest then (score + 50)%float else score in
  let duration := int_or (Destination.avg_duration_minutes dest) 90 in
  let pace := TravelPreferences.pace_preference prefs in
  let score :=
    if String.eqb pace "relaxed" && (90 <=? duration) then (score + 5)%float
    else if String.eqb pace "packed" && (duration <=? 60) then (score + 5)%float
    else if String.eqb pace "moderate" then (score + 3)%float
    else score in
  let entrance_fee := coord_or (Destination.entrance_fee dest) 0%float in
  if (entrance_fee =? 0)%float then (score + 2)%float else score.

Definition _score_destinations (prefs : TravelPreferences.t)
    (destinations : list Destination.t) : list (Destination.t * float) :=
  let scored := (λ dest, (dest, score_destination prefs dest)) <$> destinations in
  sorted (λ a b, (snd b <? snd a)%float) scored.

(** ** GeoMath: [_estimate_travel_time] *)

Definition _estimate_travel_time (distance_km : float) : result Z :=
  int ((distance_km / 40) * 60)%float.

(** ** GeoClusterer: [_cluster_destinations] *)

(** The top destinations by score: [[dest for dest, score in ranked[:count]]]. *)
Definition top_by_score (self : Service.t)
    (ranked_destinations : list (Destination.t * float)) : list Destination.t :=
  let count := TravelPreferences.days (Service.prefs self)
               * snd (PaceConfig.activities_per_day (Service.pace_config self)) in
  fst <$> slice_to ranked_destinations count.

(** The inner loop over the ranked destinations for one accommodation; the
    state is [(must_visit_dests, nearby)]. *)
Fixpoint cluster_around (self : Service.t) (acc : Accommodation.t)
    (ranked_destinations : list (Destination.t * float))
    (must_visit_dests nearby : list Destination.t)
    : result (list Destination.t * list Destination.t) :=
  match ranked_destinations with
  | [] => Ok (must_visit_dests, nearby)
  | (dest, score) :: rest =>
      if is_must_visit (Service.prefs self) dest then
        if negb (dest_in dest must_visit_dests) then
          cluster_around self acc rest (must_visit_dests ++ [dest]) (nearby ++ [dest])
        else cluster_around self acc rest must_visit_dests nearby
      else
        lat1 ← float_of (Accommodation.latitude acc);
        lon1 ← float_of (Accommodation.longitude acc);
        lat2 ← float_of (Destination.latitude dest);
        lon2 ← float_of (Destination.longitude dest);
        if (_calculate_distance lat1 lon1 lat2 lon2 <=? 30)%float
        then cluster_around self acc rest must_visit_dests (nearby ++ [dest])
        else cluster_around self acc rest must_visit_dests nearby
  end.

(** The loop over the accommodations; the state is
    [(must_visit_dests, clusters)]. *)
Fixpoint cluster_accommodations (self : Service.t)
    (accommodations : list Accommodation.t)
    (ranked_destinations : list (Destination.t * float))
    (must_visit_dests : list Destination.t) (clusters : list (list Destination.t))
    : result (list (list Destination.t)) :=
  match accommodations with
  | [] => Ok clusters
  | acc :: rest =>
      '(must_visit_dests, nearby) ←
        cluster_around self acc ranked_destinations must_visit_dests [];
      cluster_accommodations self rest ranked_destinations must_visit_dests
        (if is_empty nearby then clusters else clusters ++ [nearby])
  end.

(** The fallback's loop: a must-visit destination missing from the top list
    is inserted at its front. *)
Definition ensure_must_visit (self : Service.t)
    (ranked_destinations : list (Destination.t * float))
    (top_destinations : list Destination.t) : list Destination.t :=
  fold_left (λ top '(dest, score),
    if is_must_visit (Service.prefs self) dest && negb (dest_in dest top)
    then dest :: top else top) ranked_destinations top_destinations.

Definition _cluster_destinations (self : Service.t)
    (ranked_destinations : list (Destination.t * float))
    (accommodations : list Accommodation.t) : result (list (list Destination.t)) :=
  if is_empty accommodations then Ok [top_by_score self ranked_destinations]
  else
    clusters ← cluster_accommodations self accommodations ranked_destinations [] [];
    if is_empty clusters then
      Ok [ensure_must_visit self ranked_destinations
            (top_by_score self ranked_destinations)]
    else Ok clusters.

(** ** DayScheduler: [_build_daily_itinerary] *)

(** Day 1 is a full travel day: travel from the origin, no same-day activity. *)
Definition arrival_travel_day (self : Service.t) : bool :=
  Service.needs_arrival_travel self
  && negb (TravelPreferences.activity_on_same_day (Service.prefs self)).

(** The first active day shares its date with the arrival. *)
Definition partial_arrival_day (self : Service.t) : bool :=
  Service.needs_arrival_travel self
  && TravelPreferences.activity_on_same_day (Service.prefs self).

Definition activity_start_day (self : Service.t) : Z :=
  if arrival_travel_day self then 2 else 1.

Definition activity_end_day (self : Service.t) : Z :=
  TravelPreferences.days (Service.prefs self).

Definition effective_days (self : Service.t) : Z :=
  let effective_days := TravelPreferences.days (Service.prefs self) in
  let effective_days :=
    if arrival_travel_day self then effective_days - 1 else effective_days in
  if Service.needs_departure_travel self then effective_days - 1 else effective_days.

Definition rest_days (self : Service.t) : list Z :=
  if 5 <=? effective_days self
  then [activity_start_day self + effective_days self `div` 2]
  else [].

Definition travel_minutes (self : Service.t) : result Z :=
  int (TravelPreferences.travel_time_hours (Service.prefs self) * 60)%float.

Definition _create_travel_day (self : Service.t) (day_number : Z)
    (current_accommodation : option Accommodation.t) (is_arrival : bool)
    : result DayPlan.t :=
  let current_date := Service.trip_start_date self + (day_number - 1) in
  let day_type := if is_arrival then "travel_to" else "travel_from" in
  minutes ← travel_minutes self;
  Ok (DayPlan.mk day_number current_date []
        (if is_arrival then current_accommodation else None)
        0 minutes 0%float false true day_type).

(** Deduplication of the pool by id, split into must-visit and others; the
    state is [(seen_ids, must_visit_dests, other_dests)]. *)
Definition split_pool (prefs : TravelPreferences.t)
    (destination_pool : list Destination.t)
    : gset Z * list Destination.t * list Destination.t :=
  fold_left (λ '(seen_ids, must_visit_dests, other_dests) dest,
    if bool_decide (Destination.id dest ∉ seen_ids) then
      let seen_ids := seen_ids ∪ {[Destination.id dest]} in
      if is_must_visit prefs dest
      then (seen_ids, must_visit_dests ++ [dest], other_dests)
      else (seen_ids, must_visit_dests, other_dests ++ [dest])
    else (seen_ids, must_visit_dests, other_dests))
    destination_pool (∅, [], []).

(** The other destinations, nearest to the accommodation first. *)
Definition sort_by_distance (current_accommodation : option Accommodation.t)
    (other_dests : list Destination.t) : list Destination.t :=
  let acc_lat :=
    match current_accommodation with
    | Some acc => coord_or (Accommodation.latitude acc) 12.97%float
    | None => 12.97%float
    end in
  let acc_lon :=
    match current_accommodation with
    | Some acc => coord_or (Accommodation.longitude acc) 124.00%float
    | None => 124.00%float
    end in
  let other_dests_with_distance :=
    (λ dest,
       let dest_lat := coord_or (Destination.latitude dest) 12.97%float in
       let dest_lon := coord_or (Destination.longitude dest) 124.00%float in
       (dest, _calculate_distance acc_lat acc_lon dest_lat dest_lon))
    <$> other_dests in
  fst <$> sorted (λ a b, (snd a <? snd b)%float) other_dests_with_distance.

Definition active_days (self : Service.t) : list Z :=
  List.filter (λ d, negb (bool_decide (d ∈ rest_days self)))
    (range (activity_start_day self) (activity_end_day self + 1)).

(** The round-robin loop over [enumerate(must_visit_dests)]. *)
Fixpoint distribute (active_days : list Z) (idx : nat)
    (must_visit_dests : list Destination.t)
    (must_visit_per_day : gmap Z (list Destination.t))
    : gmap Z (list Destination.t) :=
  match must_visit_dests with
  | [] => must_visit_per_day
  | dest :: rest =>
      let day_idx := (idx `mod` length active_days)%nat in
      match active_days !! day_idx with
      | Some day_num =>
          distribute active_days (S idx) rest
            (<[day_num := default [] (must_visit_per_day !! day_num) ++ [dest]]>
               must_visit_per_day)
      | None => must_visit_per_day
      end
  end.

Definition must_visit_per_day (self : Service.t)
    (must_visit_dests : list Destination.t) : gmap Z (list Destination.t) :=
  if negb (is_empty must_visit_dests) && negb (is_empty (active_days self))
  then distribute (active_days self) 0 must_visit_dests ∅
  else ∅.

(** The block both loops run once a destination is accepted. *)
Definition add_activity (self : Service.t) (dest : Destination.t)
    (dest_lat dest_lon distance : float) (travel_time : Z) (st : DayState.t)
    : DayState.t :=
  let current_time := DayState.current_time st + travel_time in
  let start_time := strftime_HM current_time in
  let duration := int_or (Destination.avg_duration_minutes dest) 90 in
  let current_time := current_time + duration in
  let end_time := strftime_HM current_time in
  let current_time :=
    current_time + PaceConfig.buffer_time (Service.pace_config self) in
  let activity :=
    Activity.mk dest start_time end_time duration travel_time distance
      "destination" in
  DayState.mk current_time dest_lat dest_lon
    (DayState.total_travel st + travel_time)
    (DayState.total_distance st + distance)%float
    (DayState.activities_added st + 1)
    (DayState.daily_activities st ++ [activity]).

(** The loop over the day's must-visit destinations.  The relaxed limits
    [max_travel_time * 1.5] and [max_daily_travel_time * 1.5] are compared
    with integers, so [t > m * 1.5] is written [2 * t > 3 * m]. *)
Fixpoint schedule_must_visit (self : Service.t) (num_activities : Z)
    (day_must_visit : list Destination.t) (st : DayState.t) : result DayState.t :=
  match day_must_visit with
  | [] => Ok st
  | dest :: rest =>
      if num_activities <=? DayState.activities_added st then Ok st
      else
        let dest_lat := coord_or (Destination.latitude dest) 12.97%float in
        let dest_lon := coord_or (Destination.longitude dest) 124.00%float in
        let distance :=
          _calculate_distance (DayState.last_lat st) (DayState.last_lon st)
            dest_lat dest_lon in
        travel_time ← _estimate_travel_time distance;
        if (3 * TravelPreferences.max_travel_time (Service.prefs self)
              <? 2 * travel_time)
           || (3 * PaceConfig.max_daily_travel_time (Service.pace_config self)
                 <? 2 * (DayState.total_travel st + travel_time))
        then schedule_must_visit self num_activities rest st
        else
          let st := add_activity self dest dest_lat dest_lon distance travel_time st in
          if PaceConfig.latest_end (Service.pace_config self) <? DayState.current_time st
          then Ok st
          else schedule_must_visit self num_activities rest st
  end.

(** The [while] loop over the other destinations.  [pending] is
    [other_dests[other_dest_index:]]: its head is
    [other_dests[other_dest_index]] and it is empty exactly when
    [other_dest_index < len(other_dests)] fails. *)
Fixpoint fill_remaining (self : Service.t) (num_activities : Z)
    (pending : list Destination.t) (other_dest_index : nat) (st : DayState.t)
    : result (nat * DayState.t) :=
  match pending with
  | [] => Ok (other_dest_index, st)
  | dest :: rest =>
      if negb (DayState.activities_added st <? num_activities)
      then Ok (other_dest_index, st)
      else
        let dest_lat := coord_or (Destination.latitude dest) 12.97%float in
        let dest_lon := coord_or (Destination.longitude dest) 124.00%float in
        let distance :=
          _calculate_distance (DayState.last_lat st) (DayState.last_lon st)
            dest_lat dest_lon in
        travel_time ← _estimate_travel_time distance;
        if TravelPreferences.max_travel_time (Service.prefs self) <? travel_time
        then fill_remaining self num_activities rest (S other_dest_index) st
        else if PaceConfig.max_daily_travel_time (Service.pace_config self)
                  <? DayState.total_travel st + travel_time
        then Ok (other_dest_index, st)
        else
          let st := add_activity self dest dest_lat dest_lon distance travel_time st in
          if PaceConfig.latest_end (Service.pace_config self) <? DayState.current_time st
          then Ok (S other_dest_index, st)
          else fill_remaining self num_activities rest (S other_dest_index) st
  end.

(** The return leg to the accommodation, added to the day's totals only. *)
Definition return_journey (current_accommodation : option Accommodation.t)
    (st : DayState.t) : result (Z * float) :=
  match current_accommodation, last (DayState.daily_activities st) with
  | Some acc, Some last_activity =>
      if truthy (Accommodation.latitude acc) then
        let last_dest_lat :=
          coord_or (Destination.latitude (Activity.destination last_activity))
            (DayState.last_lat st) in
        let last_dest_lon :=
          coord_or (Destination.longitude (Activity.destination last_activity))
            (DayState.last_lon st) in
        acc_lat ← float_of (Accommodation.latitude acc);
        acc_lon ← float_of (Accommodation.longitude acc);
        let return_distance :=
          _calculate_distance last_dest_lat last_dest_lon acc_lat acc_lon in
        return_travel_time ← _estimate_travel_time return_distance;
        Ok (DayState.total_travel st + return_travel_time,
            (DayState.total_distance st + return_distance)%float)
      else Ok (DayState.total_travel st, DayState.total_distance st)
  | _, _ => Ok (DayState.total_travel st, DayState.total_distance st)
  end.

(** Where a day starts: the accommodation, or the placeholder coordinate. *)
Definition start_location (current_accommodation : option Accommodation.t)
    : result (float * float) :=
  match current_accommodation with
  | Some acc =>
      if truthy (Accommodation.latitude acc) then
        last_lat ← float_of (Accommodation.latitude acc);
        last_lon ← float_of (Accommodation.longitude acc);
        Ok (last_lat, last_lon)
      else Ok (12.97%float, 124.00%float)
  | None => Ok (12.97%float, 124.00%float)
  end.

Definition num_activities_for (self : Service.t) (day : Z) : Z :=
  let is_first_activity_day := day =? activity_start_day self in
  let is_last_activity_day :=
    day =? activity_start_day self + effective_days self - 1 in
  let per_day := PaceConfig.activities_per_day (Service.pace_config self) in
  if is_first_activity_day && partial_arrival_day self then fst per_day
  else if is_last_activity_day then fst per_day
  else snd per_day.

Definition day_start_time (self : Service.t) (day : Z) : result Z :=
  if (day =? activity_start_day self) && partial_arrival_day self then
    travel_minutes ← travel_minutes self;
    Ok (6 * 60 + (travel_minutes + 30))
  else Ok (PaceConfig.earliest_start (Service.pace_config self)).

(** One iteration of the loop over the active days. *)
Definition build_day (self : Service.t)
    (current_accommodation : option Accommodation.t)
    (other_dests : list Destination.t)
    (must_visit_per_day : gmap Z (list Destination.t))
    (day : Z) (ts : TripState.t) : result TripState.t :=
  let current_date := Service.trip_start_date self + (day - 1) in
  if bool_decide (day ∈ rest_days self) then
    let day_plan :=
      DayPlan.mk (TripState.current_day ts) current_date [] current_accommodation
        0 0 0%float true false "rest" in
    Ok (TripState.mk (TripState.current_day ts + 1) (TripState.other_dest_index ts)
          (TripState.itinerary ts ++ [day_plan]))
  else
    let num_activities := num_activities_for self day in
    current_time ← day_start_time self day;
    '(last_lat, last_lon) ← start_location current_accommodation;
    let st := DayState.mk current_time last_lat last_lon 0 0%float 0 [] in
    let day_must_visit := default [] (must_visit_per_day !! day) in
    st ← schedule_must_visit self num_activities day_must_visit st;
    '(other_dest_index, st) ←
      fill_remaining self num_activities
        (drop (TripState.other_dest_index ts) other_dests)
        (TripState.other_dest_index ts) st;
    '(total_travel, total_distance) ← return_journey current_accommodation st;
    let day_plan :=
      DayPlan.mk (TripState.current_day ts) current_date
        (DayState.daily_activities st) current_accommodation
        (Z.of_nat (length (DayState.daily_activities st)))
        total_travel (py_round total_distance 2) false false "regular" in
    Ok (TripState.mk (TripState.current_day ts + 1) other_dest_index
          (TripState.itinerary ts ++ [day_plan])).

Fixpoint build_days (self : Service.t)
    (current_accommodation : option Accommodation.t)
    (other_dests : list Destination.t)
    (must_visit_per_day : gmap Z (list Destination.t))
    (days : list Z) (ts : TripState.t) : result TripState.t :=
  match days with
  | [] => Ok ts
  | day :: rest =>
      ts ← build_day self current_accommodation other_dests must_visit_per_day day ts;
      build_days self current_accommodation other_dests must_visit_per_day rest ts
  end.

Definition _build_daily_itinerary (self : Service.t)
    (clusters : list (list Destination.t))
    (accommodations : list Accommodation.t) : result (list DayPlan.t) :=
  let current_accommodation := head accommodations in
  let current_day := 1 in
  ts ←
    (if arrival_travel_day self then
       day_plan ← _create_travel_day self current_day current_accommodation true;
       Ok (TripState.mk (current_day + 1) 0 [day_plan])
     else Ok (TripState.mk current_day 0 []));
  let destination_pool := concat clusters in
  let '(_, must_visit_dests, other_dests) :=
    split_pool (Service.prefs self) destination_pool in
  let other_dests := sort_by_distance current_accommodation other_dests in
  let must_visit_per_day := must_visit_per_day self must_visit_dests in
  ts ←
    build_days self current_accommodation other_dests must_visit_per_day
      (range (activity_start_day self) (activity_end_day self + 1)) ts;
  if Service.needs_departure_travel self then
    day_plan ←
      _create_travel_day self (TripState.current_day ts) current_accommodation false;
    Ok (TripState.itinerary ts ++ [day_plan])
  else Ok (TripState.itinerary ts).

(** ** ItinerarySerializer: [_serialize_itinerary] *)

Definition serialize_activity (activity : Activity.t) : ActivityData.t :=
  let dest := Activity.destination activity in
  ActivityData.mk (Destination.id dest) (Destination.name dest)
    (Destination.category dest)
    (float_or_none (Destination.latitude dest))
    (float_or_none (Destination.longitude dest))
    (Activity.start_time activity) (Activity.end_time activity)
    (Activity.duration_minutes activity)
    (Activity.travel_time_from_previous activity)
    (py_round (Activity.distance_from_previous activity) 2)
    (coord_or (Destination.entrance_fee dest) 0%float)
    (Activity.activity_type activity).

Definition serialize_accommodation (acc : Accommodation.t) : AccommodationData.t :=
  AccommodationData.mk (Accommodation.id acc) (Accommodation.name acc)
    (Accommodation.type acc)
    (float_or_none (Accommodation.latitude acc))
    (float_or_none (Accommodation.longitude acc)).

Definition serialize_day (day_plan : DayPlan.t) : DayData.t :=
  DayData.mk (DayPlan.day_number day_plan) (DayPlan.date day_plan)
    (DayPlan.is_rest_day day_plan) (DayPlan.is_travel_day day_plan)
    (DayPlan.day_type day_plan)
    (serialize_activity <$> DayPlan.activities day_plan)
    (serialize_accommodation <$> DayPlan.accommodation day_plan)
    (DayPlan.total_activities day_plan)
    (DayPlan.total_travel_time day_plan)
    (DayPlan.total_distance day_plan).

(** [total_cost], accumulated activity by activity over the whole trip. *)
Definition total_cost (prefs : TravelPreferences.t) (itinerary : list DayPlan.t) : float :=
  fold_left (λ total_cost activity,
    let entrance_fee :=
      coord_or (Destination.entrance_fee (Activity.destination activity)) 0%float in
    (total_cost + entrance_fee * float_of_Z (TravelPreferences.pax prefs))%float)
    (concat (DayPlan.activities <$> itinerary)) 0%float.

Definition Z_sum (l : list Z) : Z := fold_left Z.add l 0.

Definition _serialize_itinerary (self : Service.t) (itinerary : list DayPlan.t)
    : Itinerary.t :=
  let days_data := serialize_day <$> itinerary in
  let total_destinations :=
    Z_sum ((λ day, Z.of_nat (length (DayData.activities day))) <$>
      List.filter (λ day, negb (DayData.is_rest_day day)
                          && negb (DayData.is_travel_day day)) days_data) in
  let total_travel_time :=
    Z_sum (DayData.total_travel_time_minutes <$> days_data) in
  let total_distance :=
    py_sum (DayData.total_distance_km <$>
      List.filter (λ day, negb (DayData.is_travel_day day)) days_data) in
  Itinerary.mk (Service.prefs self) days_data
    (Summary.mk total_destinations total_travel_time
       (py_round (float_of_Z total_travel_time / 60)%float 1)
       (py_round total_distance 2)
       (py_round (total_cost (Service.prefs self) itinerary) 2)
       "PHP").

(** ** The planner: [ItineraryPlannerService(preferences).generate_itinerary()]

    [now] is the date read by [datetime.now()]; [destinations] and
    [accommodations] are the rows of [Destination.objects] and
    [Accommodation.objects]. *)

Definition plan_days (self : Service.t) (destinations : list Destination.t)
    (accommodations : list Accommodation.t) : result (list DayPlan.t) :=
  let filtered_destinations := _filter_destinations (Service.prefs self) destinations in
  let ranked_destinations := _score_destinations (Service.prefs self) filtered_destinations in
  selected_accommodations ← _select_accommodations (Service.prefs self) accommodations;
  clusters ← _cluster_destinations self ranked_destinations selected_accommodations;
  _build_daily_itinerary self clusters selected_accommodations.

Definition generate_itinerary (now : Z) (prefs : TravelPreferences.t)
    (destinations : list Destination.t) (accommodations : list Accommodation.t)
    : result Itinerary.t :=
  self ← init now prefs;
  itinerary ← plan_days self destinations accommodations;
  Ok (_serialize_itinerary self itinerary).

(** ** Notions used in the statements *)

(** [dataclasses.replace(prefs, budget_category=b)] *)
Definition with_budget_category (prefs : TravelPreferences.t) (b : string)
    : TravelPreferences.t :=
  TravelPreferences.mk (TravelPreferences.days prefs) (TravelPreferences.pax prefs)
    b (TravelPreferences.starting_point prefs)
    (TravelPreferences.transport_mode prefs) (TravelPreferences.interests prefs)
    (TravelPreferences.pace_preference prefs) (TravelPreferences.has_children prefs)
    (TravelPreferences.has_seniors prefs) (TravelPreferences.has_disabilities prefs)
    (TravelPreferences.has_pets prefs) (TravelPreferences.include_accommodation prefs)
    (TravelPreferences.accommodation_types prefs)
    (TravelPreferences.max_travel_time prefs) (TravelPreferences.must_visit_ids prefs)
    (TravelPreferences.exclude_destination_ids prefs)
    (TravelPreferences.exclude_categories prefs)
    (TravelPreferences.accommodation_id prefs)
    (TravelPreferences.point_of_origin prefs)
    (TravelPreferences.travel_time_hours prefs)
    (TravelPreferences.activity_on_same_day prefs)
    (TravelPreferences.start_date prefs).

(** The destinations an itinerary visits, in schedule order. *)
Definition visited (itinerary : list DayPlan.t) : list Destination.t :=
  Activity.destination <$> concat (DayPlan.activities <$> itinerary).

(** The travel scheduled between a day's activities: the sum of their
    [travel_time_from_previous]. *)
Definition scheduled_travel (activities : list Activity.t) : Z :=
  Z_sum (Activity.travel_time_from_previous <$> activities).

(** The filters of the automatic accommodation selection, as one predicate. *)
Definition auto_eligible (prefs : TravelPreferences.t) (a : Accommodation.t) : bool :=
  Accommodation.is_active a
  && String.eqb (Accommodation.status a) "active"
  && bool_decide (Accommodation.budget_category a
       ∈ acceptable_budgets (TravelPreferences.budget_category prefs))
  && (is_empty (TravelPreferences.accommodation_types prefs)
      || bool_decide (Accommodation.type a
           ∈ TravelPreferences.accommodation_types prefs))
  && (negb (TravelPreferences.has_pets prefs) || Accommodation.pet_friendly a)
  && (negb (TravelPreferences.has_disabilities prefs)
      || Accommodation.wheelchair_friendly a).

(** A destination the clusterer measures: not a must-visit one. *)
Definition missing_coordinate (dest : Destination.t) : Prop :=
  Destination.latitude dest = None ∨ Destination.longitude dest = None.

(** The leg from the day's current location to a destination. *)
Definition leg_minutes (st : DayState.t) (dest : Destination.t) : result Z :=
  _estimate_travel_time
    (_calculate_distance (DayState.last_lat st) (DayState.last_lon st)
       (coord_or (Destination.latitude dest) 12.97%float)
       (coord_or (Destination.longitude dest) 124.00%float)).

(** What the iteration for [day] leaves behind: the day plan [dp] it appends
    under the number [current_day], and the shared index moved from [idx] to
    [idx']. *)
Record day_outcome (self : Service.t)
    (must_visit_per_day : gmap Z (list Destination.t))
    (other_dests : list Destination.t)
    (day current_day : Z) (idx : nat) (dp : DayPlan.t) (idx' : nat) : Prop := {
  outcome_number : DayPlan.day_number dp = current_day;
  outcome_date : DayPlan.date dp = Service.trip_start_date self + (day - 1);
  outcome_not_travel : DayPlan.is_travel_day dp = false;
  outcome_rest : DayPlan.is_rest_day dp = bool_decide (day ∈ rest_days self);
  outcome_rest_empty : day ∈ rest_days self → DayPlan.activities dp = [];
  outcome_index : (idx ≤ idx')%nat;
  outcome_visits :
    ∃ mv fill,
      DayPlan.activities dp = mv ++ fill
      ∧ Activity.destination <$> mv
          `sublist_of` default [] (must_visit_per_day !! day)
      ∧ Activity.destination <$> fill
          `sublist_of` take (idx' - idx) (drop idx other_dests)
      ∧ (0 ≤ PaceConfig.max_daily_travel_time (Service.pace_config self) →
         2 * scheduled_travel mv
           ≤ 3 * PaceConfig.max_daily_travel_time (Service.pace_config self))
      ∧ (fill = []
         ∨ scheduled_travel (mv ++ fill)
             ≤ PaceConfig.max_daily_travel_time (Service.pace_config self));
}.

(** The loop over the days, as the sequence of its outcomes. *)
Inductive days_outcome (self : Service.t)
    (must_visit_per_day : gmap Z (list Destination.t))
    (other_dests : list Destination.t)
    : list Z → Z → nat → list DayPlan.t → nat → Prop :=
| days_done current_day idx :
    days_outcome self must_visit_per_day other_dests [] current_day idx [] idx
| days_step day days current_day idx idx1 idx' dp plans :
    day_outcome self must_visit_per_day other_dests day current_day idx dp idx1 →
    days_outcome self must_visit_per_day other_dests days (current_day + 1)
      idx1 plans idx' →
    days_outcome self must_visit_per_day other_dests (day :: days) current_day
      idx (dp :: plans) idx'.

(** A travel day, present under the number [n] exactly when [b] holds. *)
Definition travel_days (b : bool) (n : Z) (l : list DayPlan.t) : Prop :=
  if b then
    ∃ d, l = [d] ∧ DayPlan.day_number d = n ∧ DayPlan.is_travel_day d = true
         ∧ DayPlan.is_rest_day d = false ∧ DayPlan.activities d = []
  else l = [].

(** The invariant of the deduplication loop: [seen_ids] holds the ids of the
    destinations kept so far, no id is kept twice, and the destinations are
    split by membership in the must-visit list. *)
Definition pool_invariant (prefs : TravelPreferences.t)
    (s : gset Z * list Destination.t * list Destination.t) : Prop :=
  let '(seen_ids, must_visit_dests, other_dests) := s in
  (∀ i, i ∈ seen_ids ↔ i ∈ Destination.id <$> (must_visit_dests ++ other_dests))
  ∧ NoDup (Destination.id <$> (must_visit_dests ++ other_dests))
  ∧ Forall (λ d, is_must_visit prefs d = true) must_visit_dests
  ∧ Forall (λ d, is_must_visit prefs d = false) other_dests.

(** [must_visit_per_day.get(day, [])] *)
Definition day_must_visit (must_visit_per_day : gmap Z (list Destination.t))
    (day : Z) : list Destination.t :=
  default [] (must_visit_per_day !! day).

(** The number of activities of an itinerary that reference the
    destination [i]. *)
Definition activities_referencing (i : Z) (itinerary : list DayPlan.t) : nat :=
  length (List.filter (λ d, Destination.id d =? i) (visited itinerary)).

(** The hard eligibility conditions of a destination, read off the filters
    of [_filter_destinations]. *)
Definition eligible (prefs : TravelPreferences.t) (d : Destination.t) : Prop :=
  Destination.is_active d = true
  ∧ Destination.status d = "active"%string
  ∧ (Destination.id d ∉ TravelPreferences.exclude_destination_ids prefs)
  ∧ (Destination.category d ∉ TravelPreferences.exclude_categories prefs)
  ∧ (Destination.budget_category d
       ∈ acceptable_budgets (TravelPreferences.budget_category prefs))
  ∧ ((TravelPreferences.has_children prefs = true)
     → (Destination.kid_friendly d = true))
  ∧ ((TravelPreferences.has_seniors prefs = true)
     → (Destination.senior_friendly d = true))
  ∧ ((TravelPreferences.has_disabilities prefs = true)
     → (Destination.wheelchair_friendly d = true)).

(** The day has no leg back to the accommodation: no accommodation was
    selected, its latitude is missing or zero, or nothing was scheduled. *)
Definition no_return_leg (current_accommodation : option Accommodation.t)
    (activities : list Activity.t) : Prop :=
  match current_accommodation with
  | Some acc => truthy (Accommodation.latitude acc) = false ∨ activities = []
  | None => True
  end.

(** What the plan of a day of the loop records. *)
Record day_record (self : Service.t)
    (current_accommodation : option Accommodation.t) (dp : DayPlan.t) : Prop := {
  record_date :
    DayPlan.date dp = Service.trip_start_date self + (DayPlan.day_number dp - 1);
  record_accommodation : DayPlan.accommodation dp = current_accommodation;
  record_total :
    DayPlan.total_activities dp = Z.of_nat (length (DayPlan.activities dp));
  record_cap :
    DayPlan.total_activities dp
    ≤ Z.max 0 (num_activities_for self (DayPlan.day_number dp));
  record_not_travel : DayPlan.is_travel_day dp = false;
  record_kind :
    if DayPlan.is_rest_day dp
    then DayPlan.day_type dp = "rest"%string ∧ DayPlan.activities dp = []
         ∧ DayPlan.total_travel_time dp = 0
    else DayPlan.day_type dp = "regular"%string;
  record_legs :
    no_return_leg current_accommodation (DayPlan.activities dp) →
    DayPlan.total_travel_time dp = scheduled_travel (DayPlan.activities dp);
  record_bound :
    0 ≤ PaceConfig.max_daily_travel_time (Service.pace_config self) →
    2 * scheduled_travel (DayPlan.activities dp)
      ≤ 3 * PaceConfig.max_daily_travel_time (Service.pace_config self);
}.

(** What the plan of a travel day records. *)
Record travel_record (self : Service.t)
    (current_accommodation : option Accommodation.t) (is_arrival : bool)
    (dp : DayPlan.t) : Prop := {
  travel_date :
    DayPlan.date dp = Service.trip_start_date self + (DayPlan.day_number dp - 1);
  travel_accommodation :
    DayPlan.accommodation dp = if is_arrival then current_accommodation else None;
  travel_flags :
    DayPlan.is_travel_day dp = true ∧ DayPlan.is_rest_day dp = false;
  travel_type :
    DayPlan.day_type dp
    = if is_arrival then "travel_to"%string else "travel_from"%string;
  travel_empty : DayPlan.activities dp = [] ∧ DayPlan.total_activities dp = 0;
  travel_time : travel_minutes self = Ok (DayPlan.total_travel_time dp);
}.

(** The kind of a day plan, as its flags and its [day_type] give it. *)
Definition day_kind (self : Service.t) (dp : DayPlan.t) : Prop :=
  match DayPlan.is_travel_day dp, DayPlan.is_rest_day dp with
  | true, true => False
  | true, false =>
      (DayPlan.day_type dp = "travel_to"%string
       ∨ DayPlan.day_type dp = "travel_from"%string
         ∧ DayPlan.accommodation dp = None)
      ∧ DayPlan.activities dp = []
      ∧ travel_minutes self = Ok (DayPlan.total_travel_time dp)
  | false, true =>
      DayPlan.day_type dp = "rest"%string ∧ DayPlan.activities dp = []
      ∧ DayPlan.total_travel_time dp = 0
  | false, false => DayPlan.day_type dp = "regular"%string
  end.

(** A list in the order of [lt]: no element is directly followed by one
    that goes before it. *)
Fixpoint ordered {A} (lt : A → A → bool) (l : list A) : Prop :=
  match l with
  | x :: l' =>
      match l' with y :: _ => lt y x = false | [] => True end ∧ ordered lt l'
  | [] => True
  end.

(** The distance the scheduler sorts a destination by: from the
    accommodation, or from the placeholder coordinate. *)
Definition distance_from (current_accommodation : option Accommodation.t)
    (dest : Destination.t) : float :=
  _calculate_distance
    match current_accommodation with
    | Some acc => coord_or (Accommodation.latitude acc) 12.97%float
    | None => 12.97%float
    end
    match current_accommodation with
    | Some acc => coord_or (Accommodation.longitude acc) 124.00%float
    | None => 124.00%float
    end
    (coord_or (Destination.latitude dest) 12.97%float)
    (coord_or (Destination.longitude dest) 124.00%float).

(** The active (non-travel) day count of an itinerary: the number of its
    DayPlans that are not travel days. *)
Definition active_count (itinerary : list DayPlan.t) : nat :=
  length (List.filter (λ dp, negb (DayPlan.is_travel_day dp)) itinerary).

(** An accommodation without a latitude or without a longitude. *)
Definition accommodation_missing_coordinate (acc : Accommodation.t) : Prop :=
  Accommodation.latitude acc = None ∨ Accommodation.longitude acc = None.

(** The accommodation of the trip has a latitude, neither null nor zero, and
    no longitude. *)
Definition missing_longitude
    (current_accommodation : option Accommodation.t) : Prop :=
  ∃ acc, current_accommodation = Some acc
         ∧ truthy (Accommodation.latitude acc) = true
         ∧ Accommodation.longitude acc = None.

(** ** The exception monad *)

Lemma bind_Ok {A B} (m : result A) (k : A → result B) (b : B) :
  m ≫= k = Ok b ↔ ∃ a, m = Ok a ∧ k a = Ok b.
Proof.
  destruct m as [a|e]; simpl.
  - split; [eauto | intros (a' & [= ->] & H); exact H].
  - split; [discriminate | intros (a' & [=] & _)].
Qed.

Lemma Ok_inj {A} (a b : A) : Ok a = Ok b → a = b.
Proof. by intros [= ->]. Qed.

Ltac inv_ok :=
  repeat match goal with
    | H : _ ≫= _ = Ok _ |- _ =>
        apply bind_Ok in H; destruct H as (? & ? & H)
    | H : Ok ?a = Ok ?b |- _ =>
        apply Ok_inj in H;
        first [subst b | subst a | idtac]
    | H : Raise _ = Ok _ |- _ => discriminate H
    end.

(** ** Filters preserve order and are monotone in their predicate *)

Lemma filter_sublist_mono {A} (f g : A → bool) (l : list A) :
  (∀ x, f x = true → g x = true) →
  sublist (List.filter f l) (List.filter g l).
Proof.
  intros Hfg. induction l as [|x l IH]; simpl; [constructor|].
  destruct (f x) eqn:Hf.
  - rewrite (Hfg x Hf). by constructor.
  - destruct (g x); [by constructor | exact IH].
Qed.

Lemma filter_sublist_proper {A} (f : A → bool) (l k : list A) :
  sublist l k → sublist (List.filter f l) (List.filter f k).
Proof.
  induction 1 as [|x l k _ IH|x l k _ IH]; simpl.
  - constructor.
  - destruct (f x); [by constructor | exact IH].
  - destruct (f x); [by constructor | exact IH].
Qed.

Lemma acceptable_budgets_low_medium (b : string) :
  b ∈ acceptable_budgets "low" → b ∈ acceptable_budgets "medium".
Proof.
  unfold acceptable_budgets; simpl. rewrite !elem_of_cons, !elem_of_nil.
  intros [->|[]]. by left.
Qed.

Lemma acceptable_budgets_medium_high (b : string) :
  b ∈ acceptable_budgets "medium" → b ∈ acceptable_budgets "high".
Proof.
  unfold acceptable_budgets; simpl. rewrite !elem_of_cons, !elem_of_nil.
  intros [->|[->|[]]]; [by left | by right; left].
Qed.

(** Destination filtering is monotone in the set of acceptable budgets. *)
Lemma filter_destinations_mono (prefs : TravelPreferences.t) (b1 b2 : string)
    (catalog : list Destination.t) :
  (∀ b, b ∈ acceptable_budgets b1 → b ∈ acceptable_budgets b2) →
  sublist (_filter_destinations (with_budget_category prefs b1) catalog)
          (_filter_destinations (with_budget_category prefs b2) catalog).
Proof.
  intros Hb. unfold _filter_destinations. simpl.
  repeat match goal with
    | |- sublist (if ?c then _ else _) (if ?c then _ else _) => destruct c
    | |- sublist (List.filter ?f _) (List.filter ?f _) =>
        apply filter_sublist_proper
    end;
    apply filter_sublist_mono; intros d Hd;
    apply bool_decide_eq_true; apply bool_decide_eq_true in Hd; auto.
Qed.

(** C8. Destination filtering is monotone in the traveler's budget tier: for
    a fixed catalog and otherwise fixed preferences, the destinations
    eligible at tier low are, in catalog order, among those eligible at tier
    medium, and these among those eligible at tier high; raising the tier
    never removes an eligible candidate. *)
Theorem C8_budget_filter_monotone (prefs : TravelPreferences.t)
    (catalog : list Destination.t) :
  sublist (_filter_destinations (with_budget_category prefs "low") catalog)
          (_filter_destinations (with_budget_category prefs "medium") catalog)
  ∧ sublist (_filter_destinations (with_budget_category prefs "medium") catalog)
            (_filter_destinations (with_budget_category prefs "high") catalog)
  ∧ ∀ d, d ∈ _filter_destinations (with_budget_category prefs "low") catalog →
         d ∈ _filter_destinations (with_budget_category prefs "medium") catalog
         ∧ d ∈ _filter_destinations (with_budget_category prefs "high") catalog.
Proof.
  pose proof (filter_destinations_mono prefs "low" "medium" catalog
                acceptable_budgets_low_medium) as Hlm.
  pose proof (filter_destinations_mono prefs "medium" "high" catalog
                acceptable_budgets_medium_high) as Hmh.
  split; [exact Hlm|]. split; [exact Hmh|].
  intros d Hd. split.
  - eapply elem_of_sublist; [exact Hd | exact Hlm].
  - eapply elem_of_sublist; [|exact Hmh]. eapply elem_of_sublist; [exact Hd | exact Hlm].
Qed.

(** ** AccommodationSelector *)

Lemma filter_and {A} (f g : A → bool) (l : list A) :
  List.filter g (List.filter f l) = List.filter (λ x, f x && g x) l.
Proof.
  induction l as [|x l IH]; simpl; [done|].
  destruct (f x); simpl; [destruct (g x)|]; by rewrite IH.
Qed.

Lemma filter_if {A} (c : bool) (f : A → bool) (l : list A) :
  (if c then List.filter f l else l) = List.filter (λ x, negb c || f x) l.
Proof.
  destruct c; simpl; [done|]. induction l as [|x l IH]; simpl; by rewrite <- ?IH.
Qed.

Lemma filter_unless {A} (c : bool) (f : A → bool) (l : list A) :
  (if c then l else List.filter f l) = List.filter (λ x, c || f x) l.
Proof.
  destruct c; simpl; [|done]. induction l as [|x l IH]; simpl; by rewrite <- ?IH.
Qed.

(** The automatic selection is the first one or two eligible rows. *)
Lemma auto_select_accommodations_spec (prefs : TravelPreferences.t)
    (catalog : list Accommodation.t) :
  auto_select_accommodations prefs catalog
  = take (if TravelPreferences.days prefs <=? 3 then 1%nat else 2%nat)
      (List.filter (auto_eligible prefs) catalog).
Proof.
  unfold auto_select_accommodations.
  rewrite filter_unless, filter_if, filter_if, !filter_and.
  replace (slice_to _ (if TravelPreferences.days prefs <=? 3 then 1 else 2))
    with (take (if TravelPreferences.days prefs <=? 3 then 1%nat else 2%nat)
            (List.filter (auto_eligible prefs) catalog)); [done|].
  unfold slice_to.
  destruct (TravelPreferences.days prefs <=? 3); simpl; f_equal;
    apply List.filter_ext; intros a; unfold auto_eligible;
    by rewrite !andb_assoc.
Qed.

(** With unique primary keys, [get] finds the active row of a given id. *)
Lemma accommodation_get_found (catalog : list Accommodation.t) (a : Accommodation.t) :
  NoDup (Accommodation.id <$> catalog) →
  a ∈ catalog →
  Accommodation.is_active a = true →
  Accommodation.status a = "active"%string →
  accommodation_get catalog (Accommodation.id a) = Ok (Some a).
Proof.
  intros Hnd Hin Hact Hst. unfold accommodation_get.
  enough (List.filter
            (λ a', (Accommodation.id a' =? Accommodation.id a)
                   && Accommodation.is_active a'
                   && String.eqb (Accommodation.status a') "active") catalog
          = [a]) as -> by done.
  induction catalog as [|x l IH]; [by apply elem_of_nil in Hin|].
  rewrite fmap_cons in Hnd. apply NoDup_cons in Hnd as [Hx Hnd].
  apply elem_of_cons in Hin as [<-|Hin]; simpl.
  - rewrite Z.eqb_refl, Hact, Hst. simpl. f_equal.
    clear IH. induction l as [|y l IH]; simpl; [done|].
    rewrite fmap_cons in Hx, Hnd. apply not_elem_of_cons in Hx as [Hne Hx].
    apply NoDup_cons in Hnd as [_ Hnd].
    destruct (Z.eqb_spec (Accommodation.id y) (Accommodation.id a)) as [E|_];
      [by symmetry in E|]. simpl. by apply IH.
  - destruct (Z.eqb_spec (Accommodation.id x) (Accommodation.id a)) as [E|_].
    + exfalso. apply Hx. rewrite E. by apply list_elem_of_fmap_2.
    + simpl. by apply IH.
Qed.

Lemma accommodation_get_missing (catalog : list Accommodation.t) (aid : Z) :
  (∀ a, a ∈ catalog → Accommodation.id a = aid →
        ¬ (Accommodation.is_active a = true
           ∧ Accommodation.status a = "active"%string)) →
  accommodation_get catalog aid = Ok None.
Proof.
  intros Hno. unfold accommodation_get.
  enough (List.filter
            (λ a', (Accommodation.id a' =? aid)
                   && Accommodation.is_active a'
                   && String.eqb (Accommodation.status a') "active") catalog
          = []) as -> by done.
  induction catalog as [|x l IH]; simpl; [done|].
  destruct (_ && _) eqn:E.
  - exfalso. apply andb_prop in E as [E Hst]. apply andb_prop in E as [Hid Hact].
    apply (Hno x); [apply elem_of_cons; by left | by apply Z.eqb_eq |].
    split; [done | by apply String.eqb_eq].
  - apply IH. intros a Ha. apply Hno. apply elem_of_cons; by right.
Qed.

(** C7. With accommodation inclusion enabled and an explicit accommodation
    id supplied: when the id resolves to an active record, the selector
    returns exactly that accommodation as a singleton list, whatever its
    budget tier, type, pet and wheelchair flags; when it resolves to no
    active record, the selector does not raise and returns the automatic
    selection, the first 1 eligible row for a trip of at most 3 days and the
    first 2 otherwise. *)
Theorem C7_explicit_accommodation (prefs : TravelPreferences.t)
    (catalog : list Accommodation.t) (aid : Z) :
  TravelPreferences.include_accommodation prefs = true →
  TravelPreferences.accommodation_id prefs = Some aid →
  aid ≠ 0 →
  (∀ a, NoDup (Accommodation.id <$> catalog) →
        a ∈ catalog → Accommodation.id a = aid →
        Accommodation.is_active a = true →
        Accommodation.status a = "active"%string →
        _select_accommodations prefs catalog = Ok [a])
  ∧ ((∀ a, a ∈ catalog → Accommodation.id a = aid →
           ¬ (Accommodation.is_active a = true
              ∧ Accommodation.status a = "active"%string)) →
     _select_accommodations prefs catalog
     = Ok (take (if TravelPreferences.days prefs <=? 3 then 1%nat else 2%nat)
             (List.filter (auto_eligible prefs) catalog))).
Proof.
  intros Hincl Hid Hnz. unfold _select_accommodations.
  rewrite Hincl, Hid. simpl.
  destruct (Z.eqb_spec aid 0) as [?|_]; [done|]. split.
  - intros a Hnd Hin <- Hact Hst.
    by rewrite (accommodation_get_found catalog a Hnd Hin Hact Hst).
  - intros Hno. rewrite (accommodation_get_missing catalog aid Hno). simpl.
    by rewrite auto_select_accommodations_spec.
Qed.

(** ** GeoClusterer: missing coordinates *)

Lemma cluster_around_raises (self : Service.t) (acc : Accommodation.t)
    (ranked_destinations : list (Destination.t * float))
    (must_visit_dests nearby : list Destination.t) :
  (∃ dest score, (dest, score) ∈ ranked_destinations
                 ∧ is_must_visit (Service.prefs self) dest = false
                 ∧ missing_coordinate dest) →
  cluster_around self acc ranked_destinations must_visit_dests nearby
  = Raise TypeError.
Proof.
  revert must_visit_dests nearby.
  induction ranked_destinations as [|[d s] rest IH]; intros mv nearby (dest & score & Hin & Hmv & Hmiss).
  - by apply elem_of_nil in Hin.
  - assert (d = dest ∨ ∃ dest score, (dest, score) ∈ rest
                 ∧ is_must_visit (Service.prefs self) dest = false
                 ∧ missing_coordinate dest) as Hcase.
    { apply elem_of_cons in Hin as [[= -> ->]|Hin]; [by left | right; eauto]. }
    simpl. destruct (is_must_visit (Service.prefs self) d) eqn:Hd.
    + destruct Hcase as [->|Hrest]; [congruence|].
      destruct (negb _); by apply IH.
    + destruct (Accommodation.latitude acc); simpl; [|done].
      destruct (Accommodation.longitude acc); simpl; [|done].
      destruct (Destination.latitude d) eqn:Hlat; simpl; [|done].
      destruct (Destination.longitude d) eqn:Hlon; simpl; [|done].
      destruct Hcase as [->|Hrest].
      * destruct Hmiss; congruence.
      * destruct (_ <=? _)%float; by apply IH.
Qed.

(** C6 (as the code behaves). Whenever an accommodation was selected and a
    ranked destination outside the must-visit list has a null latitude or
    longitude, [_cluster_destinations] raises a TypeError: the clusterer
    converts the coordinates with [float] and substitutes no placeholder. *)
Theorem C6_cluster_raises_on_null_coordinate (self : Service.t)
    (ranked_destinations : list (Destination.t * float))
    (acc : Accommodation.t) (accommodations : list Accommodation.t)
    (dest : Destination.t) (score : float) :
  (dest, score) ∈ ranked_destinations →
  is_must_visit (Service.prefs self) dest = false →
  missing_coordinate dest →
  _cluster_destinations self ranked_destinations (acc :: accommodations)
  = Raise TypeError.
Proof.
  intros Hin Hmv Hmiss. unfold _cluster_destinations. simpl.
  rewrite cluster_around_raises; [done|]. eauto.
Qed.

(** ** DayScheduler: the rejection policy of the fill loop *)

Lemma drop_lookup_cons {A} (l : list A) (i : nat) (x : A) :
  l !! i = Some x → drop i l = x :: drop (S i) l.
Proof.
  revert i. induction l as [|y l IH]; intros [|i]; simpl; try done.
  - by intros [= ->].
  - apply IH.
Qed.

(** C4. In the fill loop, with a free slot left and the filler at the shared
    index [i]: when its leg exceeds the traveler's [max_travel_time], the
    loop goes on from index [i + 1] with the day's state unchanged (the
    filler is passed for good and the next one is tried); when the leg is
    within [max_travel_time] but would push the day's travel past the pace's
    [max_daily_travel_time], the loop stops with the index still [i], the
    day ends with the trip's index at [i], and the next day's loop starts at
    that same filler. *)
Theorem C4_filler_rejection_policy (self : Service.t) (num_activities : Z)
    (other_dests : list Destination.t) (i : nat) (dest : Destination.t)
    (st : DayState.t) (travel_time : Z) :
  other_dests !! i = Some dest →
  DayState.activities_added st < num_activities →
  leg_minutes st dest = Ok travel_time →
  (TravelPreferences.max_travel_time (Service.prefs self) < travel_time →
   fill_remaining self num_activities (drop i other_dests) i st
   = fill_remaining self num_activities (drop (S i) other_dests) (S i) st)
  ∧ (travel_time ≤ TravelPreferences.max_travel_time (Service.prefs self) →
     PaceConfig.max_daily_travel_time (Service.pace_config self)
       < DayState.total_travel st + travel_time →
     fill_remaining self num_activities (drop i other_dests) i st = Ok (i, st)
     ∧ ∀ current_accommodation must_visit_per_day day ts ts' t0 loc,
         TripState.other_dest_index ts = i →
         num_activities = num_activities_for self day →
         day ∉ rest_days self →
         day_start_time self day = Ok t0 →
         start_location current_accommodation = Ok loc →
         schedule_must_visit self num_activities
           (default [] (must_visit_per_day !! day))
           (DayState.mk t0 loc.1 loc.2 0 0%float 0 []) = Ok st →
         build_day self current_accommodation other_dests must_visit_per_day
           day ts = Ok ts' →
         TripState.other_dest_index ts' = i
         ∧ head (drop (TripState.other_dest_index ts') other_dests) = Some dest).
Proof.
  intros Hi Hslot Hleg. rewrite (drop_lookup_cons _ _ _ Hi).
  unfold leg_minutes in Hleg. split.
  - intros Hfar. simpl.
    destruct (Z.ltb_spec (DayState.activities_added st) num_activities); [|lia].
    simpl. rewrite Hleg. simpl.
    by destruct (Z.ltb_spec (TravelPreferences.max_travel_time (Service.prefs self))
                   travel_time); [|lia].
  - intros Hnear Hbudget.
    assert (fill_remaining self num_activities (dest :: drop (S i) other_dests) i st
            = Ok (i, st)) as Hstop.
    { simpl.
      destruct (Z.ltb_spec (DayState.activities_added st) num_activities); [|lia].
      simpl. rewrite Hleg. simpl.
      destruct (Z.ltb_spec (TravelPreferences.max_travel_time (Service.prefs self))
                  travel_time); [lia|].
      by destruct (Z.ltb_spec
                     (PaceConfig.max_daily_travel_time (Service.pace_config self))
                     (DayState.total_travel st + travel_time)); [|lia]. }
    split; [exact Hstop|].
    intros acc mvpd day ts ts' t0 [la lo] Hidx -> Hrest Ht0 Hloc Hmv Hday.
    unfold build_day in Hday. rewrite bool_decide_eq_false_2 in Hday by done.
    rewrite Ht0, Hloc in Hday. simpl in Hday, Hmv. rewrite Hmv in Hday. simpl in Hday.
    rewrite Hidx, (drop_lookup_cons _ _ _ Hi), Hstop in Hday. simpl in Hday.
    inv_ok. destruct x as [tt td]. inv_ok. simpl.
    by rewrite (drop_lookup_cons _ _ _ Hi).
Qed.

(** ** DayScheduler: what one day's two loops do *)

Lemma Z_sum_from (l : list Z) (a : Z) : fold_left Z.add l a = a + Z_sum l.
Proof.
  unfold Z_sum. revert a. induction l as [|x l IH]; intros a; simpl; [lia|].
  rewrite (IH (a + x)), (IH (0 + x)). lia.
Qed.

Lemma scheduled_travel_nil : scheduled_travel [] = 0.
Proof. reflexivity. Qed.

Lemma scheduled_travel_cons (a : Activity.t) (l : list Activity.t) :
  scheduled_travel (a :: l)
  = Activity.travel_time_from_previous a + scheduled_travel l.
Proof.
  unfold scheduled_travel. rewrite fmap_cons. unfold Z_sum at 1. simpl.
  by rewrite Z_sum_from.
Qed.

Lemma scheduled_travel_app (l k : list Activity.t) :
  scheduled_travel (l ++ k) = scheduled_travel l + scheduled_travel k.
Proof.
  induction l as [|a l IH]; simpl; [by rewrite scheduled_travel_nil|].
  rewrite !scheduled_travel_cons, IH. lia.
Qed.

(** What [add_activity] changes. *)
Lemma add_activity_spec (self : Service.t) (dest : Destination.t)
    (dest_lat dest_lon distance : float) (travel_time : Z) (st : DayState.t) :
  ∃ activity,
    DayState.daily_activities
      (add_activity self dest dest_lat dest_lon distance travel_time st)
    = DayState.daily_activities st ++ [activity]
    ∧ Activity.destination activity = dest
    ∧ Activity.travel_time_from_previous activity = travel_time
    ∧ DayState.total_travel
        (add_activity self dest dest_lat dest_lon distance travel_time st)
      = DayState.total_travel st + travel_time
    ∧ DayState.activities_added
        (add_activity self dest dest_lat dest_lon distance travel_time st)
      = DayState.activities_added st + 1.
Proof. eexists. repeat split. Qed.

#[local] Opaque add_activity.

(** The must-visit loop appends activities for a sublist of the day's
    must-visit destinations and keeps the day's travel within the relaxed
    daily limit. *)
Lemma schedule_must_visit_spec (self : Service.t) (num_activities : Z)
    (day_must_visit : list Destination.t) (st st' : DayState.t) :
  schedule_must_visit self num_activities day_must_visit st = Ok st' →
  ∃ added,
    DayState.daily_activities st' = DayState.daily_activities st ++ added
    ∧ Activity.destination <$> added `sublist_of` day_must_visit
    ∧ DayState.total_travel st' = DayState.total_travel st + scheduled_travel added
    ∧ (2 * DayState.total_travel st
         ≤ 3 * PaceConfig.max_daily_travel_time (Service.pace_config self) →
       2 * DayState.total_travel st'
         ≤ 3 * PaceConfig.max_daily_travel_time (Service.pace_config self)).
Proof.
  revert st. induction day_must_visit as [|dest rest IH]; intros st H; simpl in H.
  - inv_ok. exists []. rewrite app_nil_r, scheduled_travel_nil.
    repeat split; [constructor | lia | done].
  - destruct (num_activities <=? DayState.activities_added st).
    { inv_ok. exists []. rewrite app_nil_r, scheduled_travel_nil.
      repeat split; [apply sublist_nil_l | lia | done]. }
    apply bind_Ok in H as (travel_time & _ & H).
    destruct (Z.ltb_spec
                (3 * TravelPreferences.max_travel_time (Service.prefs self))
                (2 * travel_time)) as [_|_]; simpl in H.
    { apply IH in H as (added & ? & ? & ? & ?). exists added.
      repeat split; [done | by apply sublist_cons | done | done]. }
    destruct (Z.ltb_spec
                (3 * PaceConfig.max_daily_travel_time (Service.pace_config self))
                (2 * (DayState.total_travel st + travel_time))) as [_|Hfit];
      simpl in H.
    { apply IH in H as (added & ? & ? & ? & ?). exists added.
      repeat split; [done | by apply sublist_cons | done | done]. }
    match type of H with context [add_activity ?s ?d ?la ?lo ?di ?t ?st0] =>
      destruct (add_activity_spec s d la lo di t st0)
        as (activity & Hacts & Hdest & Htime & Htotal & _);
      set (st1 := add_activity s d la lo di t st0) in *
    end.
    destruct (_ <? DayState.current_time st1).
    + inv_ok. exists [activity].
      rewrite scheduled_travel_cons, scheduled_travel_nil, Htime.
      repeat split; [done | | lia | lia].
      simpl. rewrite Hdest. apply sublist_skip, sublist_nil_l.
    + apply IH in H as (added & Ha & Hs & Ht & Hb). exists (activity :: added).
      rewrite scheduled_travel_cons, Htime.
      repeat split.
      * rewrite Ha, Hacts, <- app_assoc. done.
      * simpl. rewrite Hdest. by apply sublist_skip.
      * lia.
      * intros _. apply Hb. lia.
Qed.

(** The fill loop appends activities for a sublist of the fillers it passes
    over, moves the shared index forward only, and any filler it schedules
    leaves the day's travel within the daily limit. *)
Lemma fill_remaining_spec (self : Service.t) (num_activities : Z)
    (pending : list Destination.t) (idx idx' : nat) (st st' : DayState.t) :
  fill_remaining self num_activities pending idx st = Ok (idx', st') →
  ∃ added,
    DayState.daily_activities st' = DayState.daily_activities st ++ added
    ∧ (idx ≤ idx')%nat
    ∧ Activity.destination <$> added `sublist_of` take (idx' - idx) pending
    ∧ DayState.total_travel st' = DayState.total_travel st + scheduled_travel added
    ∧ (added = []
       ∨ DayState.total_travel st'
           ≤ PaceConfig.max_daily_travel_time (Service.pace_config self)).
Proof.
  revert idx st. induction pending as [|dest rest IH]; intros idx st H; simpl in H.
  - inv_ok. injection H as <- <-. exists []. rewrite app_nil_r, scheduled_travel_nil.
    repeat split; [lia | apply sublist_nil_l | lia | by left].
  - destruct (negb _).
    { inv_ok. injection H as <- <-. exists []. rewrite app_nil_r, scheduled_travel_nil.
      repeat split; [lia | apply sublist_nil_l | lia | by left]. }
    apply bind_Ok in H as (travel_time & _ & H).
    destruct (Z.ltb_spec (TravelPreferences.max_travel_time (Service.prefs self))
                travel_time) as [_|_].
    { apply IH in H as (added & Ha & Hi & Hs & Ht & Hb). exists added.
      repeat split; [done | lia | | done | done].
      replace (idx' - idx)%nat with (S (idx' - S idx)) by lia.
      simpl. by apply sublist_cons. }
    destruct (Z.ltb_spec
                (PaceConfig.max_daily_travel_time (Service.pace_config self))
                (DayState.total_travel st + travel_time)) as [_|Hfit].
    { inv_ok. injection H as <- <-. exists []. rewrite app_nil_r, scheduled_travel_nil.
      repeat split; [lia | apply sublist_nil_l | lia | by left]. }
    match type of H with context [add_activity ?s ?d ?la ?lo ?di ?t ?st0] =>
      destruct (add_activity_spec s d la lo di t st0)
        as (activity & Hacts & Hdest & Htime & Htotal & _);
      set (st1 := add_activity s d la lo di t st0) in *
    end.
    destruct (_ <? DayState.current_time st1).
    + inv_ok. injection H as <- <-. exists [activity].
      rewrite scheduled_travel_cons, scheduled_travel_nil, Htime.
      repeat split; [done | lia | | lia | right; lia].
      replace (S idx - idx)%nat with 1%nat by lia.
      simpl. rewrite Hdest. apply sublist_skip, sublist_nil_l.
    + apply IH in H as (added & Ha & Hi & Hs & Ht & Hb). exists (activity :: added).
      rewrite scheduled_travel_cons, Htime.
      repeat split.
      * rewrite Ha, Hacts, <- app_assoc. done.
      * lia.
      * replace (idx' - idx)%nat with (S (idx' - S idx)) by lia.
        simpl. rewrite Hdest. by apply sublist_skip.
      * lia.
      * right. destruct Hb as [->|Hb]; [|done].
        rewrite scheduled_travel_nil in Ht. lia.
Qed.

(** ** DayScheduler: the outcome of a day and of the loop over the days *)

Lemma build_day_outcome (self : Service.t)
    (current_accommodation : option Accommodation.t)
    (other_dests : list Destination.t)
    (must_visit_per_day : gmap Z (list Destination.t))
    (day : Z) (ts ts' : TripState.t) :
  build_day self current_accommodation other_dests must_visit_per_day day ts
  = Ok ts' →
  ∃ dp,
    TripState.itinerary ts' = TripState.itinerary ts ++ [dp]
    ∧ TripState.current_day ts' = TripState.current_day ts + 1
    ∧ day_outcome self must_visit_per_day other_dests day
        (TripState.current_day ts) (TripState.other_dest_index ts) dp
        (TripState.other_dest_index ts').
Proof.
  unfold build_day. intros H. case_bool_decide as Hrest.
  - inv_ok. eexists. simpl. split; [done|]. split; [done|].
    split; simpl; try done.
    + by rewrite bool_decide_eq_true_2.
    + exists [], []. replace (_ - _)%nat with 0%nat by lia. simpl.
      repeat split; [apply sublist_nil_l | apply sublist_nil_l | | by left].
      rewrite scheduled_travel_nil. lia.
  - apply bind_Ok in H as (t0 & _ & H).
    apply bind_Ok in H as ([la lo] & _ & H).
    apply bind_Ok in H as (st1 & Hmv & H).
    apply bind_Ok in H as ([idx' st2] & Hfill & H).
    apply bind_Ok in H as ([total_travel total_distance] & _ & H).
    inv_ok. simpl.
    apply schedule_must_visit_spec in Hmv as (mv & Hmv & Hmvs & Hmvt & Hmvb).
    apply fill_remaining_spec in Hfill as (fill & Hfa & Hidx & Hfs & Hft & Hfb).
    simpl in Hmv, Hmvt, Hmvb. rewrite Hmv in Hfa.
    eexists. split; [done|]. split; [done|].
    split; simpl; try done.
    + by rewrite bool_decide_eq_false_2.
    + exists mv, fill. repeat split; try done.
      * intros Hmax. rewrite Hmvt in Hmvb. apply Hmvb. lia.
      * destruct Hfb as [->|Hfb]; [by left | right].
        rewrite scheduled_travel_app. lia.
Qed.

Lemma build_days_outcome (self : Service.t)
    (current_accommodation : option Accommodation.t)
    (other_dests : list Destination.t)
    (must_visit_per_day : gmap Z (list Destination.t))
    (days : list Z) (ts ts' : TripState.t) :
  build_days self current_accommodation other_dests must_visit_per_day days ts
  = Ok ts' →
  ∃ plans,
    TripState.itinerary ts' = TripState.itinerary ts ++ plans
    ∧ TripState.current_day ts' = TripState.current_day ts + Z.of_nat (length days)
    ∧ days_outcome self must_visit_per_day other_dests days
        (TripState.current_day ts) (TripState.other_dest_index ts) plans
        (TripState.other_dest_index ts').
Proof.
  revert ts. induction days as [|day days IH]; intros ts H; simpl in H.
  - inv_ok. exists []. rewrite app_nil_r. simpl.
    split; [done|]. split; [lia|]. constructor.
  - apply bind_Ok in H as (ts1 & Hday & H).
    apply build_day_outcome in Hday as (dp & Hit & Hcd & Hout).
    apply IH in H as (plans & Hit' & Hcd' & Hrest).
    exists (dp :: plans). split; [|split].
    + by rewrite Hit', Hit, <- app_assoc.
    + rewrite Hcd', Hcd. simpl length. lia.
    + econstructor; [exact Hout|]. by rewrite <- Hcd.
Qed.

Lemma days_outcome_length (self : Service.t)
    (must_visit_per_day : gmap Z (list Destination.t))
    (other_dests : list Destination.t) (days : list Z) (current_day : Z)
    (idx idx' : nat) (plans : list DayPlan.t) :
  days_outcome self must_visit_per_day other_dests days current_day idx plans idx' →
  length plans = length days.
Proof. induction 1; simpl; congruence. Qed.

Lemma days_outcome_numbers (self : Service.t)
    (must_visit_per_day : gmap Z (list Destination.t))
    (other_dests : list Destination.t) (days : list Z) (current_day : Z)
    (idx idx' : nat) (plans : list DayPlan.t) :
  days_outcome self must_visit_per_day other_dests days current_day idx plans idx' →
  DayPlan.day_number <$> plans = seqZ current_day (Z.of_nat (length plans)).
Proof.
  induction 1 as [|day days cd idx idx1 idx' dp plans Hday _ IH]; [done|].
  rewrite fmap_cons, IH, (outcome_number _ _ _ _ _ _ _ _ Hday).
  simpl length. rewrite Nat2Z.inj_succ, (seqZ_cons cd) by lia.
  do 2 f_equal; lia.
Qed.

(** The shape of the itinerary: an arrival travel day when day 1 is one, the
    plans of the loop over [range(activity_start_day, activity_end_day + 1)],
    a departure travel day when the traveler has to travel back. *)
Lemma build_structure (self : Service.t) (clusters : list (list Destination.t))
    (accommodations : list Accommodation.t) (itinerary : list DayPlan.t) :
  _build_daily_itinerary self clusters accommodations = Ok itinerary →
  ∃ arrival plans departure idx',
    itinerary = arrival ++ plans ++ departure
    ∧ travel_days (arrival_travel_day self) 1 arrival
    ∧ days_outcome self
        (must_visit_per_day self
           (split_pool (Service.prefs self) (concat clusters)).1.2)
        (sort_by_distance (head accommodations)
           (split_pool (Service.prefs self) (concat clusters)).2)
        (range (activity_start_day self) (activity_end_day self + 1))
        (activity_start_day self) 0 plans idx'
    ∧ travel_days (Service.needs_departure_travel self)
        (activity_start_day self + Z.of_nat (length plans)) departure.
Proof.
  unfold _build_daily_itinerary. intros H.
  apply bind_Ok in H as (ts0 & Harr & H).
  destruct (split_pool _ _) as [[seen mv] others] eqn:Hpool.
  apply bind_Ok in H as (ts1 & Hdays & H).
  apply build_days_outcome in Hdays as (plans & Hit & Hcd & Hout).
  assert (∃ arrival, TripState.itinerary ts0 = arrival
            ∧ TripState.current_day ts0 = activity_start_day self
            ∧ TripState.other_dest_index ts0 = 0%nat
            ∧ travel_days (arrival_travel_day self) 1 arrival)
    as (arrival & Ha & Hcd0 & Hidx0 & Harrival).
  { unfold activity_start_day, travel_days.
    destruct (arrival_travel_day self).
    - apply bind_Ok in Harr as (d & Hd & Harr). inv_ok. simpl.
      unfold _create_travel_day in Hd. inv_ok. eexists. split; [done|].
      repeat split. eexists. repeat split.
    - inv_ok. by exists []. }
  rewrite Hcd0, Hidx0 in Hout. rewrite Ha in Hit. simpl.
  pose proof (days_outcome_length _ _ _ _ _ _ _ _ Hout) as Hlen.
  unfold travel_days. destruct (Service.needs_departure_travel self).
  - apply bind_Ok in H as (d & Hd & H). inv_ok.
    unfold _create_travel_day in Hd. inv_ok.
    exists arrival, plans. eexists. exists (TripState.other_dest_index ts1).
    split; [by rewrite Hit, <- app_assoc|]. split; [done|]. split; [done|].
    eexists. split; [done|]. simpl. repeat split. rewrite Hcd, Hcd0. lia.
  - inv_ok. exists arrival, plans, [], (TripState.other_dest_index ts1).
    rewrite app_nil_r. by repeat split.
Qed.

(** ** The number of day plans and their numbering *)

Lemma seqZ_of_to_nat (m n : Z) : seqZ m (Z.of_nat (Z.to_nat n)) = seqZ m n.
Proof.
  destruct (Z.le_gt_cases 0 n); [by rewrite Z2Nat.id|].
  rewrite !seqZ_nil; [done | lia | lia].
Qed.

Lemma travel_days_length (b : bool) (n : Z) (l : list DayPlan.t) :
  travel_days b n l → length l = if b then 1%nat else 0%nat.
Proof. destruct b; simpl; [intros (d & -> & _) | intros ->]; done. Qed.

Lemma travel_days_numbers (b : bool) (n : Z) (l : list DayPlan.t) :
  travel_days b n l → DayPlan.day_number <$> l = seqZ n (Z.of_nat (length l)).
Proof.
  destruct b; simpl; [intros (d & -> & <- & _) | intros ->]; [|done].
  simpl. by rewrite (seqZ_cons _ 1), seqZ_nil by lia.
Qed.

(** The day plans of an itinerary: one per day of the loop, one more for a
    full arrival travel day and one more for the departure. *)
Lemma build_count (self : Service.t) (clusters : list (list Destination.t))
    (accommodations : list Accommodation.t) (itinerary : list DayPlan.t) :
  _build_daily_itinerary self clusters accommodations = Ok itinerary →
  length itinerary
  = ((if arrival_travel_day self then 1 else 0)
     + Z.to_nat (activity_end_day self + 1 - activity_start_day self)
     + (if Service.needs_departure_travel self then 1 else 0))%nat.
Proof.
  intros H. apply build_structure in H
    as (arrival & plans & departure & idx' & -> & Ha & Hp & Hd).
  rewrite !length_app.
  rewrite (travel_days_length _ _ _ Ha), (travel_days_length _ _ _ Hd).
  rewrite (days_outcome_length _ _ _ _ _ _ _ _ Hp).
  unfold range. rewrite length_seqZ. lia.
Qed.

Lemma build_numbers (self : Service.t) (clusters : list (list Destination.t))
    (accommodations : list Accommodation.t) (itinerary : list DayPlan.t) :
  _build_daily_itinerary self clusters accommodations = Ok itinerary →
  DayPlan.day_number <$> itinerary = seqZ 1 (Z.of_nat (length itinerary)).
Proof.
  intros H. apply build_structure in H
    as (arrival & plans & departure & idx' & -> & Ha & Hp & Hd).
  rewrite !fmap_app, !length_app, !Nat2Z.inj_add, !seqZ_app by lia.
  rewrite (travel_days_numbers _ _ _ Ha), (travel_days_numbers _ _ _ Hd).
  rewrite (days_outcome_numbers _ _ _ _ _ _ _ _ Hp).
  assert (activity_start_day self = 1 + Z.of_nat (length arrival)) as Hs.
  { rewrite (travel_days_length _ _ _ Ha). unfold activity_start_day.
    by destruct (arrival_travel_day self). }
  rewrite Hs. repeat f_equal; lia.
Qed.

(** ** Rest days *)

Lemma days_outcome_rest (self : Service.t)
    (must_visit_per_day : gmap Z (list Destination.t))
    (other_dests : list Destination.t) (days : list Z) (current_day : Z)
    (idx idx' : nat) (plans : list DayPlan.t) :
  days_outcome self must_visit_per_day other_dests days current_day idx plans idx' →
  Forall2 (λ day dp,
      DayPlan.is_rest_day dp = bool_decide (day ∈ rest_days self)
      ∧ (day ∈ rest_days self → DayPlan.activities dp = []))
    days plans.
Proof.
  induction 1 as [|day days cd idx idx1 idx' dp plans Hday _ IH]; constructor;
    [|exact IH].
  split; [apply (outcome_rest _ _ _ _ _ _ _ _ Hday)
         | apply (outcome_rest_empty _ _ _ _ _ _ _ _ Hday)].
Qed.

Lemma Forall2_diag {A} (Q : A → A → Prop) (l : list A) :
  Forall2 Q l l → Forall (λ x, Q x x) l.
Proof.
  induction l as [|x l IH]; [constructor|].
  intros H. apply Forall2_cons in H as [Hx Hl]. constructor; auto.
Qed.

(** In the loop the day number of a plan is the day it was built for. *)
Lemma loop_plans_rest (self : Service.t)
    (must_visit_per_day : gmap Z (list Destination.t))
    (other_dests : list Destination.t) (a b : Z) (idx idx' : nat)
    (plans : list DayPlan.t) :
  days_outcome self must_visit_per_day other_dests (range a b) a idx plans idx' →
  DayPlan.day_number <$> plans = range a b
  ∧ Forall (λ dp,
        DayPlan.is_rest_day dp
        = bool_decide (DayPlan.day_number dp ∈ rest_days self)
        ∧ (DayPlan.day_number dp ∈ rest_days self → DayPlan.activities dp = []))
      plans.
Proof.
  intros H.
  assert (DayPlan.day_number <$> plans = range a b) as Hnum.
  { rewrite (days_outcome_numbers _ _ _ _ _ _ _ _ H).
    rewrite (days_outcome_length _ _ _ _ _ _ _ _ H).
    unfold range. by rewrite length_seqZ, seqZ_of_to_nat. }
  split; [exact Hnum|].
  apply days_outcome_rest in H. rewrite <- Hnum in H.
  apply Forall2_fmap_l in H. by apply Forall2_diag in H.
Qed.

(** A list numbered by a stretch of integers has exactly one element under
    each number of the stretch. *)
Lemma filter_numbered_none {A} (f : A → Z) (l : list A) (r : Z) :
  r ∉ f <$> l → List.filter (λ x, bool_decide (f x = r)) l = [].
Proof.
  induction l as [|x l IH]; [done|]. rewrite fmap_cons.
  intros [Hx Hl]%not_elem_of_cons. simpl.
  rewrite bool_decide_eq_false_2 by done. by apply IH.
Qed.

Lemma filter_numbered_one {A} (f : A → Z) (l : list A) (m n r : Z) :
  f <$> l = seqZ m n → m ≤ r < m + n →
  ∃ x, List.filter (λ x, bool_decide (f x = r)) l = [x] ∧ f x = r.
Proof.
  revert m n. induction l as [|x l IH]; intros m n Hl Hr.
  - rewrite seqZ_cons in Hl by lia. done.
  - rewrite seqZ_cons, fmap_cons in Hl by lia. injection Hl as Hx Hl. simpl.
    case_bool_decide as Hxr.
    + exists x. split; [|done]. f_equal. apply filter_numbered_none.
      rewrite Hl, elem_of_seqZ. lia.
    + apply (IH _ _ Hl). lia.
Qed.

Lemma filter_rest_travel_days (b : bool) (n : Z) (l : list DayPlan.t) :
  travel_days b n l → List.filter DayPlan.is_rest_day l = [].
Proof.
  destruct b; simpl; [intros (d & -> & _ & _ & Hd & _) | intros ->]; simpl;
    [by rewrite Hd | done].
Qed.

Lemma filter_rest_flag (self : Service.t) (plans : list DayPlan.t) (r : Z) :
  rest_days self = [r] →
  Forall (λ dp,
      DayPlan.is_rest_day dp
      = bool_decide (DayPlan.day_number dp ∈ rest_days self)
      ∧ (DayPlan.day_number dp ∈ rest_days self → DayPlan.activities dp = []))
    plans →
  List.filter DayPlan.is_rest_day plans
  = List.filter (λ dp, bool_decide (DayPlan.day_number dp = r)) plans.
Proof.
  intros Hrest Hall. induction Hall as [|dp l [Hdp _] _ IH]; simpl; [done|].
  rewrite Hdp, IH, Hrest.
  by rewrite (bool_decide_ext (DayPlan.day_number dp ∈ [r])
                (DayPlan.day_number dp = r)) by apply list_elem_of_singleton.
Qed.

Lemma filter_rest_none (self : Service.t) (plans : list DayPlan.t) :
  rest_days self = [] →
  Forall (λ dp,
      DayPlan.is_rest_day dp
      = bool_decide (DayPlan.day_number dp ∈ rest_days self)
      ∧ (DayPlan.day_number dp ∈ rest_days self → DayPlan.activities dp = []))
    plans →
  List.filter DayPlan.is_rest_day plans = [].
Proof.
  intros Hrest Hall. induction Hall as [|dp l [Hdp _] _ IH]; simpl; [done|].
  rewrite Hdp, Hrest, IH.
  by rewrite bool_decide_eq_false_2 by apply not_elem_of_nil.
Qed.

(** The rest day as the scheduler places it, by the [effective_days] it
    computes: from 5 on, exactly one DayPlan is a rest day, without activity,
    numbered [activity_start_day + effective_days // 2]; below 5 none is. *)
Lemma rest_day_of_effective_days (self : Service.t) (clusters : list (list Destination.t))
    (accommodations : list Accommodation.t) (itinerary : list DayPlan.t) :
  _build_daily_itinerary self clusters accommodations = Ok itinerary →
  (5 ≤ effective_days self →
   ∃ dp, List.filter DayPlan.is_rest_day itinerary = [dp]
         ∧ DayPlan.is_rest_day dp = true
         ∧ DayPlan.activities dp = []
         ∧ DayPlan.day_number dp
           = activity_start_day self + effective_days self `div` 2)
  ∧ (effective_days self < 5 → List.filter DayPlan.is_rest_day itinerary = [])
  ∧ (TravelPreferences.days (Service.prefs self) = 7 →
     Service.needs_arrival_travel self = false →
     Service.needs_departure_travel self = false →
     ∃ dp, List.filter DayPlan.is_rest_day itinerary = [dp]
           ∧ DayPlan.activities dp = []
           ∧ DayPlan.day_number dp = 4).
Proof.
  intros H.
  assert (5 ≤ effective_days self →
          ∃ dp, List.filter DayPlan.is_rest_day itinerary = [dp]
                ∧ DayPlan.is_rest_day dp = true
                ∧ DayPlan.activities dp = []
                ∧ DayPlan.day_number dp
                  = activity_start_day self + effective_days self `div` 2)
    as Hlong.
  { intros Heff.
    apply build_structure in H
      as (arrival & plans & departure & idx' & -> & Ha & Hp & Hd).
    apply loop_plans_rest in Hp as [Hnum Hall].
    rewrite !List.filter_app.
    rewrite (filter_rest_travel_days _ _ _ Ha), (filter_rest_travel_days _ _ _ Hd).
    rewrite app_nil_r. simpl.
    set (r := activity_start_day self + effective_days self `div` 2).
    assert (rest_days self = [r]) as Hrest.
    { unfold rest_days. by destruct (Z.leb_spec 5 (effective_days self)); [|lia]. }
    rewrite (filter_rest_flag self plans r Hrest Hall).
    destruct (filter_numbered_one DayPlan.day_number plans
                (activity_start_day self)
                (activity_end_day self + 1 - activity_start_day self) r Hnum)
      as (dp & Hdp & Hr).
    { clear -Heff. subst r. revert Heff.
      unfold effective_days, activity_start_day, activity_end_day.
      destruct (arrival_travel_day self), (Service.needs_departure_travel self);
        intros; Z.div_mod_to_equations; lia. }
    exists dp. split; [done|].
    assert (dp ∈ plans) as Hin.
    { apply list_elem_of_In. eapply (proj1 (filter_In _ dp plans)).
      rewrite Hdp. by left. }
    rewrite Forall_forall in Hall. destruct (Hall dp Hin) as [Hflag Hempty].
    rewrite Hrest, Hr in Hflag, Hempty.
    assert (r ∈ [r]) as Hrr by (by apply list_elem_of_singleton).
    split; [by rewrite Hflag, bool_decide_eq_true_2|].
    split; [by apply Hempty | done]. }
  split; [exact Hlong|]. split.
  - intros Heff.
    apply build_structure in H
      as (arrival & plans & departure & idx' & -> & Ha & Hp & Hd).
    apply loop_plans_rest in Hp as [_ Hall].
    rewrite !List.filter_app.
    rewrite (filter_rest_travel_days _ _ _ Ha), (filter_rest_travel_days _ _ _ Hd).
    rewrite app_nil_r. simpl.
    assert (rest_days self = []) as Hrest.
    { unfold rest_days. by destruct (Z.leb_spec 5 (effective_days self)); [lia|]. }
    exact (filter_rest_none self plans Hrest Hall).
  - intros Hdays Harr Hdep.
    assert (effective_days self = 7 ∧ activity_start_day self = 1) as [He Hs].
    { unfold effective_days, activity_start_day, arrival_travel_day.
      by rewrite Harr, Hdep, Hdays. }
    destruct Hlong as (dp & ? & ? & ? & Hn); [lia|].
    exists dp. rewrite Hn, He, Hs. done.
Qed.

(** ** The scheduling pool *)

Lemma insert_sorted_Permutation {A} (lt : A → A → bool) (x : A) (l : list A) :
  insert_sorted lt x l ≡ₚ x :: l.
Proof.
  induction l as [|y l IH]; simpl; [done|].
  destruct (lt x y); [done|]. rewrite IH. apply Permutation_swap.
Qed.

(** Sorting rearranges: it neither drops nor repeats an element. *)
Lemma sorted_Permutation {A} (lt : A → A → bool) (l : list A) :
  sorted lt l ≡ₚ l.
Proof.
  unfold sorted.
  enough (∀ acc, fold_left (λ acc x, insert_sorted lt x acc) l acc ≡ₚ acc ++ l)
    as H by apply (H []).
  induction l as [|x l IH]; intros acc; simpl; [by rewrite app_nil_r|].
  rewrite IH, insert_sorted_Permutation. simpl. apply Permutation_middle.
Qed.

Lemma sort_by_distance_Permutation
    (current_accommodation : option Accommodation.t)
    (other_dests : list Destination.t) :
  sort_by_distance current_accommodation other_dests ≡ₚ other_dests.
Proof.
  unfold sort_by_distance. rewrite sorted_Permutation, <- list_fmap_compose.
  by rewrite list_fmap_id.
Qed.

Lemma split_pool_invariant (prefs : TravelPreferences.t)
    (destination_pool : list Destination.t) :
  pool_invariant prefs (split_pool prefs destination_pool).
Proof.
  unfold split_pool.
  enough (∀ s, pool_invariant prefs s →
            pool_invariant prefs
              (fold_left (λ '(seen_ids, must_visit_dests, other_dests) dest,
                 if bool_decide (Destination.id dest ∉ seen_ids) then
                   let seen_ids := seen_ids ∪ {[Destination.id dest]} in
                   if is_must_visit prefs dest
                   then (seen_ids, must_visit_dests ++ [dest], other_dests)
                   else (seen_ids, must_visit_dests, other_dests ++ [dest])
                 else (seen_ids, must_visit_dests, other_dests))
                 destination_pool s)) as H.
  { apply H. simpl. repeat split; try constructor;
      [by intros ?%elem_of_empty | by intros ?%elem_of_nil]. }
  induction destination_pool as [|dest l IH]; intros [[seen mv] others] Hinv;
    simpl; [done|].
  apply IH. destruct Hinv as (Hseen & Hnd & Hmv & Hothers).
  case_bool_decide as Hnew;
    [|exact (conj Hseen (conj Hnd (conj Hmv Hothers)))].
  assert (Destination.id dest ∉ Destination.id <$> (mv ++ others)) as Hfresh
    by (by rewrite <- Hseen).
  destruct (is_must_visit prefs dest) eqn:Hmust; simpl.
  - assert ((mv ++ [dest]) ++ others ≡ₚ dest :: (mv ++ others)) as Hperm
      by (rewrite <- app_assoc; simpl; symmetry; apply Permutation_middle).
    repeat split.
    + rewrite Hperm, fmap_cons, elem_of_cons, elem_of_union, elem_of_singleton,
        Hseen. tauto.
    + rewrite Hperm, fmap_cons, elem_of_cons, elem_of_union, elem_of_singleton,
        Hseen. tauto.
    + rewrite Hperm, fmap_cons. by apply NoDup_cons.
    + apply Forall_app. split; [done | by constructor].
    + done.
  - assert (mv ++ (others ++ [dest]) ≡ₚ dest :: (mv ++ others)) as Hperm
      by (rewrite app_assoc; symmetry; apply Permutation_cons_append).
    repeat split.
    + rewrite Hperm, fmap_cons, elem_of_cons, elem_of_union, elem_of_singleton,
        Hseen. tauto.
    + rewrite Hperm, fmap_cons, elem_of_cons, elem_of_union, elem_of_singleton,
        Hseen. tauto.
    + rewrite Hperm, fmap_cons. by apply NoDup_cons.
    + done.
    + apply Forall_app. split; [done | by constructor].
Qed.

(** ** The round-robin distribution *)

Lemma assign_submseteq (m : gmap Z (list Destination.t)) (day_num : Z)
    (dest : Destination.t) (days : list Z) :
  NoDup days →
  concat (day_must_visit (<[day_num := day_must_visit m day_num ++ [dest]]> m)
            <$> days)
  ⊆+ concat (day_must_visit m <$> days) ++ [dest].
Proof.
  induction days as [|d days IH]; intros Hnd.
  - apply submseteq_nil_l.
  - rewrite !fmap_cons. cbn [concat]. apply NoDup_cons in Hnd as [Hd Hnd].
    destruct (decide (d = day_num)) as [->|Hne].
    + assert (day_must_visit (<[day_num := day_must_visit m day_num ++ [dest]]> m)
                <$> days = day_must_visit m <$> days) as ->.
      { apply list_fmap_ext. intros i d' Hd'. unfold day_must_visit at 1 3.
        rewrite lookup_insert_ne; [done|].
        intros ->. apply Hd. by eapply list_elem_of_lookup_2. }
      assert (day_must_visit (<[day_num := day_must_visit m day_num ++ [dest]]> m)
                day_num = day_must_visit m day_num ++ [dest]) as ->.
      { unfold day_must_visit at 1. by rewrite lookup_insert_eq. }
      rewrite <- !app_assoc. apply submseteq_skips_l.
      by rewrite (Permutation_app_comm [dest]).
    + assert (day_must_visit (<[day_num := day_must_visit m day_num ++ [dest]]> m)
                d = day_must_visit m d) as ->.
      { unfold day_must_visit at 1 3. by rewrite lookup_insert_ne. }
      rewrite <- app_assoc. apply submseteq_skips_l. by apply IH.
Qed.

(** Over distinct days, the lists the distribution hands out together hold
    each destination at most as often as it was given. *)
Lemma distribute_submseteq (active_days : list Z) (idx : nat)
    (must_visit_dests : list Destination.t)
    (m : gmap Z (list Destination.t)) (days : list Z) :
  NoDup days →
  concat (day_must_visit (distribute active_days idx must_visit_dests m) <$> days)
  ⊆+ concat (day_must_visit m <$> days) ++ must_visit_dests.
Proof.
  intros Hnd. revert idx m.
  induction must_visit_dests as [|dest rest IH]; intros idx m; simpl.
  - by rewrite app_nil_r.
  - destruct (active_days !! _) as [day_num|]; [|by apply submseteq_inserts_r].
    etrans; [apply IH|].
    etrans; [apply submseteq_skips_r, (assign_submseteq m day_num dest days Hnd)|].
    by rewrite <- app_assoc.
Qed.

Lemma must_visit_per_day_submseteq (self : Service.t)
    (must_visit_dests : list Destination.t) (days : list Z) :
  NoDup days →
  concat (day_must_visit (must_visit_per_day self must_visit_dests) <$> days)
  ⊆+ must_visit_dests.
Proof.
  intros Hnd. unfold must_visit_per_day.
  assert (concat (day_must_visit (∅ : gmap Z (list Destination.t)) <$> days) = [])
    as Hempty.
  { clear Hnd. induction days as [|d days IH]; [done|].
    rewrite fmap_cons. cbn [concat]. rewrite IH.
    unfold day_must_visit. by rewrite lookup_empty. }
  destruct (_ && _).
  - etrans; [apply (distribute_submseteq _ _ _ _ _ Hnd)|]. by rewrite Hempty.
  - rewrite Hempty. apply submseteq_nil_l.
Qed.

(** Every destination handed to a day is a must-visit destination of the
    pool. *)
Lemma day_must_visit_elem_of (self : Service.t)
    (must_visit_dests : list Destination.t) (day : Z) (dest : Destination.t) :
  dest ∈ day_must_visit (must_visit_per_day self must_visit_dests) day →
  dest ∈ must_visit_dests.
Proof.
  intros Hin.
  pose proof (must_visit_per_day_submseteq self must_visit_dests [day]
                (NoDup_singleton day)) as Hsub.
  simpl in Hsub. rewrite app_nil_r in Hsub.
  by eapply elem_of_submseteq.
Qed.

(** ** Travel limits of a day *)

Lemma init_spec (now : Z) (prefs : TravelPreferences.t) (self : Service.t) :
  init now prefs = Ok self →
  Service.prefs self = prefs
  ∧ PACE_RULES (TravelPreferences.pace_preference prefs)
    = Some (Service.pace_config self)
  ∧ Service.trip_start_date self = _parse_start_date now prefs
  ∧ Service.needs_arrival_travel self
    = (0 <? TravelPreferences.travel_time_hours prefs)%float
  ∧ Service.needs_departure_travel self
    = (0 <? TravelPreferences.travel_time_hours prefs)%float.
Proof.
  unfold init. destruct (PACE_RULES _); [|done]. intros H. by inv_ok.
Qed.

Lemma PACE_RULES_max_daily (pace : string) (pace_config : PaceConfig.t) :
  PACE_RULES pace = Some pace_config →
  0 < PaceConfig.max_daily_travel_time pace_config.
Proof.
  unfold PACE_RULES.
  repeat (destruct (String.eqb pace _); [intros [= <-]; simpl; lia|]). done.
Qed.

Lemma days_outcome_elem_of (self : Service.t)
    (must_visit_per_day : gmap Z (list Destination.t))
    (other_dests : list Destination.t) (days : list Z) (current_day : Z)
    (idx idx' : nat) (plans : list DayPlan.t) (dp : DayPlan.t) :
  days_outcome self must_visit_per_day other_dests days current_day idx plans idx' →
  dp ∈ plans →
  ∃ day cd i i',
    day_outcome self must_visit_per_day other_dests day cd i dp i'.
Proof.
  induction 1 as [|day days cd idx idx1 idx' dp' plans Hday _ IH].
  - by intros ?%elem_of_nil.
  - intros [->|Hin]%elem_of_cons; [eauto | by apply IH].
Qed.

Lemma travel_days_activities (b : bool) (n : Z) (l : list DayPlan.t)
    (dp : DayPlan.t) :
  travel_days b n l → dp ∈ l → DayPlan.activities dp = [].
Proof.
  destruct b; simpl.
  - intros (d & -> & _ & _ & _ & Hd) ->%list_elem_of_singleton. exact Hd.
  - intros -> ?%elem_of_nil. done.
Qed.

(** C3 (as the code behaves). For every DayPlan of a generated itinerary,
    the travel scheduled between the day's activities (the sum of their
    [travel_time_from_previous], that is [total_travel_time] without the
    return leg to the accommodation) never exceeds 1.5 times the pace's
    [max_daily_travel_time], also when the must-visit relaxation is used;
    on a day whose activities are all non-must-visit fillers it never
    exceeds [max_daily_travel_time]. *)
Theorem C3_scheduled_travel_bound (now : Z) (prefs : TravelPreferences.t)
    (self : Service.t) (clusters : list (list Destination.t))
    (accommodations : list Accommodation.t) (itinerary : list DayPlan.t)
    (dp : DayPlan.t) :
  init now prefs = Ok self →
  _build_daily_itinerary self clusters accommodations = Ok itinerary →
  dp ∈ itinerary →
  2 * scheduled_travel (DayPlan.activities dp)
    ≤ 3 * PaceConfig.max_daily_travel_time (Service.pace_config self)
  ∧ (Forall (λ a, is_must_visit prefs (Activity.destination a) = false)
       (DayPlan.activities dp) →
     scheduled_travel (DayPlan.activities dp)
       ≤ PaceConfig.max_daily_travel_time (Service.pace_config self)).
Proof.
  intros Hinit H Hdp.
  apply init_spec in Hinit as (Hprefs & Hpace & _).
  apply PACE_RULES_max_daily in Hpace.
  apply build_structure in H
    as (arrival & plans & departure & idx' & -> & Ha & Hp & Hd).
  rewrite !elem_of_app in Hdp. destruct Hdp as [Hdp|[Hdp|Hdp]].
  - rewrite (travel_days_activities _ _ _ _ Ha Hdp), scheduled_travel_nil. lia.
  - destruct (days_outcome_elem_of _ _ _ _ _ _ _ _ _ Hp Hdp)
      as (day & cd & i & i' & Hout).
    destruct (outcome_visits _ _ _ _ _ _ _ _ Hout)
      as (mv & fill & -> & Hmv & _ & Hrelaxed & Hfill).
    split.
    + destruct Hfill as [->|Hfill]; [|lia].
      rewrite app_nil_r. apply Hrelaxed. lia.
    + intros Hfillers. apply Forall_app in Hfillers as [Hnone _].
      assert (mv = []) as ->.
      { destruct mv as [|a mv]; [done|]. exfalso.
        apply Forall_cons in Hnone as [Ha' _].
        assert (Activity.destination a
                  ∈ (split_pool (Service.prefs self) (concat clusters)).1.2)
          as Hin.
        { eapply day_must_visit_elem_of. eapply elem_of_sublist; [|exact Hmv].
          rewrite fmap_cons. apply elem_of_cons. by left. }
        pose proof (split_pool_invariant (Service.prefs self) (concat clusters))
          as Hinv.
        destruct (split_pool _ _) as [[seen mvs] others].
        destruct Hinv as (_ & _ & Hmust & _). simpl in Hin.
        rewrite Forall_forall in Hmust. specialize (Hmust _ Hin).
        rewrite Hprefs in Hmust. congruence. }
      simpl in *. destruct Hfill as [->|Hfill]; [|done].
      rewrite scheduled_travel_nil. lia.
  - rewrite (travel_days_activities _ _ _ _ Hd Hdp), scheduled_travel_nil. lia.
Qed.

(** ** No destination is visited twice *)

Lemma NoDup_submseteq_inv {A} (l k : list A) : NoDup k → l ⊆+ k → NoDup l.
Proof.
  intros Hk (k' & Hperm)%submseteq_Permutation.
  rewrite Hperm in Hk. by apply NoDup_app in Hk as [? _].
Qed.

Lemma visited_app (l k : list DayPlan.t) : visited (l ++ k) = visited l ++ visited k.
Proof. unfold visited. by rewrite fmap_app, concat_app, fmap_app. Qed.

Lemma visited_cons (dp : DayPlan.t) (l : list DayPlan.t) :
  visited (dp :: l) = (Activity.destination <$> DayPlan.activities dp) ++ visited l.
Proof. unfold visited. by rewrite fmap_cons, concat_cons, fmap_app. Qed.

Lemma visited_travel_days (b : bool) (n : Z) (l : list DayPlan.t) :
  travel_days b n l → visited l = [].
Proof.
  destruct b; simpl; [intros (d & -> & _ & _ & _ & Hd) | intros ->]; [|done].
  by rewrite visited_cons, Hd.
Qed.

Lemma take_drop_split {A} (l : list A) (i j k : nat) :
  (i ≤ j)%nat → (j ≤ k)%nat →
  take (k - i) (drop i l) = take (j - i) (drop i l) ++ take (k - j) (drop j l).
Proof.
  intros Hij Hjk.
  replace (k - i)%nat with ((j - i) + (k - j))%nat by lia.
  rewrite <- take_take_drop, drop_drop. do 3 f_equal. lia.
Qed.

(** The destinations the loop visits are, with multiplicity, among those
    handed to its days and the fillers the shared index passed over. *)
Lemma days_outcome_visited (self : Service.t)
    (must_visit_per_day : gmap Z (list Destination.t))
    (other_dests : list Destination.t) (days : list Z) (current_day : Z)
    (idx idx' : nat) (plans : list DayPlan.t) :
  days_outcome self must_visit_per_day other_dests days current_day idx plans idx' →
  (idx ≤ idx')%nat
  ∧ visited plans
    ⊆+ concat (day_must_visit must_visit_per_day <$> days)
       ++ take (idx' - idx) (drop idx other_dests).
Proof.
  induction 1 as [|day days cd idx idx1 idx' dp plans Hday _ [Hle IH]].
  - split; [lia|]. apply submseteq_nil_l.
  - pose proof (outcome_index _ _ _ _ _ _ _ _ Hday) as Hle1.
    destruct (outcome_visits _ _ _ _ _ _ _ _ Hday)
      as (mv & fill & Hacts & Hmv & Hfill & _).
    split; [lia|].
    rewrite visited_cons, Hacts, fmap_app, fmap_cons. cbn [concat].
    rewrite (take_drop_split other_dests idx idx1 idx') by done.
    fold (day_must_visit must_visit_per_day day) in Hmv.
    apply sublist_submseteq in Hmv, Hfill.
    set (M := day_must_visit must_visit_per_day day) in *.
    set (C := concat (day_must_visit must_visit_per_day <$> days)) in *.
    set (F1 := take (idx1 - idx) (drop idx other_dests)) in *.
    set (F2 := take (idx' - idx1) (drop idx1 other_dests)) in *.
    assert ((M ++ C) ++ F1 ++ F2 ≡ₚ (M ++ F1) ++ (C ++ F2)) as ->.
    { rewrite <- !app_assoc. apply Permutation_app_head.
      rewrite !app_assoc. apply Permutation_app_tail. apply Permutation_app_comm. }
    apply submseteq_app; [by apply submseteq_app | exact IH].
Qed.

(** The ids of the destinations an itinerary visits are pairwise distinct:
    the pool is deduplicated by id, the lists handed to the days share no
    destination, and the fillers come from disjoint stretches of the sorted
    list. *)
Lemma visited_ids_NoDup (self : Service.t)
    (clusters : list (list Destination.t))
    (accommodations : list Accommodation.t) (itinerary : list DayPlan.t) :
  _build_daily_itinerary self clusters accommodations = Ok itinerary →
  NoDup (Destination.id <$> visited itinerary).
Proof.
  intros H. apply build_structure in H
    as (arrival & plans & departure & idx' & -> & Ha & Hp & Hd).
  rewrite !visited_app, (visited_travel_days _ _ _ Ha),
    (visited_travel_days _ _ _ Hd), app_nil_r. simpl.
  apply days_outcome_visited in Hp as [_ Hp].
  pose proof (split_pool_invariant (Service.prefs self) (concat clusters)) as Hinv.
  destruct (split_pool _ _) as [[seen mvs] others]. simpl in Hp.
  destruct Hinv as (_ & Hnd & _ & _).
  eapply NoDup_submseteq_inv; [exact Hnd|].
  apply fmap_submseteq. etrans; [exact Hp|].
  apply submseteq_app.
  - apply must_visit_per_day_submseteq. apply NoDup_seqZ.
  - rewrite drop_0. etrans; [apply submseteq_take|].
    by rewrite sort_by_distance_Permutation.
Qed.

(** C10. Across the whole generated itinerary no destination identifier
    appears in more than one Activity: the ids of the visited destinations,
    taken over all days in schedule order, are pairwise distinct. *)
Theorem C10_no_destination_twice (self : Service.t)
    (clusters : list (list Destination.t))
    (accommodations : list Accommodation.t) (itinerary : list DayPlan.t) :
  _build_daily_itinerary self clusters accommodations = Ok itinerary →
  NoDup (Destination.id <$> visited itinerary).
Proof. apply visited_ids_NoDup. Qed.

Lemma NoDup_filter_eqb_length (l : list Z) (i : Z) :
  NoDup l → (length (List.filter (λ x, Z.eqb x i) l) ≤ 1)%nat.
Proof.
  induction 1 as [|x l Hx _ IH]; simpl; [lia|].
  destruct (Z.eqb_spec x i) as [->|_]; [|exact IH]. simpl.
  enough (List.filter (λ x, Z.eqb x i) l = []) as -> by (simpl; lia).
  clear IH. induction l as [|y l IH]; simpl; [done|].
  apply not_elem_of_cons in Hx as [Hne Hx].
  destruct (Z.eqb_spec y i); [congruence | by apply IH].
Qed.

Lemma activities_referencing_le_1 (i : Z) (itinerary : list DayPlan.t) :
  NoDup (Destination.id <$> visited itinerary) →
  (activities_referencing i itinerary ≤ 1)%nat.
Proof.
  intros Hnd. unfold activities_referencing.
  pose proof (NoDup_filter_eqb_length _ i Hnd) as Hle.
  enough (length (List.filter (λ d, Destination.id d =? i) (visited itinerary))
          = length (List.filter (λ x, Z.eqb x i)
                      (Destination.id <$> visited itinerary))) as -> by done.
  clear. induction (visited itinerary) as [|d l IH]; [done|].
  rewrite fmap_cons. simpl. destruct (Destination.id d =? i); simpl; by rewrite IH.
Qed.

(** ** Dependence on the clock *)

(** C9 (as the code behaves). Two planning runs on equal preferences and
    equal catalog snapshots produce equal serialized results whenever the
    preferences carry a start date that parses, whatever the dates on which
    the two runs are executed; they also do when both runs read the same
    date from the clock. *)
Theorem C9_deterministic_given_start_date (now1 now2 : Z)
    (prefs : TravelPreferences.t) (destinations : list Destination.t)
    (accommodations : list Accommodation.t) :
  (now1 = now2
   ∨ ∃ s d, TravelPreferences.start_date prefs = Some s
            ∧ s ≠ ""%string ∧ strptime_date s = Some d) →
  generate_itinerary now1 prefs destinations accommodations
  = generate_itinerary now2 prefs destinations accommodations.
Proof.
  intros [->|(s & d & Hs & Hne & Hd)]; [done|].
  unfold generate_itinerary, init, _parse_start_date. rewrite Hs, Hd.
  by destruct (String.eqb_spec s "").
Qed.


(** ** Further properties of the filter, the selector and the scorer *)

Lemma elem_of_filter_bool {A} (f : A → bool) (l : list A) (x : A) :
  x ∈ List.filter f l ↔ x ∈ l ∧ f x = true.
Proof. rewrite !list_elem_of_In. apply filter_In. Qed.

Lemma filter_sublist_of {A} (f : A → bool) (l : list A) :
  List.filter f l `sublist_of` l.
Proof.
  induction l as [|x l IH]; simpl; [constructor|].
  destruct (f x); by constructor.
Qed.

Lemma is_empty_true {A} (l : list A) : is_empty l = true ↔ l = [].
Proof. by destruct l. Qed.

(** The filter keeps exactly the rows that meet every hard condition. *)
Lemma filter_destinations_elem_of (prefs : TravelPreferences.t)
    (catalog : list Destination.t) (d : Destination.t) :
  d ∈ _filter_destinations prefs catalog ↔ d ∈ catalog ∧ eligible prefs d.
Proof.
  unfold _filter_destinations.
  rewrite (filter_unless (is_empty (TravelPreferences.exclude_destination_ids prefs))),
    (filter_unless (is_empty (TravelPreferences.exclude_categories prefs))),
    !filter_if, !filter_and.
  rewrite elem_of_filter_bool. unfold eligible.
  rewrite !andb_true_iff, !orb_true_iff, !negb_true_iff, String.eqb_eq,
    !bool_decide_eq_true, !bool_decide_eq_false, !is_empty_true.
  split.
  - intros (Hin & (Hact & Hst) & Hid & Hcat & Hb & Hk & Hs & Hw).
    split; [done|]. repeat split; try done.
    + destruct Hid as [->|?]; [apply not_elem_of_nil | done].
    + destruct Hcat as [->|?]; [apply not_elem_of_nil | done].
    + intros Hc. destruct Hk as [Hk|?]; [congruence | done].
    + intros Hc. destruct Hs as [Hs'|?]; [congruence | done].
    + intros Hc. destruct Hw as [Hw'|?]; [congruence | done].
  - intros (Hin & Hact & Hst & Hid & Hcat & Hb & Hk & Hs & Hw).
    split; [done|]. repeat split; try done; try (by right).
    + destruct (TravelPreferences.has_children prefs); [right; auto | by left].
    + destruct (TravelPreferences.has_seniors prefs); [right; auto | by left].
    + destruct (TravelPreferences.has_disabilities prefs); [right; auto | by left].
Qed.

(** X1. The filter keeps exactly the catalog rows that meet every hard
    condition, in catalog order. *)
Theorem filter_destinations_exactly_eligible (prefs : TravelPreferences.t)
    (catalog : list Destination.t) :
  _filter_destinations prefs catalog `sublist_of` catalog
  ∧ ∀ d, d ∈ _filter_destinations prefs catalog ↔ d ∈ catalog ∧ eligible prefs d.
Proof.
  split; [|apply filter_destinations_elem_of].
  unfold _filter_destinations.
  rewrite (filter_unless (is_empty (TravelPreferences.exclude_destination_ids prefs))),
    (filter_unless (is_empty (TravelPreferences.exclude_categories prefs))),
    !filter_if, !filter_and.
  apply filter_sublist_of.
Qed.

Lemma acceptable_budgets_unknown (b : string) :
  b ≠ "low"%string → b ≠ "medium"%string → b ≠ "high"%string →
  acceptable_budgets b = acceptable_budgets "medium".
Proof.
  intros Hl Hm Hh.
  assert (dict_get budget_hierarchy b 2 = 2) as Hlevel.
  { unfold dict_get, budget_hierarchy. cbn [List.find fst snd].
    destruct (String.eqb_spec "low" b) as [E|_]; [by symmetry in E|].
    destruct (String.eqb_spec "medium" b) as [E|_]; [by symmetry in E|].
    destruct (String.eqb_spec "high" b) as [E|_]; [by symmetry in E|].
    reflexivity. }
  unfold acceptable_budgets. by rewrite Hlevel.
Qed.

(** X2. A traveler budget that is none of low, medium and high is treated
    as medium, by the destination filter and by the automatic accommodation
    selection alike. *)
Theorem unknown_budget_is_medium (prefs : TravelPreferences.t) (b : string)
    (destinations : list Destination.t) (accommodations : list Accommodation.t) :
  b ≠ "low"%string → b ≠ "medium"%string → b ≠ "high"%string →
  _filter_destinations (with_budget_category prefs b) destinations
  = _filter_destinations (with_budget_category prefs "medium") destinations
  ∧ auto_select_accommodations (with_budget_category prefs b) accommodations
    = auto_select_accommodations (with_budget_category prefs "medium")
        accommodations.
Proof.
  intros Hl Hm Hh.
  unfold _filter_destinations, auto_select_accommodations. simpl.
  by rewrite (acceptable_budgets_unknown b Hl Hm Hh).
Qed.

Lemma auto_select_accommodations_length (prefs : TravelPreferences.t)
    (catalog : list Accommodation.t) :
  (length (auto_select_accommodations prefs catalog)
   ≤ if (TravelPreferences.days prefs <=? 3)%Z then 1 else 2)%nat.
Proof.
  rewrite auto_select_accommodations_spec, length_take. lia.
Qed.

Lemma accommodation_get_Some (catalog : list Accommodation.t) (aid : Z)
    (a : Accommodation.t) :
  accommodation_get catalog aid = Ok (Some a) →
  a ∈ catalog ∧ Accommodation.id a = aid
  ∧ Accommodation.is_active a = true
  ∧ Accommodation.status a = "active"%string.
Proof.
  unfold accommodation_get.
  destruct (List.filter _ catalog) as [|x [|y l]] eqn:E; try done.
  intros [= ->].
  assert (a ∈ List.filter
            (λ a0, (Accommodation.id a0 =? aid) && Accommodation.is_active a0
                   && String.eqb (Accommodation.status a0) "active") catalog)
    as Hin by (rewrite E; apply elem_of_cons; by left).
  apply elem_of_filter_bool in Hin as [Hin Hf].
  apply andb_prop in Hf as [Hf Hst]. apply andb_prop in Hf as [Hid Hact].
  split; [done|]. split; [by apply Z.eqb_eq|]. split; [done|].
  by apply String.eqb_eq.
Qed.

Lemma select_accommodations_spec (prefs : TravelPreferences.t)
    (catalog : list Accommodation.t) :
  NoDup (Accommodation.id <$> catalog) →
  ∃ selected,
    _select_accommodations prefs catalog = Ok selected
    ∧ (∀ a, a ∈ selected →
            a ∈ catalog ∧ Accommodation.is_active a = true
            ∧ Accommodation.status a = "active"%string)
    ∧ (length selected
       ≤ if (TravelPreferences.days prefs <=? 3)%Z then 1 else 2)%nat
    ∧ (TravelPreferences.include_accommodation prefs = false → selected = []).
Proof.
  intros Hnd.
  assert (∀ a, a ∈ auto_select_accommodations prefs catalog →
               a ∈ catalog ∧ Accommodation.is_active a = true
               ∧ Accommodation.status a = "active"%string) as Hauto.
  { intros a. rewrite auto_select_accommodations_spec.
    intros Ha.
    assert (a ∈ List.filter (auto_eligible prefs) catalog) as Hin
      by (eapply elem_of_sublist; [exact Ha | apply sublist_take]).
    apply elem_of_filter_bool in Hin as [Hin Hf]. unfold auto_eligible in Hf.
    rewrite !andb_true_iff, String.eqb_eq in Hf. tauto. }
  unfold _select_accommodations.
  destruct (TravelPreferences.include_accommodation prefs) eqn:Hincl; simpl.
  2:{ exists []. split; [done|]. split; [by intros a ?%elem_of_nil|].
      split; [destruct (_ <=? _); simpl; lia | done]. }
  assert (∃ selected, Ok (auto_select_accommodations prefs catalog) = Ok selected
            ∧ (∀ a, a ∈ selected →
                 a ∈ catalog ∧ Accommodation.is_active a = true
                 ∧ Accommodation.status a = "active"%string)
            ∧ (length selected
               ≤ if (TravelPreferences.days prefs <=? 3)%Z then 1 else 2)%nat
            ∧ (true = false → selected = [])) as Hfallback.
  { eexists. split; [done|]. split; [exact Hauto|].
    split; [apply auto_select_accommodations_length | done]. }
  destruct (truthy_id _) as [aid|]; [|exact Hfallback].
  destruct (accommodation_get catalog aid) as [[a|]|e] eqn:Hget; simpl.
  - apply accommodation_get_Some in Hget as (Hin & _ & Hact & Hst).
    exists [a]. split; [done|]. split.
    + by intros a' ->%list_elem_of_singleton.
    + split; [destruct (_ <=? _); simpl; lia | done].
  - exact Hfallback.
  - exfalso. unfold accommodation_get in Hget.
    destruct (List.filter _ catalog) as [|x [|y l]] eqn:E; try done.
    assert (x ∈ x :: y :: l ∧ y ∈ x :: y :: l) as [Hx Hy]
      by (rewrite !elem_of_cons; auto).
    rewrite <- E in Hx, Hy.
    apply elem_of_filter_bool in Hx as [Hx Hfx], Hy as [Hy Hfy].
    rewrite !andb_true_iff, Z.eqb_eq in Hfx, Hfy.
    assert (NoDup (Accommodation.id <$> List.filter
              (λ a0, (Accommodation.id a0 =? aid) && Accommodation.is_active a0
                     && String.eqb (Accommodation.status a0) "active") catalog))
      as Hnd'.
    { eapply sublist_NoDup; [exact Hnd | apply fmap_sublist, filter_sublist_of]. }
    rewrite E, !fmap_cons in Hnd'. apply NoDup_cons in Hnd' as [Hne _].
    apply Hne. apply elem_of_cons. left. lia.
Qed.

(** X3. With unique primary keys the selector always returns.  It returns
    catalog rows only, each of them active with status 'active', at most
    two of them and at most one for a trip of at most 3 days; with
    accommodation inclusion disabled it returns none. *)
Theorem select_accommodations_returns_active_rows (prefs : TravelPreferences.t)
    (catalog : list Accommodation.t) :
  NoDup (Accommodation.id <$> catalog) →
  ∃ selected,
    _select_accommodations prefs catalog = Ok selected
    ∧ (∀ a, a ∈ selected →
            a ∈ catalog ∧ Accommodation.is_active a = true
            ∧ Accommodation.status a = "active"%string)
    ∧ (length selected
       ≤ if (TravelPreferences.days prefs <=? 3)%Z then 1 else 2)%nat
    ∧ (TravelPreferences.include_accommodation prefs = false → selected = []).
Proof. apply select_accommodations_spec. Qed.

Lemma score_destinations_Permutation (prefs : TravelPreferences.t)
    (destinations : list Destination.t) :
  (_score_destinations prefs destinations).*1 ≡ₚ destinations.
Proof.
  unfold _score_destinations.
  rewrite sorted_Permutation, <- list_fmap_compose. by rewrite list_fmap_id.
Qed.

(** X4. Ranking neither drops nor repeats a destination, and pairs each
    destination with its own score. *)
Theorem score_destinations_ranks_all (prefs : TravelPreferences.t)
    (destinations : list Destination.t) :
  (_score_destinations prefs destinations).*1 ≡ₚ destinations
  ∧ Forall (λ ds, ds.2 = score_destination prefs ds.1)
      (_score_destinations prefs destinations).
Proof.
  split; [apply score_destinations_Permutation|]. unfold _score_destinations.
  - apply Forall_forall. intros [d s] Hin. rewrite sorted_Permutation in Hin.
    by apply list_elem_of_fmap in Hin as (d' & [= -> ->] & _).
Qed.


(** ** Further properties of the clusterer *)

Lemma dest_in_true (dest : Destination.t) (l : list Destination.t) :
  dest_in dest l = true ↔ Destination.id dest ∈ Destination.id <$> l.
Proof.
  unfold dest_in. rewrite existsb_exists, list_elem_of_fmap. split.
  - intros (d & Hin & Heq). exists d. apply Z.eqb_eq in Heq.
    split; [done | by apply list_elem_of_In].
  - intros (d & Heq & Hin). exists d.
    split; [by apply list_elem_of_In | by apply Z.eqb_eq].
Qed.

Lemma subseteq_app_app {A} (l1 l2 k1 k2 : list A) :
  l1 ⊆ k1 → l2 ⊆ k2 → l1 ++ l2 ⊆ k1 ++ k2.
Proof.
  intros H1 H2 x. rewrite !elem_of_app. intros [?|?]; [left; auto | right; auto].
Qed.

Lemma subseteq_nil_l {A} (l : list A) : [] ⊆ l.
Proof. by intros x ?%elem_of_nil. Qed.

Lemma app_subseteq {A} (l1 l2 k : list A) : l1 ⊆ k → l2 ⊆ k → l1 ++ l2 ⊆ k.
Proof. intros H1 H2 x [?|?]%elem_of_app; auto. Qed.

(** The loop around one accommodation only appends; what it appends to
    [nearby] are ranked destinations; every ranked must-visit destination
    ends up claimed, and whatever it claims it also puts into [nearby]. *)
Lemma cluster_around_spec (self : Service.t) (acc : Accommodation.t)
    (ranked_destinations : list (Destination.t * float))
    (must_visit_dests nearby must_visit_dests' nearby' : list Destination.t) :
  cluster_around self acc ranked_destinations must_visit_dests nearby
  = Ok (must_visit_dests', nearby') →
  ∃ claimed added,
    must_visit_dests' = must_visit_dests ++ claimed
    ∧ nearby' = nearby ++ added
    ∧ claimed ⊆ added
    ∧ added ⊆ ranked_destinations.*1
    ∧ ∀ d, d ∈ ranked_destinations.*1 →
           is_must_visit (Service.prefs self) d = true →
           Destination.id d ∈ Destination.id <$> must_visit_dests'.
Proof.
  revert must_visit_dests nearby.
  induction ranked_destinations as [|[dest score] rest IH]; intros mv nearby H;
    simpl in H.
  - inv_ok. injection H as <- <-. exists [], []. rewrite !app_nil_r.
    repeat split; try done. by intros d ?%elem_of_nil.
  - assert (∀ mv1 nearby1 new_mv new_nb,
              mv1 = mv ++ new_mv → nearby1 = nearby ++ new_nb →
              new_mv ⊆ new_nb → new_nb ⊆ [dest] →
              (is_must_visit (Service.prefs self) dest = true →
               Destination.id dest ∈ Destination.id <$> mv1) →
              cluster_around self acc rest mv1 nearby1
              = Ok (must_visit_dests', nearby') →
              ∃ claimed added,
                must_visit_dests' = mv ++ claimed
                ∧ nearby' = nearby ++ added
                ∧ claimed ⊆ added
                ∧ added ⊆ ((dest, score) :: rest).*1
                ∧ ∀ d, d ∈ ((dest, score) :: rest).*1 →
                       is_must_visit (Service.prefs self) d = true →
                       Destination.id d ∈ Destination.id <$> must_visit_dests')
      as Hstep.
    { intros mv1 nearby1 new_mv new_nb -> -> Hsub Hnb Hhead Hrest.
      apply IH in Hrest as (claimed & added & -> & -> & Hc & Ha & Hall).
      exists (new_mv ++ claimed), (new_nb ++ added).
      rewrite !app_assoc. split; [done|]. split; [done|].
      split; [by apply subseteq_app_app|].
      split; [rewrite fmap_cons; by apply (subseteq_app_app _ _ [dest])|].
      intros d Hd Hmust. rewrite fmap_cons in Hd.
      apply elem_of_cons in Hd as [->|Hd]; [|by apply Hall].
      simpl. rewrite fmap_app, elem_of_app. left. by apply Hhead. }
    destruct (is_must_visit (Service.prefs self) dest) eqn:Hmust.
    + destruct (dest_in dest mv) eqn:Hin; simpl in H.
      * apply (Hstep mv nearby [] []);
          [by rewrite app_nil_r | by rewrite app_nil_r | done
          | apply subseteq_nil_l | intros _; by apply dest_in_true | done].
      * apply (Hstep (mv ++ [dest]) (nearby ++ [dest]) [dest] [dest]);
          [done | done | done | done | | done].
        intros _. rewrite fmap_app, elem_of_app. right.
        apply elem_of_cons. by left.
    + apply bind_Ok in H as (lat1 & _ & H). apply bind_Ok in H as (lon1 & _ & H).
      apply bind_Ok in H as (lat2 & _ & H). apply bind_Ok in H as (lon2 & _ & H).
      destruct (_ <=? _)%float.
      * apply (Hstep mv (nearby ++ [dest]) [] [dest]);
          [by rewrite app_nil_r | done | apply subseteq_nil_l | done | done | done].
      * apply (Hstep mv nearby [] []);
          [by rewrite app_nil_r | by rewrite app_nil_r | done
          | apply subseteq_nil_l | done | done].
Qed.


Lemma cluster_accommodations_spec (self : Service.t)
    (accommodations : list Accommodation.t)
    (ranked_destinations : list (Destination.t * float))
    (must_visit_dests : list Destination.t)
    (clusters clusters' : list (list Destination.t)) :
  cluster_accommodations self accommodations ranked_destinations
    must_visit_dests clusters = Ok clusters' →
  ∃ more, clusters' = clusters ++ more
          ∧ concat more ⊆ ranked_destinations.*1.
Proof.
  revert must_visit_dests clusters.
  induction accommodations as [|acc rest IH]; intros mv clusters H; simpl in H.
  - inv_ok. exists []. rewrite app_nil_r. split; [done | apply subseteq_nil_l].
  - apply bind_Ok in H as ([mv' nearby] & Haround & H).
    apply cluster_around_spec in Haround
      as (claimed & added & _ & Hnb & _ & Hadded & _).
    simpl in Hnb. subst nearby.
    apply IH in H as (more & -> & Hmore).
    destruct added as [|d added]; simpl.
    + by exists more.
    + exists ((d :: added) :: more). rewrite <- app_assoc. split; [done|].
      simpl. by apply (app_subseteq (d :: added)).
Qed.

Lemma ensure_must_visit_subseteq (self : Service.t)
    (ranked_destinations : list (Destination.t * float))
    (top_destinations : list Destination.t) :
  ensure_must_visit self ranked_destinations top_destinations
  ⊆ top_destinations ++ ranked_destinations.*1.
Proof.
  unfold ensure_must_visit. revert top_destinations.
  induction ranked_destinations as [|[dest score] rest IH]; intros top; simpl.
  - by rewrite app_nil_r.
  - etrans; [apply IH|]. intros x.
    destruct (_ && _); rewrite !elem_of_app, !elem_of_cons; simpl.
    + intros [[->|?]|?]; [right; by left | by left | right; by right].
    + intros [?|?]; [by left | right; by right].
Qed.

Lemma top_by_score_subseteq (self : Service.t)
    (ranked_destinations : list (Destination.t * float)) :
  top_by_score self ranked_destinations ⊆ ranked_destinations.*1.
Proof.
  unfold top_by_score, slice_to.
  destruct (0 <=? _); apply sublist_subseteq, fmap_sublist, sublist_take.
Qed.

Lemma cluster_destinations_spec (self : Service.t)
    (ranked_destinations : list (Destination.t * float))
    (accommodations : list Accommodation.t)
    (clusters : list (list Destination.t)) :
  _cluster_destinations self ranked_destinations accommodations = Ok clusters →
  clusters ≠ []
  ∧ concat clusters ⊆ ranked_destinations.*1
  ∧ (accommodations ≠ [] →
     ∀ d, d ∈ ranked_destinations.*1 →
          is_must_visit (Service.prefs self) d = true →
          Destination.id d ∈ Destination.id <$> concat clusters).
Proof.
  unfold _cluster_destinations. intros H.
  destruct accommodations as [|acc rest]; simpl in H.
  - inv_ok. split; [done|]. split; [|done]. simpl. rewrite app_nil_r.
    apply top_by_score_subseteq.
  - apply bind_Ok in H as (clusters' & Hloop & H). simpl in Hloop.
    apply bind_Ok in Hloop as ([mv nearby] & Haround & Hrest).
    apply cluster_around_spec in Haround
      as (claimed & added & Hmv & Hnb & Hclaimed & Hadded & Hall).
    simpl in Hmv, Hnb. subst mv nearby.
    apply cluster_accommodations_spec in Hrest as (more & -> & Hmore).
    destruct added as [|d added]; simpl in H.
    + assert (claimed = []) as ->.
      { destruct claimed as [|c claimed]; [done|].
        exfalso. eapply elem_of_nil, Hclaimed, elem_of_cons. by left. }
      assert (∀ x, x ∈ ranked_destinations.*1 →
                   is_must_visit (Service.prefs self) x = true → False) as Hnone.
      { intros x Hx Hm. by apply Hall, elem_of_nil in Hm. }
      destruct more as [|c more]; simpl in H; inv_ok.
      * split; [done|]. split.
        -- simpl. rewrite app_nil_r. etrans; [apply ensure_must_visit_subseteq|].
           intros x [Hx|Hx]%elem_of_app; [by apply top_by_score_subseteq in Hx|done].
        -- intros _ x Hx Hm. destruct (Hnone x Hx Hm).
      * split; [done|]. split; [done|].
        intros _ x Hx Hm. destruct (Hnone x Hx Hm).
    + inv_ok. split; [done|]. split.
      * simpl. by apply (app_subseteq (d :: added)).
      * intros _ x Hx Hm. specialize (Hall x Hx Hm). simpl in Hall.
        apply list_elem_of_fmap in Hall as (y & Hid & Hy).
        rewrite Hid. apply list_elem_of_fmap_2.
        rewrite concat_cons, elem_of_app. left. by apply Hclaimed.
Qed.

(** X5. The clusterer never returns an empty list of clusters and clusters
    ranked destinations only; when an accommodation was selected, every
    ranked must-visit destination is in some cluster, whatever its
    distance. *)
Theorem cluster_destinations_covers_must_visit (self : Service.t)
    (ranked_destinations : list (Destination.t * float))
    (accommodations : list Accommodation.t)
    (clusters : list (list Destination.t)) :
  _cluster_destinations self ranked_destinations accommodations = Ok clusters →
  clusters ≠ []
  ∧ concat clusters ⊆ ranked_destinations.*1
  ∧ (accommodations ≠ [] →
     ∀ d, d ∈ ranked_destinations.*1 →
          is_must_visit (Service.prefs self) d = true →
          Destination.id d ∈ Destination.id <$> concat clusters).
Proof. apply cluster_destinations_spec. Qed.

(** ** What the day plans record *)

Lemma schedule_must_visit_count (self : Service.t) (num_activities : Z)
    (day_must_visit : list Destination.t) (st st' : DayState.t) :
  schedule_must_visit self num_activities day_must_visit st = Ok st' →
  DayState.activities_added st
  = Z.of_nat (length (DayState.daily_activities st)) →
  DayState.activities_added st'
  = Z.of_nat (length (DayState.daily_activities st'))
  ∧ DayState.activities_added st'
    ≤ Z.max (DayState.activities_added st) num_activities.
Proof.
  revert st. induction day_must_visit as [|dest rest IH]; intros st H Hc;
    simpl in H.
  - inv_ok. split; [done | lia].
  - destruct (Z.leb_spec num_activities (DayState.activities_added st))
      as [_|Hroom].
    { inv_ok. split; [done | lia]. }
    apply bind_Ok in H as (travel_time & _ & H).
    destruct (_ || _); [by apply IH|].
    match type of H with context [add_activity ?s ?d ?la ?lo ?di ?t ?st0] =>
      destruct (add_activity_spec s d la lo di t st0)
        as (activity & Hacts & _ & _ & _ & Hadded);
      set (st1 := add_activity s d la lo di t st0) in *
    end.
    assert (DayState.activities_added st1
            = Z.of_nat (length (DayState.daily_activities st1))) as Hc1.
    { rewrite Hadded, Hacts, length_app, Hc. simpl. lia. }
    destruct (_ <? DayState.current_time st1).
    + inv_ok. split; [done | lia].
    + apply IH in H as [? ?]; [|done]. split; [done | lia].
Qed.

Lemma fill_remaining_count (self : Service.t) (num_activities : Z)
    (pending : list Destination.t) (idx idx' : nat) (st st' : DayState.t) :
  fill_remaining self num_activities pending idx st = Ok (idx', st') →
  DayState.activities_added st
  = Z.of_nat (length (DayState.daily_activities st)) →
  DayState.activities_added st'
  = Z.of_nat (length (DayState.daily_activities st'))
  ∧ DayState.activities_added st'
    ≤ Z.max (DayState.activities_added st) num_activities.
Proof.
  revert idx st. induction pending as [|dest rest IH]; intros idx st H Hc;
    simpl in H.
  - inv_ok. injection H as <- <-. split; [done | lia].
  - destruct (Z.ltb_spec (DayState.activities_added st) num_activities)
      as [Hroom|_]; simpl in H.
    2:{ inv_ok. injection H as <- <-. split; [done | lia]. }
    apply bind_Ok in H as (travel_time & _ & H).
    destruct (_ <? travel_time); [by eapply IH|].
    destruct (_ <? _ + travel_time).
    { inv_ok. injection H as <- <-. split; [done | lia]. }
    match type of H with context [add_activity ?s ?d ?la ?lo ?di ?t ?st0] =>
      destruct (add_activity_spec s d la lo di t st0)
        as (activity & Hacts & _ & _ & _ & Hadded);
      set (st1 := add_activity s d la lo di t st0) in *
    end.
    assert (DayState.activities_added st1
            = Z.of_nat (length (DayState.daily_activities st1))) as Hc1.
    { rewrite Hadded, Hacts, length_app, Hc. simpl. lia. }
    destruct (_ <? DayState.current_time st1).
    + inv_ok. injection H as <- <-. split; [done | lia].
    + eapply IH in H as [? ?]; [|done]. split; [done | lia].
Qed.

Lemma return_journey_without_leg
    (current_accommodation : option Accommodation.t) (st : DayState.t)
    (total_travel : Z) (total_distance : float) :
  return_journey current_accommodation st = Ok (total_travel, total_distance) →
  no_return_leg current_accommodation (DayState.daily_activities st) →
  total_travel = DayState.total_travel st.
Proof.
  unfold return_journey, no_return_leg.
  destruct current_accommodation as [acc|]; [|by intros [= <- _]].
  intros H [Hlat|Hnil].
  - rewrite Hlat in H. destruct (last _); by injection H as <- _.
  - rewrite Hnil in H. simpl in H. by injection H as <- _.
Qed.

Lemma build_day_record (self : Service.t)
    (current_accommodation : option Accommodation.t)
    (other_dests : list Destination.t)
    (must_visit_per_day : gmap Z (list Destination.t))
    (day : Z) (ts ts' : TripState.t) :
  TripState.current_day ts = day →
  build_day self current_accommodation other_dests must_visit_per_day day ts
  = Ok ts' →
  ∃ dp,
    TripState.itinerary ts' = TripState.itinerary ts ++ [dp]
    ∧ TripState.current_day ts' = day + 1
    ∧ day_record self current_accommodation dp.
Proof.
  unfold build_day. intros <- H. case_bool_decide as Hrest.
  - inv_ok. eexists. simpl. split; [done|]. split; [done|].
    split; simpl; try done; try lia.
    rewrite scheduled_travel_nil. lia.
  - apply bind_Ok in H as (t0 & _ & H).
    apply bind_Ok in H as ([la lo] & _ & H).
    apply bind_Ok in H as (st1 & Hmv & H).
    apply bind_Ok in H as ([idx' st2] & Hfill & H).
    apply bind_Ok in H as ([total_travel total_distance] & Hret & H).
    inv_ok. simpl.
    pose proof (schedule_must_visit_count _ _ _ _ _ Hmv eq_refl) as [Hc1 Hcap1].
    pose proof (fill_remaining_count _ _ _ _ _ _ _ Hfill Hc1) as [Hc2 Hcap2].
    apply schedule_must_visit_spec in Hmv as (mv & Hmv & _ & Hmvt & Hmvb).
    apply fill_remaining_spec in Hfill as (fill & Hfa & _ & _ & Hft & Hfb).
    simpl in Hmv, Hmvt, Hmvb, Hcap1. rewrite Hmv in Hfa.
    eexists. split; [done|]. split; [done|].
    split; simpl; try done.
    + rewrite <- Hc2. lia.
    + intros Hno.
      rewrite (return_journey_without_leg _ _ _ _ Hret Hno), Hft, Hmvt, Hfa.
      rewrite scheduled_travel_app. lia.
    + intros Hmax. rewrite Hfa, scheduled_travel_app.
      destruct Hfb as [->|Hfb].
      * rewrite scheduled_travel_nil. rewrite Hmvt in Hmvb. lia.
      * lia.
Qed.

Lemma build_days_records (self : Service.t)
    (current_accommodation : option Accommodation.t)
    (other_dests : list Destination.t)
    (must_visit_per_day : gmap Z (list Destination.t))
    (n : nat) (day : Z) (ts ts' : TripState.t) :
  TripState.current_day ts = day →
  build_days self current_accommodation other_dests must_visit_per_day
    (seqZ day (Z.of_nat n)) ts = Ok ts' →
  ∃ plans,
    TripState.itinerary ts' = TripState.itinerary ts ++ plans
    ∧ TripState.current_day ts' = day + Z.of_nat n
    ∧ length plans = n
    ∧ Forall (day_record self current_accommodation) plans.
Proof.
  revert day ts. induction n as [|n IH]; intros day ts Hday H.
  - simpl in H. inv_ok. exists []. rewrite app_nil_r.
    split; [done|]. split; [simpl; lia|]. split; [done | constructor].
  - rewrite Nat2Z.inj_succ, seqZ_cons in H by lia. simpl in H.
    apply bind_Ok in H as (ts1 & Hone & H).
    apply build_day_record in Hone as (dp & Hit & Hcd & Hrec); [|done].
    replace (Z.pred (Z.succ (Z.of_nat n))) with (Z.of_nat n) in H by lia.
    apply IH in H as (plans & Hit' & Hcd' & Hlen & Hrest); [|rewrite Hcd; lia].
    exists (dp :: plans). split; [by rewrite Hit', Hit, <- app_assoc|].
    split; [lia|]. split; [by rewrite <- Hlen | by constructor].
Qed.

Lemma create_travel_day_record (self : Service.t) (day_number : Z)
    (current_accommodation : option Accommodation.t) (is_arrival : bool)
    (dp : DayPlan.t) :
  _create_travel_day self day_number current_accommodation is_arrival = Ok dp →
  DayPlan.day_number dp = day_number
  ∧ travel_record self current_accommodation is_arrival dp.
Proof.
  unfold _create_travel_day. intros H.
  apply bind_Ok in H as (minutes & Hmin & H). inv_ok.
  split; [done|]. by split; simpl; try done; destruct is_arrival.
Qed.

(** The records of an itinerary: those of the arrival travel day, of the
    days of the loop and of the departure travel day. *)
Lemma build_records (self : Service.t) (clusters : list (list Destination.t))
    (accommodations : list Accommodation.t) (itinerary : list DayPlan.t) :
  _build_daily_itinerary self clusters accommodations = Ok itinerary →
  ∃ arrival plans departure,
    itinerary = arrival ++ plans ++ departure
    ∧ length plans = Z.to_nat (activity_end_day self + 1 - activity_start_day self)
    ∧ Forall (travel_record self (head accommodations) true) arrival
    ∧ Forall (day_record self (head accommodations)) plans
    ∧ Forall (travel_record self (head accommodations) false) departure.
Proof.
  unfold _build_daily_itinerary. intros H.
  apply bind_Ok in H as (ts0 & Harr & H).
  destruct (split_pool _ _) as [[seen mv] others].
  apply bind_Ok in H as (ts1 & Hdays & H).
  assert (TripState.current_day ts0 = activity_start_day self
          ∧ Forall (travel_record self (head accommodations) true)
              (TripState.itinerary ts0)) as [Hcd0 Harrival].
  { unfold activity_start_day. destruct (arrival_travel_day self).
    - apply bind_Ok in Harr as (d & Hd & Harr). inv_ok. simpl.
      apply create_travel_day_record in Hd as [_ Hd].
      split; [done | constructor; [exact Hd | constructor]].
    - inv_ok. split; [done | constructor]. }
  unfold range in Hdays. rewrite <- seqZ_of_to_nat in Hdays.
  apply build_days_records in Hdays as (plans & Hit & _ & Hlen & Hplans); [|done].
  destruct (Service.needs_departure_travel self).
  - apply bind_Ok in H as (d & Hd & H). inv_ok.
    apply create_travel_day_record in Hd as [_ Hd].
    exists (TripState.itinerary ts0), plans, [d].
    split; [by rewrite Hit, <- app_assoc|]. split; [done|].
    split; [done|]. split; [done | constructor; [exact Hd | constructor]].
  - inv_ok. exists (TripState.itinerary ts0), plans, [].
    rewrite app_nil_r. split; [done|]. split; [done|]. split; [done|].
    split; [done | constructor].
Qed.


Lemma PACE_RULES_activities (pace : string) (pace_config : PaceConfig.t) :
  PACE_RULES pace = Some pace_config →
  0 ≤ (PaceConfig.activities_per_day pace_config).1
  ∧ (PaceConfig.activities_per_day pace_config).1
    ≤ (PaceConfig.activities_per_day pace_config).2.
Proof.
  unfold PACE_RULES.
  repeat (destruct (String.eqb pace _); [intros [= <-]; simpl; lia|]). done.
Qed.

(** X7. The dates of the day plans are consecutive calendar days that start
    with the trip's start date, travel days and rest days included. *)
Theorem itinerary_dates_consecutive (self : Service.t)
    (clusters : list (list Destination.t))
    (accommodations : list Accommodation.t) (itinerary : list DayPlan.t) :
  _build_daily_itinerary self clusters accommodations = Ok itinerary →
  DayPlan.date <$> itinerary
  = seqZ (Service.trip_start_date self) (Z.of_nat (length itinerary)).
Proof.
  intros H. pose proof (build_numbers _ _ _ _ H) as Hnum.
  apply build_records in H as (arrival & plans & departure & -> & _ & Ha & Hp & Hd).
  assert (Forall (λ dp, DayPlan.date dp
                        = Z.add (Service.trip_start_date self - 1)
                            (DayPlan.day_number dp))
            (arrival ++ plans ++ departure)) as Hdates.
  { rewrite !Forall_app. repeat split.
    - eapply Forall_impl; [exact Ha|]. intros dp Hr. rewrite (travel_date _ _ _ _ Hr). lia.
    - eapply Forall_impl; [exact Hp|]. intros dp Hr. rewrite (record_date _ _ _ Hr). lia.
    - eapply Forall_impl; [exact Hd|]. intros dp Hr. rewrite (travel_date _ _ _ _ Hr). lia. }
  apply Forall_fmap_ext in Hdates. rewrite Hdates.
  trans (Z.add (Service.trip_start_date self - 1)
           <$> (DayPlan.day_number <$> arrival ++ plans ++ departure)).
  { by rewrite <- list_fmap_compose. }
  rewrite Hnum, fmap_add_seqZ. f_equal. lia.
Qed.

(** X8. Every day plan records the number of its activities, and no day has
    more activities than the upper figure of the pace's activities per
    day. *)
Theorem day_activities_within_pace (now : Z) (prefs : TravelPreferences.t)
    (self : Service.t) (clusters : list (list Destination.t))
    (accommodations : list Accommodation.t) (itinerary : list DayPlan.t) :
  init now prefs = Ok self →
  _build_daily_itinerary self clusters accommodations = Ok itinerary →
  Forall (λ dp,
      DayPlan.total_activities dp = Z.of_nat (length (DayPlan.activities dp))
      ∧ DayPlan.total_activities dp
        ≤ (PaceConfig.activities_per_day (Service.pace_config self)).2)
    itinerary.
Proof.
  intros Hinit H.
  apply init_spec in Hinit as (_ & Hpace & _).
  apply PACE_RULES_activities in Hpace as [H0 H1].
  apply build_records in H as (arrival & plans & departure & -> & _ & Ha & Hp & Hd).
  rewrite !Forall_app. repeat split.
  - eapply Forall_impl; [exact Ha|]. intros dp Hr.
    destruct (travel_empty _ _ _ _ Hr) as [-> ->]. simpl. lia.
  - eapply Forall_impl; [exact Hp|]. intros dp Hr.
    split; [exact (record_total _ _ _ Hr)|].
    pose proof (record_cap _ _ _ Hr) as Hcap.
    unfold num_activities_for in Hcap.
    destruct (_ && _); [lia|]. destruct (_ =? _); lia.
  - eapply Forall_impl; [exact Hd|]. intros dp Hr.
    destruct (travel_empty _ _ _ _ Hr) as [-> ->]. simpl. lia.
Qed.

Lemma build_day_kinds (self : Service.t)
    (clusters : list (list Destination.t))
    (accommodations : list Accommodation.t) (itinerary : list DayPlan.t) :
  _build_daily_itinerary self clusters accommodations = Ok itinerary →
  Forall (day_kind self) itinerary.
Proof.
  intros H.
  apply build_records in H as (arrival & plans & departure & -> & _ & Ha & Hp & Hd).
  assert (∀ b dp, travel_record self (head accommodations) b dp →
                  day_kind self dp) as Htravel.
  { intros b dp Hr. unfold day_kind.
    destruct (travel_flags _ _ _ _ Hr) as [-> ->].
    destruct (travel_empty _ _ _ _ Hr) as [-> _].
    rewrite (travel_type _ _ _ _ Hr), (travel_accommodation _ _ _ _ Hr).
    split; [|split; [done | exact (travel_time _ _ _ _ Hr)]].
    destruct b; [by left | by right]. }
  rewrite !Forall_app. repeat split.
  - eapply Forall_impl; [exact Ha | apply Htravel].
  - eapply Forall_impl; [exact Hp|]. intros dp Hr. unfold day_kind.
    rewrite (record_not_travel _ _ _ Hr). exact (record_kind _ _ _ Hr).
  - eapply Forall_impl; [exact Hd | apply Htravel].
Qed.

(** X9. Every day plan is of one of four kinds, and its flags and its
    [day_type] agree: a travel day is never a rest day, has no activity and
    records the travel time from the point of origin in minutes; a rest day
    has no activity and no travel; every other day is 'regular'. *)
Theorem itinerary_day_kinds (self : Service.t)
    (clusters : list (list Destination.t))
    (accommodations : list Accommodation.t) (itinerary : list DayPlan.t) :
  _build_daily_itinerary self clusters accommodations = Ok itinerary →
  Forall (day_kind self) itinerary.
Proof. apply build_day_kinds. Qed.

(** X10. On a day without a leg back to the accommodation (no accommodation
    selected, none with a latitude, or nothing scheduled) the recorded travel
    total is the sum of the legs between the activities, and stays within
    one and a half times the pace's daily travel limit. *)
Theorem travel_total_without_return_leg (self : Service.t)
    (clusters : list (list Destination.t))
    (accommodations : list Accommodation.t) (itinerary : list DayPlan.t) :
  0 ≤ PaceConfig.max_daily_travel_time (Service.pace_config self) →
  _build_daily_itinerary self clusters accommodations = Ok itinerary →
  Forall (λ dp,
      DayPlan.is_travel_day dp = false →
      no_return_leg (head accommodations) (DayPlan.activities dp) →
      DayPlan.total_travel_time dp = scheduled_travel (DayPlan.activities dp)
      ∧ 2 * DayPlan.total_travel_time dp
        ≤ 3 * PaceConfig.max_daily_travel_time (Service.pace_config self))
    itinerary.
Proof.
  intros Hmax H.
  apply build_records in H as (arrival & plans & departure & -> & _ & Ha & Hp & Hd).
  rewrite !Forall_app. repeat split.
  - eapply Forall_impl; [exact Ha|]. intros dp Hr Hnt.
    destruct (travel_flags _ _ _ _ Hr) as [Ht _]. congruence.
  - eapply Forall_impl; [exact Hp|]. intros dp Hr _ Hno.
    rewrite (record_legs _ _ _ Hr Hno).
    split; [done | exact (record_bound _ _ _ Hr Hmax)].
  - eapply Forall_impl; [exact Hd|]. intros dp Hr Hnt.
    destruct (travel_flags _ _ _ _ Hr) as [Ht _]. congruence.
Qed.


(** ** Where the visited destinations come from *)

Lemma split_pool_subseteq (prefs : TravelPreferences.t)
    (destination_pool : list Destination.t) :
  (split_pool prefs destination_pool).1.2 ++ (split_pool prefs destination_pool).2
  ⊆ destination_pool.
Proof.
  unfold split_pool.
  enough (∀ s : gset Z * list Destination.t * list Destination.t,
            (fold_left (λ '(seen_ids, must_visit_dests, other_dests) dest,
               if bool_decide (Destination.id dest ∉ seen_ids) then
                 let seen_ids := seen_ids ∪ {[Destination.id dest]} in
                 if is_must_visit prefs dest
                 then (seen_ids, must_visit_dests ++ [dest], other_dests)
                 else (seen_ids, must_visit_dests, other_dests ++ [dest])
               else (seen_ids, must_visit_dests, other_dests))
               destination_pool s).1.2
            ++ (fold_left (λ '(seen_ids, must_visit_dests, other_dests) dest,
               if bool_decide (Destination.id dest ∉ seen_ids) then
                 let seen_ids := seen_ids ∪ {[Destination.id dest]} in
                 if is_must_visit prefs dest
                 then (seen_ids, must_visit_dests ++ [dest], other_dests)
                 else (seen_ids, must_visit_dests, other_dests ++ [dest])
               else (seen_ids, must_visit_dests, other_dests))
               destination_pool s).2
            ⊆ (s.1.2 ++ s.2) ++ destination_pool) as H.
  { etrans; [apply H|]. simpl. done. }
  induction destination_pool as [|dest l IH]; intros [[seen mv] others]; simpl.
  - by rewrite app_nil_r.
  - etrans; [apply IH|]. intros x.
    destruct (bool_decide _); [destruct (is_must_visit prefs dest)|]; simpl;
      rewrite !elem_of_app, ?elem_of_cons, ?elem_of_app, ?elem_of_cons,
        ?elem_of_nil; intuition.
Qed.

(** The destinations an itinerary visits are, with multiplicity, among the
    deduplicated destinations of the pool. *)
Lemma visited_submseteq_pool (self : Service.t)
    (clusters : list (list Destination.t))
    (accommodations : list Accommodation.t) (itinerary : list DayPlan.t) :
  _build_daily_itinerary self clusters accommodations = Ok itinerary →
  visited itinerary
  ⊆+ (split_pool (Service.prefs self) (concat clusters)).1.2
     ++ (split_pool (Service.prefs self) (concat clusters)).2.
Proof.
  intros H. apply build_structure in H
    as (arrival & plans & departure & idx' & -> & Ha & Hp & Hd).
  rewrite !visited_app, (visited_travel_days _ _ _ Ha),
    (visited_travel_days _ _ _ Hd), app_nil_r. simpl.
  apply days_outcome_visited in Hp as [_ Hp].
  etrans; [exact Hp|].
  apply submseteq_app.
  - apply must_visit_per_day_submseteq. apply NoDup_seqZ.
  - rewrite drop_0. etrans; [apply submseteq_take|].
    by rewrite sort_by_distance_Permutation.
Qed.

(** X11. Every destination the planner schedules is a row of the catalog
    that meets all hard conditions of the filter: the scorer, the clusterer
    and the scheduler add no destination of their own. *)
Theorem visited_destinations_eligible (self : Service.t)
    (destinations : list Destination.t) (accommodations : list Accommodation.t)
    (itinerary : list DayPlan.t) :
  plan_days self destinations accommodations = Ok itinerary →
  ∀ d, d ∈ visited itinerary →
       d ∈ destinations ∧ eligible (Service.prefs self) d.
Proof.
  unfold plan_days. intros H d Hd.
  apply bind_Ok in H as (selected & _ & H).
  apply bind_Ok in H as (clusters & Hclusters & H).
  apply visited_submseteq_pool in H.
  apply cluster_destinations_spec in Hclusters as (_ & Hsub & _).
  apply filter_destinations_elem_of.
  rewrite <- (score_destinations_Permutation (Service.prefs self)).
  apply Hsub. apply (split_pool_subseteq (Service.prefs self)).
  by eapply elem_of_submseteq.
Qed.

(** ** The order of the fillers *)

Lemma filter_all_false {A} (f : A → bool) (l : list A) :
  Forall (λ x, f x = false) l → List.filter f l = [].
Proof. induction 1 as [|x l Hx _ IH]; simpl; [done|]. by rewrite Hx. Qed.

Lemma filter_all_true {A} (f : A → bool) (l : list A) :
  Forall (λ x, f x = true) l → List.filter f l = l.
Proof. induction 1 as [|x l Hx _ IH]; simpl; [done|]. by rewrite Hx, IH. Qed.

Lemma Forall_sublist {A} (P : A → Prop) (l k : list A) :
  l `sublist_of` k → Forall P k → Forall P l.
Proof.
  intros Hsub Hk. apply Forall_forall. intros x Hx.
  eapply Forall_forall; [exact Hk|]. by eapply elem_of_sublist.
Qed.

Lemma days_outcome_fillers (self : Service.t)
    (must_visit_per_day : gmap Z (list Destination.t))
    (other_dests : list Destination.t) (days : list Z) (current_day : Z)
    (idx idx' : nat) (plans : list DayPlan.t) :
  days_outcome self must_visit_per_day other_dests days current_day idx plans idx' →
  (∀ day, Forall (λ d, is_must_visit (Service.prefs self) d = true)
            (day_must_visit must_visit_per_day day)) →
  Forall (λ d, is_must_visit (Service.prefs self) d = false) other_dests →
  (idx ≤ idx')%nat
  ∧ List.filter (λ d, negb (is_must_visit (Service.prefs self) d)) (visited plans)
    `sublist_of` take (idx' - idx) (drop idx other_dests).
Proof.
  intros H Hmust Hothers.
  induction H as [|day days cd idx idx1 idx' dp plans Hday _ [Hle IH]].
  - split; [lia | apply sublist_nil_l].
  - pose proof (outcome_index _ _ _ _ _ _ _ _ Hday) as Hle1.
    destruct (outcome_visits _ _ _ _ _ _ _ _ Hday)
      as (mv & fill & Hacts & Hmv & Hfill & _).
    split; [lia|].
    rewrite visited_cons, Hacts, fmap_app, !List.filter_app.
    rewrite (take_drop_split other_dests idx idx1 idx') by done.
    rewrite (filter_all_false _ (Activity.destination <$> mv)).
    + simpl. apply sublist_app; [|exact IH].
      rewrite filter_all_true; [done|].
      apply (Forall_impl (λ d, is_must_visit (Service.prefs self) d = false));
        [|by intros d ->].
      eapply Forall_sublist; [exact Hfill|].
      eapply Forall_sublist; [apply sublist_take|].
      eapply Forall_sublist; [apply sublist_drop | exact Hothers].
    + apply (Forall_impl (λ d, is_must_visit (Service.prefs self) d = true));
        [|by intros d ->].
      eapply Forall_sublist; [exact Hmv | apply Hmust].
Qed.

(** X12. Over the whole trip the destinations outside the must-visit list
    are visited in the order of the list sorted by distance from the
    accommodation, nearest first: a filler is never scheduled after one that
    lies farther from the accommodation in that list. *)
Theorem fillers_nearest_first (self : Service.t)
    (clusters : list (list Destination.t))
    (accommodations : list Accommodation.t) (itinerary : list DayPlan.t) :
  _build_daily_itinerary self clusters accommodations = Ok itinerary →
  List.filter (λ d, negb (is_must_visit (Service.prefs self) d))
    (visited itinerary)
  `sublist_of` sort_by_distance (head accommodations)
                 (split_pool (Service.prefs self) (concat clusters)).2.
Proof.
  intros H. apply build_structure in H
    as (arrival & plans & departure & idx' & -> & Ha & Hp & Hd).
  rewrite !visited_app, (visited_travel_days _ _ _ Ha),
    (visited_travel_days _ _ _ Hd), app_nil_r. simpl.
  pose proof (split_pool_invariant (Service.prefs self) (concat clusters)) as Hinv.
  destruct (split_pool _ _) as [[seen mvs] others]. simpl in *.
  destruct Hinv as (_ & _ & Hmust & Hothers).
  apply days_outcome_fillers in Hp as [_ Hp].
  - etrans; [exact Hp|]. rewrite drop_0. apply sublist_take.
  - intros day. apply Forall_forall. intros d Hd'.
    apply day_must_visit_elem_of in Hd'.
    by apply (proj1 (Forall_forall _ _) Hmust).
  - by rewrite sort_by_distance_Permutation.
Qed.


(** ** The serialized itinerary *)

Lemma Z_sum_cons (x : Z) (l : list Z) : Z_sum (x :: l) = x + Z_sum l.
Proof. unfold Z_sum. simpl. by rewrite Z_sum_from. Qed.

Lemma serialized_destinations (self : Service.t) (itinerary : list DayPlan.t) :
  Forall (day_kind self) itinerary →
  Z_sum ((λ day, Z.of_nat (length (DayData.activities day))) <$>
    List.filter (λ day, negb (DayData.is_rest_day day)
                        && negb (DayData.is_travel_day day))
      (serialize_day <$> itinerary))
  = Z.of_nat (length (concat (DayData.activities <$> (serialize_day <$> itinerary)))).
Proof.
  induction 1 as [|dp l Hdp _ IH]; [done|].
  rewrite !fmap_cons, concat_cons, length_app, Nat2Z.inj_add, <- IH.
  unfold day_kind in Hdp. simpl.
  destruct (DayPlan.is_travel_day dp), (DayPlan.is_rest_day dp); simpl.
  - done.
  - destruct Hdp as (_ & -> & _). simpl. lia.
  - destruct Hdp as (_ & -> & _). simpl. lia.
  - apply Z_sum_cons.
Qed.

Lemma serialized_ids (itinerary : list DayPlan.t) :
  ActivityData.destination_id
    <$> concat (DayData.activities <$> (serialize_day <$> itinerary))
  = Destination.id <$> visited itinerary.
Proof.
  unfold visited. induction itinerary as [|dp l IH]; [done|].
  rewrite !fmap_cons, !concat_cons, !fmap_app, IH. f_equal.
  simpl. rewrite <- !list_fmap_compose. done.
Qed.

(** X13. In the serialized result no destination id occurs in two
    activities, and [total_destinations] of the summary is the number of all
    serialized activities: the days it leaves out, rest days and travel
    days, have none. *)
Theorem summary_counts_every_activity (now : Z) (prefs : TravelPreferences.t)
    (destinations : list Destination.t) (accommodations : list Accommodation.t)
    (result : Itinerary.t) :
  generate_itinerary now prefs destinations accommodations = Ok result →
  NoDup (ActivityData.destination_id
           <$> concat (DayData.activities <$> Itinerary.itinerary result))
  ∧ Summary.total_destinations (Itinerary.summary result)
    = Z.of_nat (length (concat (DayData.activities <$> Itinerary.itinerary result))).
Proof.
  unfold generate_itinerary, plan_days. intros H.
  apply bind_Ok in H as (self & _ & H).
  apply bind_Ok in H as (itinerary & Hplan & H).
  apply bind_Ok in Hplan as (selected & _ & Hplan).
  apply bind_Ok in Hplan as (clusters & _ & Hbuild).
  inv_ok. simpl. split.
  - rewrite serialized_ids. by eapply visited_ids_NoDup.
  - eapply serialized_destinations, build_day_kinds, Hbuild.
Qed.


(** ** The round-robin distribution loses nothing *)

Lemma assign_Permutation (m : gmap Z (list Destination.t)) (day_num : Z)
    (dest : Destination.t) (days : list Z) :
  NoDup days → day_num ∈ days →
  concat (day_must_visit (<[day_num := day_must_visit m day_num ++ [dest]]> m)
            <$> days)
  ≡ₚ concat (day_must_visit m <$> days) ++ [dest].
Proof.
  induction days as [|d days IH]; intros Hnd Hin.
  - by apply elem_of_nil in Hin.
  - rewrite !fmap_cons. cbn [concat]. apply NoDup_cons in Hnd as [Hd Hnd].
    destruct (decide (d = day_num)) as [->|Hne].
    + assert (day_must_visit (<[day_num := day_must_visit m day_num ++ [dest]]> m)
                <$> days = day_must_visit m <$> days) as ->.
      { apply list_fmap_ext. intros i d' Hd'. unfold day_must_visit at 1 3.
        rewrite lookup_insert_ne; [done|].
        intros ->. apply Hd. by eapply list_elem_of_lookup_2. }
      assert (day_must_visit (<[day_num := day_must_visit m day_num ++ [dest]]> m)
                day_num = day_must_visit m day_num ++ [dest]) as ->.
      { unfold day_must_visit at 1. by rewrite lookup_insert_eq. }
      rewrite <- !app_assoc. apply Permutation_app_head.
      apply Permutation_app_comm.
    + assert (day_must_visit (<[day_num := day_must_visit m day_num ++ [dest]]> m)
                d = day_must_visit m d) as ->.
      { unfold day_must_visit at 1 3. by rewrite lookup_insert_ne. }
      rewrite <- app_assoc. apply Permutation_app_head. apply IH; [done|].
      apply elem_of_cons in Hin as [->|Hin]; [done | exact Hin].
Qed.

Lemma distribute_Permutation (active_days : list Z) (idx : nat)
    (must_visit_dests : list Destination.t)
    (m : gmap Z (list Destination.t)) (days : list Z) :
  NoDup days → active_days ≠ [] → active_days ⊆ days →
  concat (day_must_visit (distribute active_days idx must_visit_dests m) <$> days)
  ≡ₚ concat (day_must_visit m <$> days) ++ must_visit_dests.
Proof.
  intros Hnd Hne Hsub. revert idx m.
  induction must_visit_dests as [|dest rest IH]; intros idx m; simpl.
  - by rewrite app_nil_r.
  - destruct (lookup_lt_is_Some_2 active_days (idx `mod` length active_days))
      as [day_num Hday].
    { apply Nat.mod_upper_bound. by destruct active_days. }
    rewrite Hday, IH.
    fold (day_must_visit m day_num).
    rewrite (assign_Permutation m day_num dest days Hnd).
    + by rewrite <- app_assoc.
    + apply Hsub. by eapply list_elem_of_lookup_2.
Qed.

Lemma distribute_elsewhere (active_days : list Z) (idx : nat)
    (must_visit_dests : list Destination.t)
    (m : gmap Z (list Destination.t)) (day : Z) :
  day ∉ active_days →
  distribute active_days idx must_visit_dests m !! day = m !! day.
Proof.
  intros Hday. revert idx m.
  induction must_visit_dests as [|dest rest IH]; intros idx m; simpl; [done|].
  destruct (active_days !! _) as [day_num|] eqn:Hlook; [|done].
  rewrite IH, lookup_insert_ne; [done|].
  intros ->. apply Hday. by eapply list_elem_of_lookup_2.
Qed.

Lemma active_days_NoDup (self : Service.t) : NoDup (active_days self).
Proof.
  unfold active_days, range.
  eapply sublist_NoDup; [apply NoDup_seqZ | apply filter_sublist_of].
Qed.

Lemma empty_day_must_visit (days : list Z) :
  concat (day_must_visit (∅ : gmap Z (list Destination.t)) <$> days) = [].
Proof.
  induction days as [|d days IH]; [done|].
  rewrite fmap_cons. cbn [concat]. rewrite IH.
  unfold day_must_visit. by rewrite lookup_empty.
Qed.

Lemma must_visit_per_day_Permutation (self : Service.t)
    (must_visit_dests : list Destination.t) :
  active_days self ≠ [] →
  concat (day_must_visit (must_visit_per_day self must_visit_dests)
            <$> active_days self)
  ≡ₚ must_visit_dests.
Proof.
  intros Hactive. unfold must_visit_per_day.
  destruct (negb (is_empty must_visit_dests) && _) eqn:Hsome.
  - rewrite (distribute_Permutation (active_days self) 0 must_visit_dests ∅
               (active_days self) (active_days_NoDup self) Hactive);
      [by rewrite empty_day_must_visit | done].
  - assert (must_visit_dests = []) as ->.
    { destruct must_visit_dests; [done|]. by destruct (active_days self). }
    by rewrite empty_day_must_visit.
Qed.

(** X14. The round-robin distribution loses and repeats nothing: as soon as
    there is an active day, the lists handed to the active days hold
    together exactly the must-visit destinations of the pool, and no other
    day is handed any. *)
Theorem must_visit_all_assigned (self : Service.t)
    (must_visit_dests : list Destination.t) :
  active_days self ≠ [] →
  concat (day_must_visit (must_visit_per_day self must_visit_dests)
            <$> active_days self)
  ≡ₚ must_visit_dests
  ∧ ∀ day, day ∉ active_days self →
           day_must_visit (must_visit_per_day self must_visit_dests) day = [].
Proof.
  intros Hactive. split; [by apply must_visit_per_day_Permutation|].
  intros day Hday. unfold must_visit_per_day, day_must_visit.
  destruct (negb (is_empty must_visit_dests) && _).
  - by rewrite (distribute_elsewhere _ _ _ _ _ Hday), lookup_empty.
  - by rewrite lookup_empty.
Qed.

Lemma split_pool_covers (prefs : TravelPreferences.t)
    (destination_pool : list Destination.t) (d : Destination.t) :
  d ∈ destination_pool →
  Destination.id d
  ∈ Destination.id <$> ((split_pool prefs destination_pool).1.2
                        ++ (split_pool prefs destination_pool).2).
Proof.
  unfold split_pool.
  match goal with |- context [fold_left ?F _ _] => set (step := F) end.
  enough (∀ s : gset Z * list Destination.t * list Destination.t,
            (∀ i, i ∈ s.1.1 → i ∈ Destination.id <$> (s.1.2 ++ s.2)) →
            (∀ i, i ∈ Destination.id <$> (s.1.2 ++ s.2) →
                  i ∈ Destination.id
                      <$> ((fold_left step destination_pool s).1.2
                           ++ (fold_left step destination_pool s).2))
            ∧ (∀ x, x ∈ destination_pool →
                    Destination.id x
                    ∈ Destination.id
                        <$> ((fold_left step destination_pool s).1.2
                             ++ (fold_left step destination_pool s).2))) as H.
  { intros Hd. apply (H (∅, [], [])); [|done].
    simpl. by intros i ?%elem_of_empty. }
  clear d. induction destination_pool as [|dest l IH]; intros [[seen mv] others] Hseen.
  { split; [done | by intros x ?%elem_of_nil]. }
  cbn [fst snd] in Hseen. cbn [fold_left].
  assert ((∀ i, i ∈ (step (seen, mv, others) dest).1.1 →
                i ∈ Destination.id
                    <$> ((step (seen, mv, others) dest).1.2
                         ++ (step (seen, mv, others) dest).2))
          ∧ (∀ i, i ∈ Destination.id <$> (mv ++ others) →
                  i ∈ Destination.id
                      <$> ((step (seen, mv, others) dest).1.2
                           ++ (step (seen, mv, others) dest).2))
          ∧ Destination.id dest
            ∈ Destination.id
                <$> ((step (seen, mv, others) dest).1.2
                     ++ (step (seen, mv, others) dest).2)) as (Hseen' & Hgrow & Hdest).
  { unfold step. case_bool_decide as Hnew.
    - destruct (is_must_visit prefs dest); simpl;
        rewrite ?fmap_app, ?fmap_cons, ?fmap_nil.
      + split; [|split].
        * intros i [Hi| ->%elem_of_singleton]%elem_of_union.
          -- apply Hseen in Hi. rewrite fmap_app in Hi.
             apply elem_of_app in Hi as [Hi|Hi];
               rewrite !elem_of_app; auto.
          -- rewrite !elem_of_app, list_elem_of_singleton. auto.
        * intros i Hi.
          apply elem_of_app in Hi as [Hi|Hi]; rewrite !elem_of_app; auto.
        * rewrite !elem_of_app, list_elem_of_singleton. auto.
      + split; [|split].
        * intros i [Hi| ->%elem_of_singleton]%elem_of_union.
          -- apply Hseen in Hi. rewrite fmap_app in Hi.
             apply elem_of_app in Hi as [Hi|Hi];
               rewrite !elem_of_app; auto.
          -- rewrite !elem_of_app, list_elem_of_singleton. auto.
        * intros i Hi.
          apply elem_of_app in Hi as [Hi|Hi]; rewrite !elem_of_app; auto.
        * rewrite !elem_of_app, list_elem_of_singleton. auto.
    - simpl. split; [exact Hseen|]. split; [done|].
      by apply Hseen. }
  destruct (IH (step (seen, mv, others) dest) Hseen') as [Hgrow' Hrest].
  split.
  - intros i Hi. by apply Hgrow', Hgrow.
  - intros x [->|Hx]%elem_of_cons; [by apply Hgrow' | by apply Hrest].
Qed.

(** With at least one active day, every must-visit destination of the
    clusters is handed to an active day: the deduplication and the
    distribution lose none. *)
Lemma must_visit_pool_reaches_a_day (self : Service.t)
    (clusters : list (list Destination.t)) (d : Destination.t) :
  active_days self ≠ [] →
  Destination.id d ∈ Destination.id <$> concat clusters →
  is_must_visit (Service.prefs self) d = true →
  ∃ day d',
    day ∈ active_days self
    ∧ d' ∈ day_must_visit
             (must_visit_per_day self
                (split_pool (Service.prefs self) (concat clusters)).1.2) day
    ∧ Destination.id d' = Destination.id d.
Proof.
  intros Hactive Hd Hmust.
  apply list_elem_of_fmap in Hd as (d0 & Hid0 & Hd0).
  pose proof (split_pool_covers (Service.prefs self) _ _ Hd0) as Hin.
  pose proof (split_pool_invariant (Service.prefs self) (concat clusters)) as Hinv.
  destruct (split_pool _ _) as [[seen mvs] others]. simpl in *.
  destruct Hinv as (_ & _ & _ & Hothers).
  apply list_elem_of_fmap in Hin as (d' & Hid & Hd').
  assert (is_must_visit (Service.prefs self) d' = true) as Hmust'.
  { unfold is_must_visit in *. by rewrite <- Hid, <- Hid0. }
  apply elem_of_app in Hd' as [Hd'|Hd'].
  - rewrite <- (must_visit_per_day_Permutation self mvs Hactive) in Hd'.
    apply list_elem_of_In, in_concat in Hd' as (l & Hl & Hd').
    apply list_elem_of_In, list_elem_of_fmap in Hl as (day & -> & Hday).
    exists day, d'. split; [done|].
    split; [by apply list_elem_of_In | congruence].
  - apply (proj1 (Forall_forall _ _) Hothers) in Hd'. congruence.
Qed.

(** X22. When an accommodation is selected and the trip has an active day,
    every must-visit destination of the catalog that passes the filter is
    handed to an active day (itself, or the first destination of the pool
    with its id): the ranking, the clusterer, the deduplication and the
    distribution lose none, so such a destination can only be left out by
    the loop of its day. *)
Theorem must_visit_reaches_a_day (self : Service.t)
    (destinations : list Destination.t) (selected : list Accommodation.t)
    (clusters : list (list Destination.t)) (d : Destination.t) :
  _cluster_destinations self
    (_score_destinations (Service.prefs self)
       (_filter_destinations (Service.prefs self) destinations)) selected
  = Ok clusters →
  selected ≠ [] →
  active_days self ≠ [] →
  d ∈ destinations → eligible (Service.prefs self) d →
  is_must_visit (Service.prefs self) d = true →
  ∃ day d',
    day ∈ active_days self
    ∧ d' ∈ day_must_visit
             (must_visit_per_day self
                (split_pool (Service.prefs self) (concat clusters)).1.2) day
    ∧ Destination.id d' = Destination.id d.
Proof.
  intros Hclusters Hsel Hactive Hd Hel Hmust.
  apply cluster_destinations_spec in Hclusters as (_ & _ & Hcover).
  apply must_visit_pool_reaches_a_day; [done | | done].
  apply Hcover; [done | | done].
  rewrite score_destinations_Permutation.
  by apply filter_destinations_elem_of.
Qed.


(** ** The start location of a day *)

Lemma start_day_not_rest (self : Service.t) :
  activity_start_day self ∉ rest_days self.
Proof.
  unfold rest_days. destruct (Z.leb_spec 5 (effective_days self)) as [H5|_];
    [|apply not_elem_of_nil].
  intros Hin%list_elem_of_singleton.
  revert H5 Hin. generalize (effective_days self) (activity_start_day self).
  intros; Z.div_mod_to_equations; lia.
Qed.

(** X16. When the first selected accommodation has a latitude and no
    longitude, the scheduler raises a TypeError as soon as there is a day to
    plan: the start location of the first day converts the missing
    longitude. *)
Theorem build_raises_without_longitude (self : Service.t)
    (clusters : list (list Destination.t))
    (accommodations : list Accommodation.t) (acc : Accommodation.t) (m : Z) :
  head accommodations = Some acc →
  truthy (Accommodation.latitude acc) = true →
  Accommodation.longitude acc = None →
  travel_minutes self = Ok m →
  activity_start_day self ≤ activity_end_day self →
  _build_daily_itinerary self clusters accommodations = Raise TypeError.
Proof.
  intros Hacc Hlat Hlon Hmin Hdays. unfold _build_daily_itinerary.
  assert (∃ ts0,
            (if arrival_travel_day self then
               _create_travel_day self 1 (head accommodations) true
               ≫= λ day_plan, Ok (TripState.mk (1 + 1) 0 [day_plan])
             else Ok (TripState.mk 1 0 [])) = Ok ts0) as [ts0 ->].
  { destruct (arrival_travel_day self); [|eauto].
    unfold _create_travel_day. rewrite Hmin. simpl. eauto. }
  simpl. destruct (split_pool _ _) as [[seen mvs] others].
  unfold range. rewrite seqZ_cons by lia. simpl.
  unfold build_day.
  rewrite bool_decide_eq_false_2 by apply start_day_not_rest.
  assert (∃ t0, day_start_time self (activity_start_day self) = Ok t0) as [t0 ->].
  { unfold day_start_time. destruct (_ && _); [rewrite Hmin; simpl|]; eauto. }
  simpl. unfold start_location. rewrite Hacc, Hlat, Hlon.
  destruct (Accommodation.latitude acc); done.
Qed.

(** ** The accommodation of the day plans and the size of the trip *)

(** X18. Only the first selected accommodation is ever used: every day plan
    carries it, except the departure travel day, which carries none.  A
    second accommodation selected for a longer trip appears nowhere. *)
Theorem only_first_accommodation_used (self : Service.t)
    (clusters : list (list Destination.t))
    (accommodations : list Accommodation.t) (itinerary : list DayPlan.t) :
  _build_daily_itinerary self clusters accommodations = Ok itinerary →
  Forall (λ dp,
      DayPlan.accommodation dp
      = if String.eqb (DayPlan.day_type dp) "travel_from"
        then None else head accommodations)
    itinerary.
Proof.
  intros H.
  apply build_records in H as (arrival & plans & departure & -> & _ & Ha & Hp & Hd).
  rewrite !Forall_app. repeat split.
  - eapply Forall_impl; [exact Ha|]. intros dp Hr.
    by rewrite (travel_type _ _ _ _ Hr), (travel_accommodation _ _ _ _ Hr).
  - eapply Forall_impl; [exact Hp|]. intros dp Hr.
    rewrite (record_accommodation _ _ _ Hr).
    pose proof (record_kind _ _ _ Hr) as Hkind.
    destruct (DayPlan.is_rest_day dp); [destruct Hkind as (-> & _)|rewrite Hkind];
      done.
  - eapply Forall_impl; [exact Hd|]. intros dp Hr.
    by rewrite (travel_type _ _ _ _ Hr), (travel_accommodation _ _ _ _ Hr).
Qed.

Lemma visited_travel_records (self : Service.t)
    (current_accommodation : option Accommodation.t) (is_arrival : bool)
    (l : list DayPlan.t) :
  Forall (travel_record self current_accommodation is_arrival) l →
  visited l = [].
Proof.
  induction 1 as [|dp l Hr _ IH]; [done|].
  rewrite visited_cons, IH. by destruct (travel_empty _ _ _ _ Hr) as [-> _].
Qed.

Lemma visited_length_bounded (c : Z) (plans : list DayPlan.t) :
  Forall (λ dp, Z.of_nat (length (DayPlan.activities dp)) ≤ c) plans →
  Z.of_nat (length (visited plans)) ≤ Z.of_nat (length plans) * c.
Proof.
  induction 1 as [|dp l Hdp _ IH]; [done|].
  rewrite visited_cons, length_app, length_fmap. simpl length. lia.
Qed.

(** X19. An itinerary visits at most as many destinations as the trip has
    days times the upper figure of the pace's activities per day, and at
    most as many as the clusters hold. *)
Theorem visited_count_bounded (now : Z) (prefs : TravelPreferences.t)
    (self : Service.t) (clusters : list (list Destination.t))
    (accommodations : list Accommodation.t) (itinerary : list DayPlan.t) :
  init now prefs = Ok self →
  _build_daily_itinerary self clusters accommodations = Ok itinerary →
  Z.of_nat (length (visited itinerary))
  ≤ Z.max 0 (TravelPreferences.days prefs)
    * (PaceConfig.activities_per_day (Service.pace_config self)).2
  ∧ (length (visited itinerary) ≤ length (concat clusters))%nat.
Proof.
  intros Hinit H. split.
  - apply init_spec in Hinit as (Hprefs & Hpace & _).
    apply PACE_RULES_activities in Hpace as [H0 H1].
    apply build_records in H
      as (arrival & plans & departure & -> & Hlen & Ha & Hp & Hd).
    rewrite !visited_app, (visited_travel_records _ _ _ _ Ha),
      (visited_travel_records _ _ _ _ Hd), app_nil_r. simpl.
    etrans.
    + apply (visited_length_bounded
               (PaceConfig.activities_per_day (Service.pace_config self)).2).
      eapply Forall_impl; [exact Hp|]. intros dp Hr.
      pose proof (record_cap _ _ _ Hr) as Hcap.
      rewrite (record_total _ _ _ Hr) in Hcap.
      unfold num_activities_for in Hcap.
      destruct (_ && _); [lia|]. destruct (_ =? _); lia.
    + rewrite Hlen. unfold activity_end_day, activity_start_day.
      rewrite Hprefs. destruct (arrival_travel_day self); nia.
  - pose proof (visited_submseteq_pool _ _ _ _ H) as Hsub.
    apply submseteq_length in Hsub. etrans; [exact Hsub|].
    apply submseteq_length, NoDup_submseteq.
    + pose proof (split_pool_invariant (Service.prefs self) (concat clusters))
        as Hinv.
      destruct (split_pool _ _) as [[seen mvs] others].
      destruct Hinv as (_ & Hnd & _). by apply NoDup_fmap_1 in Hnd.
    + apply split_pool_subseteq.
Qed.


(** ** The order of the ranking and of the fillers *)

Lemma SFcompare_antisym (f1 f2 : spec_float) :
  SFcompare f2 f1 = option_map CompOpp (SFcompare f1 f2).
Proof.
  destruct f1 as [s1|s1| |s1 m1 e1], f2 as [s2|s2| |s2 m2 e2]; simpl;
    try done; try (by destruct s1); try (by destruct s2);
    try (by destruct s1, s2).
  rewrite (Z.compare_antisym e1 e2), !Pos.compare_cont_spec.
  rewrite (Pos.compare_antisym m1 m2). simpl.
  destruct s1, s2; simpl; try done;
    destruct (e1 ?= e2); simpl; try done; by destruct (m1 ?= m2)%positive.
Qed.

Lemma ltb_asym (x y : float) : (x <? y)%float = true → (y <? x)%float = false.
Proof.
  rewrite !ltb_spec. unfold SFltb. rewrite (SFcompare_antisym (Prim2SF x)).
  by destruct (SFcompare (Prim2SF x) (Prim2SF y)) as [[]|].
Qed.

Lemma insert_sorted_ordered {A} (lt : A → A → bool) (x : A) (l : list A) :
  (∀ a b, lt a b = true → lt b a = false) →
  ordered lt l → ordered lt (insert_sorted lt x l).
Proof.
  intros Hasym. induction l as [|y l IH]; intros Hl; simpl; [done|].
  destruct (lt x y) eqn:Hxy.
  - split; [by apply Hasym | exact Hl].
  - destruct Hl as [Hy Hl]. split; [|by apply IH].
    destruct l as [|z l]; simpl; [done|]. by destruct (lt x z).
Qed.

Lemma sorted_ordered {A} (lt : A → A → bool) (l : list A) :
  (∀ a b, lt a b = true → lt b a = false) → ordered lt (sorted lt l).
Proof.
  intros Hasym. unfold sorted.
  enough (∀ acc, ordered lt acc →
                 ordered lt (fold_left (λ acc x, insert_sorted lt x acc) l acc))
    as H by (by apply H).
  induction l as [|x l IH]; intros acc Hacc; simpl; [done|].
  by apply IH, insert_sorted_ordered.
Qed.

Lemma ordered_ext {A} (lt lt' : A → A → bool) (l : list A) :
  (∀ a b, a ∈ l → b ∈ l → lt a b = lt' a b) → ordered lt l → ordered lt' l.
Proof.
  induction l as [|x l IH]; intros Hext Hl; [done|].
  destruct Hl as [Hx Hl]. split.
  - destruct l as [|y l]; [done|].
    rewrite <- Hext; [done | |]; rewrite !elem_of_cons; auto.
  - apply IH; [|done]. intros a b Ha Hb. apply Hext; apply elem_of_cons; auto.
Qed.

Lemma ordered_fmap {A B} (f : A → B) (lt : B → B → bool) (l : list A) :
  ordered (λ a b, lt (f a) (f b)) l → ordered lt (f <$> l).
Proof.
  induction l as [|x l IH]; intros Hl; [done|].
  destruct Hl as [Hx Hl]. rewrite fmap_cons. split; [|by apply IH].
  by destruct l.
Qed.

(** X20. The ranking is in the order of the scores, highest first: no
    destination is ranked directly before one with a strictly higher
    score. *)
Theorem ranking_highest_score_first (prefs : TravelPreferences.t)
    (destinations : list Destination.t) :
  ordered (λ a b,
      (score_destination prefs b <? score_destination prefs a)%float)
    ((_score_destinations prefs destinations).*1).
Proof.
  apply (ordered_fmap fst
           (λ a b, (score_destination prefs b <? score_destination prefs a)%float)).
  apply (ordered_ext (λ a b, (snd b <? snd a)%float)).
  - unfold _score_destinations. intros a b Ha Hb.
    rewrite sorted_Permutation in Ha, Hb.
    apply list_elem_of_fmap in Ha as (da & -> & _).
    by apply list_elem_of_fmap in Hb as (db & -> & _).
  - apply sorted_ordered. intros a b. apply ltb_asym.
Qed.

(** X21. The fillers are sorted by their distance from the accommodation,
    nearest first: in the sorted list no destination is directly followed
    by one that is strictly nearer. *)
Theorem fillers_sorted_by_distance
    (current_accommodation : option Accommodation.t)
    (other_dests : list Destination.t) :
  ordered (λ a b,
      (distance_from current_accommodation a
         <? distance_from current_accommodation b)%float)
    (sort_by_distance current_accommodation other_dests).
Proof.
  unfold sort_by_distance.
  apply (ordered_fmap fst
           (λ a b, (distance_from current_accommodation a
                      <? distance_from current_accommodation b)%float)).
  apply (ordered_ext (λ a b, (snd a <? snd b)%float)).
  - intros a b Ha Hb. rewrite sorted_Permutation in Ha, Hb.
    apply list_elem_of_fmap in Ha as (da & -> & _).
    by apply list_elem_of_fmap in Hb as (db & -> & _).
  - apply sorted_ordered. intros a b. apply ltb_asym.
Qed.


(** ** The travel days at the ends of an itinerary *)

(** The shape of an itinerary with its records: the arrival travel day, if
    day 1 is one, the plans of the loop, the departure travel day, if the
    traveler has to travel back. *)
Lemma build_shape (self : Service.t) (clusters : list (list Destination.t))
    (accommodations : list Accommodation.t) (itinerary : list DayPlan.t) :
  _build_daily_itinerary self clusters accommodations = Ok itinerary →
  ∃ arrival plans departure,
    itinerary = arrival ++ plans ++ departure
    ∧ (if arrival_travel_day self
       then ∃ d, arrival = [d] ∧ DayPlan.day_number d = 1
                 ∧ travel_record self (head accommodations) true d
       else arrival = [])
    ∧ length plans = Z.to_nat (activity_end_day self + 1 - activity_start_day self)
    ∧ Forall (day_record self (head accommodations)) plans
    ∧ (if Service.needs_departure_travel self
       then ∃ d, departure = [d]
                 ∧ travel_record self (head accommodations) false d
       else departure = []).
Proof.
  unfold _build_daily_itinerary. intros H.
  apply bind_Ok in H as (ts0 & Harr & H).
  destruct (split_pool _ _) as [[seen mv] others].
  apply bind_Ok in H as (ts1 & Hdays & H).
  assert (TripState.current_day ts0 = activity_start_day self
          ∧ if arrival_travel_day self
            then ∃ d, TripState.itinerary ts0 = [d] ∧ DayPlan.day_number d = 1
                      ∧ travel_record self (head accommodations) true d
            else TripState.itinerary ts0 = []) as [Hcd0 Harrival].
  { unfold activity_start_day. destruct (arrival_travel_day self).
    - apply bind_Ok in Harr as (d & Hd & Harr). inv_ok. simpl.
      apply create_travel_day_record in Hd as [Hn Hd].
      split; [done|]. by exists d.
    - by inv_ok. }
  unfold range in Hdays. rewrite <- seqZ_of_to_nat in Hdays.
  apply build_days_records in Hdays as (plans & Hit & _ & Hlen & Hplans); [|done].
  exists (TripState.itinerary ts0), plans.
  destruct (Service.needs_departure_travel self).
  - apply bind_Ok in H as (d & Hd & H). inv_ok.
    apply create_travel_day_record in Hd as [_ Hd].
    exists [d]. split; [by rewrite Hit, <- app_assoc|].
    split; [done|]. split; [done|]. split; [done|]. by exists d.
  - inv_ok. exists []. rewrite app_nil_r. by repeat split.
Qed.

Lemma filter_active_travel_record (self : Service.t)
    (current_accommodation : option Accommodation.t) (is_arrival : bool)
    (d : DayPlan.t) :
  travel_record self current_accommodation is_arrival d →
  List.filter (λ dp, negb (DayPlan.is_travel_day dp)) [d] = [].
Proof. intros Hr. simpl. by destruct (travel_flags _ _ _ _ Hr) as [-> _]. Qed.

Lemma filter_active_day_records (self : Service.t)
    (current_accommodation : option Accommodation.t) (plans : list DayPlan.t) :
  Forall (day_record self current_accommodation) plans →
  List.filter (λ dp, negb (DayPlan.is_travel_day dp)) plans = plans.
Proof.
  intros Hp. apply filter_all_true.
  eapply Forall_impl; [exact Hp|]. intros dp Hr.
  by rewrite (record_not_travel _ _ _ Hr).
Qed.

(** The loop builds a plan for every day from [activity_start_day] to the
    last requested day: these are the non-travel plans of the itinerary. *)
Lemma build_active_count (self : Service.t) (clusters : list (list Destination.t))
    (accommodations : list Accommodation.t) (itinerary : list DayPlan.t) :
  _build_daily_itinerary self clusters accommodations = Ok itinerary →
  active_count itinerary
  = Z.to_nat (activity_end_day self + 1 - activity_start_day self).
Proof.
  intros H. apply build_shape in H
    as (arrival & plans & departure & -> & Ha & Hlen & Hp & Hd).
  unfold active_count. rewrite !List.filter_app, !length_app.
  rewrite (filter_active_day_records _ _ _ Hp), Hlen.
  assert (List.filter (λ dp, negb (DayPlan.is_travel_day dp)) arrival = []) as ->.
  { destruct (arrival_travel_day self); [|by rewrite Ha].
    destruct Ha as (d & -> & _ & Hr). by eapply filter_active_travel_record. }
  assert (List.filter (λ dp, negb (DayPlan.is_travel_day dp)) departure = []) as ->.
  { destruct (Service.needs_departure_travel self); [|by rewrite Hd].
    destruct Hd as (d & -> & Hr). by eapply filter_active_travel_record. }
  simpl. lia.
Qed.

(** C1 (as the code is designed). For a trip of at least one day whose
    itinerary is built: with zero origin travel time the number of DayPlans
    is the requested trip length; with non-zero origin travel time and
    same-day activity disabled the first DayPlan is the arrival travel day,
    it is numbered 1, and every other day is numbered from 2 on; with
    non-zero origin travel time the last DayPlan is the departure travel
    day; day numbers run contiguously from 1. *)
Theorem C1_day_plan_count (now : Z) (prefs : TravelPreferences.t)
    (self : Service.t) (clusters : list (list Destination.t))
    (accommodations : list Accommodation.t) (itinerary : list DayPlan.t) :
  init now prefs = Ok self →
  1 ≤ TravelPreferences.days prefs →
  _build_daily_itinerary self clusters accommodations = Ok itinerary →
  ((0 <? TravelPreferences.travel_time_hours prefs)%float = false →
   Z.of_nat (length itinerary) = TravelPreferences.days prefs)
  ∧ ((0 <? TravelPreferences.travel_time_hours prefs)%float = true →
     TravelPreferences.activity_on_same_day prefs = false →
     ∃ d rest,
       itinerary = d :: rest
       ∧ DayPlan.day_number d = 1
       ∧ DayPlan.is_travel_day d = true
       ∧ DayPlan.day_type d = "travel_to"%string
       ∧ Forall (λ dp, 2 ≤ DayPlan.day_number dp) rest)
  ∧ ((0 <? TravelPreferences.travel_time_hours prefs)%float = true →
     ∃ d, last itinerary = Some d
          ∧ DayPlan.is_travel_day d = true
          ∧ DayPlan.day_type d = "travel_from"%string)
  ∧ DayPlan.day_number <$> itinerary = seqZ 1 (Z.of_nat (length itinerary)).
Proof.
  intros Hinit Hdays H.
  pose proof (build_numbers _ _ _ _ H) as Hnum.
  pose proof (build_count _ _ _ _ H) as Hcount.
  apply init_spec in Hinit as (Hprefs & _ & _ & Harr & Hdep).
  apply build_shape in H
    as (arrival & plans & departure & Hit & Ha & _ & _ & Hd).
  unfold activity_end_day, activity_start_day, arrival_travel_day in *.
  rewrite Harr, Hdep, Hprefs in *.
  split; [|split; [|split; [|exact Hnum]]].
  - intros Hzero. rewrite Hzero in Hcount. simpl in Hcount. lia.
  - intros Hpos Hsame. rewrite Hpos, Hsame in Ha. simpl in Ha.
    destruct Ha as (d & -> & Hn & Hr). subst itinerary.
    exists d, (plans ++ departure). split; [done|]. split; [done|].
    split; [apply (travel_flags _ _ _ _ Hr)|].
    split; [apply (travel_type _ _ _ _ Hr)|].
    change ([d] ++ plans ++ departure) with (d :: (plans ++ departure)) in Hnum.
    rewrite fmap_cons, length_cons, Nat2Z.inj_succ in Hnum.
    rewrite seqZ_cons in Hnum by lia. injection Hnum as _ Hrest.
    apply Forall_forall. intros dp Hdp.
    assert (DayPlan.day_number dp ∈ DayPlan.day_number <$> plans ++ departure)
      as Hin by (by apply list_elem_of_fmap_2).
    rewrite Hrest in Hin. apply elem_of_seqZ in Hin. lia.
  - intros Hpos. rewrite Hpos in Hd. destruct Hd as (d & -> & Hr).
    exists d. subst itinerary. rewrite !app_assoc, last_snoc.
    split; [done|]. split; [apply (travel_flags _ _ _ _ Hr)|].
    apply (travel_type _ _ _ _ Hr).
Qed.

(** C5 (the claim against the code). With the active (non-travel) day count
    read off the itinerary, as the number of its DayPlans that are not
    travel days: the scheduler places the rest day by [effective_days],
    which is that count only when there is no origin travel; with non-zero
    origin travel time the loop builds one activity day more than
    [effective_days] counts.  So without origin travel the itinerary has,
    for a count of at least 5, exactly one rest day, without activity, on
    day [activity_start_day + count // 2], and none below 5; with origin
    travel an itinerary of 5 active days has no rest day, and from 6 active
    days on the rest day is on day [activity_start_day + (count - 1) // 2]. *)
Theorem C5_rest_day (now : Z) (prefs : TravelPreferences.t)
    (self : Service.t) (clusters : list (list Destination.t))
    (accommodations : list Accommodation.t) (itinerary : list DayPlan.t) :
  init now prefs = Ok self →
  1 ≤ TravelPreferences.days prefs →
  _build_daily_itinerary self clusters accommodations = Ok itinerary →
  Z.of_nat (active_count itinerary)
  = effective_days self
    + (if (0 <? TravelPreferences.travel_time_hours prefs)%float then 1 else 0)
  ∧ ((0 <? TravelPreferences.travel_time_hours prefs)%float = false →
     (5 ≤ Z.of_nat (active_count itinerary) →
      ∃ dp, List.filter DayPlan.is_rest_day itinerary = [dp]
            ∧ DayPlan.is_rest_day dp = true
            ∧ DayPlan.activities dp = []
            ∧ DayPlan.day_number dp
              = activity_start_day self + Z.of_nat (active_count itinerary) `div` 2)
     ∧ (Z.of_nat (active_count itinerary) < 5 →
        List.filter DayPlan.is_rest_day itinerary = []))
  ∧ ((0 <? TravelPreferences.travel_time_hours prefs)%float = true →
     (Z.of_nat (active_count itinerary) = 5 →
      List.filter DayPlan.is_rest_day itinerary = [])
     ∧ (6 ≤ Z.of_nat (active_count itinerary) →
        ∃ dp, List.filter DayPlan.is_rest_day itinerary = [dp]
              ∧ DayPlan.day_number dp
                = activity_start_day self
                  + (Z.of_nat (active_count itinerary) - 1) `div` 2)).
Proof.
  intros Hinit Hdays H.
  pose proof (build_active_count _ _ _ _ H) as Hactive.
  destruct (rest_day_of_effective_days _ _ _ _ H) as (Hlong & Hshort & _).
  apply init_spec in Hinit as (Hprefs & _ & _ & Harr & Hdep).
  assert (Z.of_nat (active_count itinerary)
          = effective_days self
            + (if (0 <? TravelPreferences.travel_time_hours prefs)%float
               then 1 else 0)) as Hcount.
  { rewrite Hactive.
    unfold effective_days, activity_end_day, activity_start_day,
      arrival_travel_day.
    rewrite Harr, Hdep, Hprefs.
    destruct (0 <? _)%float; simpl;
      [destruct (TravelPreferences.activity_on_same_day prefs); simpl|]; lia. }
  split; [exact Hcount|]. split.
  - intros Hzero. rewrite Hzero, Z.add_0_r in Hcount. rewrite Hcount.
    split; [|exact Hshort].
    intros Heff. destruct (Hlong Heff) as (dp & ? & ? & ? & ?). by exists dp.
  - intros Hpos. rewrite Hpos in Hcount. split.
    + intros Hfive. apply Hshort. lia.
    + intros Hsix. destruct Hlong as (dp & Hdp & _ & _ & Hn); [lia|].
      exists dp. split; [done|]. rewrite Hn. do 2 f_equal. lia.
Qed.


(** ** When a must-visit destination is scheduled *)

(** The must-visit loop takes the first destination of its list when a slot
    is free and the leg is within the relaxed limits. *)
Lemma schedule_must_visit_head (self : Service.t) (num_activities : Z)
    (dest : Destination.t) (rest : list Destination.t) (st st' : DayState.t)
    (t : Z) :
  schedule_must_visit self num_activities (dest :: rest) st = Ok st' →
  DayState.activities_added st < num_activities →
  leg_minutes st dest = Ok t →
  2 * t ≤ 3 * TravelPreferences.max_travel_time (Service.prefs self) →
  2 * (DayState.total_travel st + t)
    ≤ 3 * PaceConfig.max_daily_travel_time (Service.pace_config self) →
  dest ∈ Activity.destination <$> DayState.daily_activities st'.
Proof.
  intros H Hroom Hleg Hfar Hday. simpl in H. unfold leg_minutes in Hleg.
  destruct (Z.leb_spec num_activities (DayState.activities_added st));
    [lia|].
  rewrite Hleg in H. simpl in H.
  destruct (Z.ltb_spec
              (3 * TravelPreferences.max_travel_time (Service.prefs self))
              (2 * t)); [lia|].
  destruct (Z.ltb_spec
              (3 * PaceConfig.max_daily_travel_time (Service.pace_config self))
              (2 * (DayState.total_travel st + t))); [lia|].
  simpl in H.
  match type of H with context [add_activity ?s ?d ?la ?lo ?di ?t ?st0] =>
    destruct (add_activity_spec s d la lo di t st0)
      as (activity & Hacts & Hdest & _);
    set (st1 := add_activity s d la lo di t st0) in *
  end.
  assert (dest ∈ Activity.destination <$> DayState.daily_activities st1) as Hin.
  { rewrite Hacts, fmap_app, elem_of_app. right.
    rewrite <- Hdest. apply list_elem_of_fmap_2, list_elem_of_singleton. done. }
  destruct (_ <? DayState.current_time st1).
  - by inv_ok.
  - apply schedule_must_visit_spec in H as (added & -> & _).
    rewrite fmap_app, elem_of_app. by left.
Qed.

Lemma build_day_takes_head (self : Service.t)
    (current_accommodation : option Accommodation.t)
    (other_dests : list Destination.t)
    (must_visit_per_day : gmap Z (list Destination.t))
    (day : Z) (ts ts' : TripState.t) (dest : Destination.t)
    (rest : list Destination.t) (last_lat last_lon : float) (t : Z) :
  build_day self current_accommodation other_dests must_visit_per_day day ts
  = Ok ts' →
  day ∉ rest_days self →
  day_must_visit must_visit_per_day day = dest :: rest →
  0 < num_activities_for self day →
  start_location current_accommodation = Ok (last_lat, last_lon) →
  _estimate_travel_time
    (_calculate_distance last_lat last_lon
       (coord_or (Destination.latitude dest) 12.97%float)
       (coord_or (Destination.longitude dest) 124.00%float)) = Ok t →
  2 * t ≤ 3 * TravelPreferences.max_travel_time (Service.prefs self) →
  2 * t ≤ 3 * PaceConfig.max_daily_travel_time (Service.pace_config self) →
  ∃ dp, TripState.itinerary ts' = TripState.itinerary ts ++ [dp]
        ∧ dest ∈ Activity.destination <$> DayPlan.activities dp.
Proof.
  unfold build_day, day_must_visit. intros H Hrest Hlist Hnum Hstart Hleg Hfar Hday.
  rewrite bool_decide_eq_false_2 in H by done.
  apply bind_Ok in H as (t0 & _ & H).
  rewrite Hstart in H. simpl in H. rewrite Hlist in H.
  apply bind_Ok in H as (st1 & Hmv & H).
  apply bind_Ok in H as ([idx' st2] & Hfill & H).
  apply bind_Ok in H as ([total_travel total_distance] & _ & H).
  inv_ok. simpl.
  eapply (schedule_must_visit_head _ _ _ _ _ _ t) in Hmv;
    [|done | exact Hleg | done | simpl; lia].
  apply fill_remaining_spec in Hfill as (fill & -> & _).
  eexists. split; [done|]. simpl.
  rewrite fmap_app, elem_of_app. by left.
Qed.

Lemma build_days_takes_head (self : Service.t)
    (current_accommodation : option Accommodation.t)
    (other_dests : list Destination.t)
    (must_visit_per_day : gmap Z (list Destination.t))
    (days : list Z) (day : Z) (ts ts' : TripState.t) (dest : Destination.t)
    (rest : list Destination.t) (last_lat last_lon : float) (t : Z) :
  build_days self current_accommodation other_dests must_visit_per_day days ts
  = Ok ts' →
  day ∈ days →
  day ∉ rest_days self →
  day_must_visit must_visit_per_day day = dest :: rest →
  0 < num_activities_for self day →
  start_location current_accommodation = Ok (last_lat, last_lon) →
  _estimate_travel_time
    (_calculate_distance last_lat last_lon
       (coord_or (Destination.latitude dest) 12.97%float)
       (coord_or (Destination.longitude dest) 124.00%float)) = Ok t →
  2 * t ≤ 3 * TravelPreferences.max_travel_time (Service.prefs self) →
  2 * t ≤ 3 * PaceConfig.max_daily_travel_time (Service.pace_config self) →
  dest ∈ visited (TripState.itinerary ts').
Proof.
  intros H Hin Hrest Hlist Hnum Hstart Hleg Hfar Hday. revert ts H.
  induction days as [|day0 days IH]; intros ts H; [by apply elem_of_nil in Hin|].
  simpl in H. apply bind_Ok in H as (ts1 & Hone & H).
  destruct (decide (day0 = day)) as [->|Hne].
  - eapply build_day_takes_head in Hone as (dp & Hit & Hdp); try done.
    apply build_days_outcome in H as (plans & -> & _).
    rewrite Hit, !visited_app, !elem_of_app. left. right.
    rewrite visited_cons, elem_of_app. by left.
  - apply elem_of_cons in Hin as [->|Hin]; [done|]. by apply (IH Hin ts1).
Qed.

Lemma build_takes_head (self : Service.t) (clusters : list (list Destination.t))
    (accommodations : list Accommodation.t) (itinerary : list DayPlan.t)
    (day : Z) (dest : Destination.t) (rest : list Destination.t)
    (last_lat last_lon : float) (t : Z) :
  _build_daily_itinerary self clusters accommodations = Ok itinerary →
  day ∈ active_days self →
  day_must_visit
    (must_visit_per_day self
       (split_pool (Service.prefs self) (concat clusters)).1.2) day
  = dest :: rest →
  0 < num_activities_for self day →
  start_location (head accommodations) = Ok (last_lat, last_lon) →
  _estimate_travel_time
    (_calculate_distance last_lat last_lon
       (coord_or (Destination.latitude dest) 12.97%float)
       (coord_or (Destination.longitude dest) 124.00%float)) = Ok t →
  2 * t ≤ 3 * TravelPreferences.max_travel_time (Service.prefs self) →
  2 * t ≤ 3 * PaceConfig.max_daily_travel_time (Service.pace_config self) →
  dest ∈ visited itinerary.
Proof.
  unfold _build_daily_itinerary. intros H Hactive Hlist Hnum Hstart Hleg Hfar Hday.
  unfold active_days in Hactive.
  apply elem_of_filter_bool in Hactive as [Hrange Hrest].
  apply negb_true_iff, bool_decide_eq_false in Hrest.
  apply bind_Ok in H as (ts0 & _ & H).
  destruct (split_pool _ _) as [[seen mv] others]. simpl in Hlist.
  apply bind_Ok in H as (ts1 & Hdays & H).
  eapply build_days_takes_head in Hdays; try done.
  destruct (Service.needs_departure_travel self).
  - apply bind_Ok in H as (d & _ & H). inv_ok.
    rewrite visited_app, elem_of_app. by left.
  - by inv_ok.
Qed.


(** The distribution leaves alone a day that is at none of the positions it
    assigns to. *)
Lemma distribute_untouched (active_days : list Z) (idx : nat)
    (must_visit_dests : list Destination.t)
    (m : gmap Z (list Destination.t)) (day : Z) :
  (∀ j, (j < length must_visit_dests)%nat →
        active_days !! ((idx + j) `mod` length active_days)%nat ≠ Some day) →
  distribute active_days idx must_visit_dests m !! day = m !! day.
Proof.
  revert idx m. induction must_visit_dests as [|dest rest IH]; intros idx m Hday;
    simpl; [done|].
  destruct (active_days !! _) as [day_num|] eqn:Hlook; [|done].
  rewrite IH.
  - rewrite lookup_insert_ne; [done|]. intros ->.
    apply (Hday 0%nat); [simpl; lia|]. by rewrite Nat.add_0_r.
  - intros j Hj. replace (S idx + j)%nat with (idx + S j)%nat by lia.
    apply Hday. simpl. lia.
Qed.

(** With no more destinations than days left, the round-robin hands the
    [k]-th destination alone to the [k]-th of these days. *)
Lemma distribute_one_each (active_days : list Z) (idx : nat)
    (must_visit_dests : list Destination.t)
    (m : gmap Z (list Destination.t)) (k : nat) (d : Destination.t) :
  NoDup active_days →
  (idx + length must_visit_dests ≤ length active_days)%nat →
  (∀ j day, (idx ≤ j)%nat → active_days !! j = Some day → m !! day = None) →
  must_visit_dests !! k = Some d →
  ∃ day, active_days !! (idx + k)%nat = Some day
         ∧ distribute active_days idx must_visit_dests m !! day = Some [d].
Proof.
  intros Hnd. revert idx m k.
  induction must_visit_dests as [|dest rest IH]; intros idx m k Hlen Hfree Hk;
    [done|].
  simpl in Hlen. simpl.
  rewrite Nat.mod_small by lia.
  destruct (lookup_lt_is_Some_2 active_days idx) as [day0 Hday0]; [lia|].
  rewrite Hday0, (Hfree idx day0) by done. simpl.
  destruct k as [|k]; simpl in Hk.
  - injection Hk as ->. exists day0. rewrite Nat.add_0_r. split; [done|].
    rewrite distribute_untouched; [by rewrite lookup_insert_eq|].
    intros j Hj. rewrite Nat.mod_small by lia. intros Hj'.
    pose proof (NoDup_lookup _ _ _ _ Hnd Hday0 Hj'). lia.
  - destruct (IH (S idx) (<[day0:=[dest]]> m) k) as (day & Hday & Hres);
      [lia | | done |].
    + intros j day Hj Hday. rewrite lookup_insert_ne; [by eapply Hfree; [|done]; lia|].
      intros ->. pose proof (NoDup_lookup _ _ _ _ Hnd Hday0 Hday). lia.
    + exists day. split; [|done]. by replace (idx + S k)%nat with (S idx + k)%nat by lia.
Qed.

Lemma elem_of_active_days (self : Service.t) (day : Z) :
  day ∈ active_days self →
  day ∈ range (activity_start_day self) (activity_end_day self + 1)
  ∧ day ∉ rest_days self.
Proof.
  unfold active_days. intros [Hrange Hrest]%elem_of_filter_bool.
  split; [done|]. by apply negb_true_iff, bool_decide_eq_false in Hrest.
Qed.

(** With at most as many must-visit destinations as active days, each of
    them is alone on an active day. *)
Lemma must_visit_alone_on_its_day (self : Service.t)
    (must_visit_dests : list Destination.t) (d : Destination.t) :
  (length must_visit_dests ≤ length (active_days self))%nat →
  d ∈ must_visit_dests →
  ∃ day, day ∈ active_days self
         ∧ day_must_visit (must_visit_per_day self must_visit_dests) day = [d].
Proof.
  intros Hlen Hd. apply list_elem_of_lookup in Hd as [k Hk].
  unfold must_visit_per_day, day_must_visit.
  assert (negb (is_empty must_visit_dests)
          && negb (is_empty (active_days self)) = true) as ->.
  { destruct must_visit_dests; [done|]. simpl in Hlen.
    destruct (active_days self); [simpl in Hlen; lia | done]. }
  destruct (distribute_one_each (active_days self) 0 must_visit_dests ∅ k d
              (active_days_NoDup self)) as (day & Hday & Hres);
    [simpl; lia | by intros | done |].
  exists day. split; [by eapply list_elem_of_lookup_2|]. by rewrite Hres.
Qed.

Lemma NoDup_fmap_elem_inj {A B} (f : A → B) (l : list A) (x y : A) :
  NoDup (f <$> l) → x ∈ l → y ∈ l → f x = f y → x = y.
Proof.
  intros Hnd [i Hi]%list_elem_of_lookup [j Hj]%list_elem_of_lookup Hxy.
  assert (i = j) as ->.
  { eapply (NoDup_lookup (f <$> l)); [done| |];
      rewrite list_lookup_fmap; [by rewrite Hi | by rewrite Hj, Hxy]. }
  congruence.
Qed.

Lemma PACE_RULES_quota (pace : string) (pace_config : PaceConfig.t) :
  PACE_RULES pace = Some pace_config →
  0 < (PaceConfig.activities_per_day pace_config).1
  ∧ 0 < (PaceConfig.activities_per_day pace_config).2.
Proof.
  unfold PACE_RULES.
  repeat (destruct (String.eqb pace _); [intros [= <-]; simpl; lia|]). done.
Qed.

Lemma activities_referencing_none (i : Z) (itinerary : list DayPlan.t) :
  i ∉ Destination.id <$> visited itinerary →
  activities_referencing i itinerary = 0%nat.
Proof.
  intros Hi. unfold activities_referencing.
  rewrite filter_all_false; [done|].
  apply Forall_forall. intros d Hd. apply Z.eqb_neq. intros <-.
  by apply Hi, list_elem_of_fmap_2.
Qed.

Lemma activities_referencing_one (d : Destination.t) (itinerary : list DayPlan.t) :
  NoDup (Destination.id <$> visited itinerary) →
  d ∈ visited itinerary →
  activities_referencing (Destination.id d) itinerary = 1%nat.
Proof.
  intros Hnd Hd.
  pose proof (activities_referencing_le_1 (Destination.id d) itinerary Hnd) as Hle.
  enough (activities_referencing (Destination.id d) itinerary ≠ 0%nat) by lia.
  unfold activities_referencing. intros Hz.
  apply length_zero_iff_nil in Hz.
  assert (d ∈ List.filter (λ x, Destination.id x =? Destination.id d)
                (visited itinerary)) as Hin.
  { apply elem_of_filter_bool. split; [done | apply Z.eqb_refl]. }
  rewrite Hz in Hin. by apply elem_of_nil in Hin.
Qed.

(** C2 (as the code is designed). For a must-visit destination of the
    catalog that passes the hard eligibility filters, the itinerary never
    has two Activities that reference it.  It has none when the destination
    is in no cluster.  It has exactly one when the primary keys are unique,
    an accommodation is selected, the must-visit ids are no more than the
    active days, and the leg from the day's start location to the
    destination is within one and a half times the traveler's
    max_travel_time and the pace's max_daily_travel_time (for a
    max_travel_time below 2^51 in absolute value, where the float product
    [max_travel_time * 1.5] is exact). *)
Theorem C2_must_visit_at_most_once (now : Z) (prefs : TravelPreferences.t)
    (self : Service.t) (destinations : list Destination.t)
    (accommodations selected : list Accommodation.t)
    (clusters : list (list Destination.t)) (itinerary : list DayPlan.t)
    (d : Destination.t) :
  init now prefs = Ok self →
  _select_accommodations prefs accommodations = Ok selected →
  _cluster_destinations self
    (_score_destinations prefs (_filter_destinations prefs destinations))
    selected = Ok clusters →
  _build_daily_itinerary self clusters selected = Ok itinerary →
  d ∈ destinations → eligible prefs d →
  Destination.id d ∈ TravelPreferences.must_visit_ids prefs →
  (activities_referencing (Destination.id d) itinerary ≤ 1)%nat
  ∧ (Destination.id d ∉ Destination.id <$> concat clusters →
     activities_referencing (Destination.id d) itinerary = 0%nat)
  ∧ (∀ last_lat last_lon t,
       NoDup (Destination.id <$> destinations) →
       selected ≠ [] →
       (length (TravelPreferences.must_visit_ids prefs)
        ≤ length (active_days self))%nat →
       start_location (head selected) = Ok (last_lat, last_lon) →
       _estimate_travel_time
         (_calculate_distance last_lat last_lon
            (coord_or (Destination.latitude d) 12.97%float)
            (coord_or (Destination.longitude d) 124.00%float)) = Ok t →
       Z.abs (TravelPreferences.max_travel_time prefs) < 2 ^ 51 →
       2 * t ≤ 3 * TravelPreferences.max_travel_time prefs →
       2 * t ≤ 3 * PaceConfig.max_daily_travel_time (Service.pace_config self) →
       activities_referencing (Destination.id d) itinerary = 1%nat).
Proof.
  intros Hinit Hsel Hclusters Hbuild Hd Hel Hmust.
  pose proof (visited_ids_NoDup _ _ _ _ Hbuild) as Hnd.
  apply init_spec in Hinit as (Hprefs & Hpace & _).
  split; [by apply activities_referencing_le_1|]. split.
  - intros Hout. apply activities_referencing_none.
    intros (d' & Hid & Hd')%list_elem_of_fmap. apply Hout. rewrite Hid.
    apply list_elem_of_fmap_2.
    apply (split_pool_subseteq (Service.prefs self)).
    eapply elem_of_submseteq;
      [exact Hd' | exact (visited_submseteq_pool _ _ _ _ Hbuild)].
  - intros la lo t Hkeys Hsome Hfew Hstart Hleg _ Hfar Hday.
    assert (is_must_visit (Service.prefs self) d = true) as Hmv.
    { unfold is_must_visit. rewrite Hprefs. by apply bool_decide_eq_true. }
    pose proof (cluster_destinations_spec _ _ _ _ Hclusters)
      as (_ & Hsub & Hcover).
    assert (d ∈ (_score_destinations prefs
                   (_filter_destinations prefs destinations)).*1) as Hranked.
    { rewrite score_destinations_Permutation.
      by apply filter_destinations_elem_of. }
    specialize (Hcover Hsome d Hranked Hmv).
    apply list_elem_of_fmap in Hcover as (d0 & Hid0 & Hd0).
    pose proof (split_pool_covers (Service.prefs self) _ _ Hd0) as Hin.
    pose proof (split_pool_subseteq (Service.prefs self) (concat clusters))
      as Hpool.
    pose proof (split_pool_invariant (Service.prefs self) (concat clusters))
      as Hinv.
    pose proof (λ day dest rest la lo t,
                  build_takes_head self clusters selected itinerary day dest
                    rest la lo t Hbuild) as Htake.
    destruct (split_pool _ _) as [[seen mvs] others]. simpl in *.
    destruct Hinv as (_ & Hndpool & Hmvs & Hothers).
    apply list_elem_of_fmap in Hin as (d' & Hid & Hd').
    assert (d' = d) as ->.
    { apply (NoDup_fmap_elem_inj Destination.id destinations); [done| |done|congruence].
      apply Hpool, Hsub in Hd'.
      rewrite score_destinations_Permutation in Hd'.
      by apply filter_destinations_elem_of in Hd' as [Hd' _]. }
    apply elem_of_app in Hd' as [Hd'|Hd'].
    2:{ apply (proj1 (Forall_forall _ _) Hothers) in Hd'. congruence. }
    assert (length mvs ≤ length (active_days self))%nat as Hlen.
    { etrans; [|exact Hfew]. rewrite <- (length_fmap Destination.id mvs).
      apply submseteq_length, NoDup_submseteq.
      - rewrite fmap_app in Hndpool. by apply NoDup_app in Hndpool as [? _].
      - intros i (x & -> & Hx)%list_elem_of_fmap.
        apply (proj1 (Forall_forall _ _) Hmvs) in Hx.
        unfold is_must_visit in Hx. rewrite Hprefs in Hx.
        by apply bool_decide_eq_true in Hx. }
    destruct (must_visit_alone_on_its_day self mvs d Hlen Hd')
      as (day & Hactive & Hlist).
    apply activities_referencing_one; [done|].
    apply (Htake day d [] la lo t); try done.
    + apply PACE_RULES_quota in Hpace as [H1 H2].
      unfold num_activities_for. destruct (_ && _); [done|].
      by destruct (_ =? _).
    + by rewrite Hprefs.
Qed.


(** ** Where a TypeError comes from *)

Lemma cluster_around_Raise (self : Service.t) (acc : Accommodation.t)
    (ranked_destinations : list (Destination.t * float))
    (must_visit_dests nearby : list Destination.t) (e : exn) :
  cluster_around self acc ranked_destinations must_visit_dests nearby = Raise e →
  accommodation_missing_coordinate acc
  ∨ ∃ d, d ∈ ranked_destinations.*1
         ∧ is_must_visit (Service.prefs self) d = false
         ∧ missing_coordinate d.
Proof.
  revert must_visit_dests nearby.
  induction ranked_destinations as [|[dest score] rest IH]; intros mv nearby H;
    simpl in H; [done|].
  assert (∀ mv nearby,
            cluster_around self acc rest mv nearby = Raise e →
            accommodation_missing_coordinate acc
            ∨ ∃ d, d ∈ ((dest, score) :: rest).*1
                   ∧ is_must_visit (Service.prefs self) d = false
                   ∧ missing_coordinate d) as Hrest.
  { intros mv' nearby' H'. destruct (IH _ _ H') as [?|(d & Hd & ? & ?)];
      [by left | right]. exists d. rewrite fmap_cons, elem_of_cons. auto. }
  destruct (is_must_visit (Service.prefs self) dest) eqn:Hmust.
  { destruct (negb _); by eapply Hrest. }
  destruct (Accommodation.latitude acc) eqn:Hlat1; [|left; by left].
  destruct (Accommodation.longitude acc) eqn:Hlon1; [|left; by right].
  assert (missing_coordinate dest →
          accommodation_missing_coordinate acc
          ∨ ∃ d, d ∈ ((dest, score) :: rest).*1
                 ∧ is_must_visit (Service.prefs self) d = false
                 ∧ missing_coordinate d) as Hdest.
  { intros Hmiss. right. exists dest. rewrite fmap_cons, elem_of_cons. auto. }
  destruct (Destination.latitude dest) eqn:Hlat2; [|apply Hdest; by left].
  destruct (Destination.longitude dest) eqn:Hlon2; [|apply Hdest; by right].
  simpl in H. destruct (_ <=? _)%float; by eapply Hrest.
Qed.

Lemma cluster_accommodations_Raise (self : Service.t)
    (accommodations : list Accommodation.t)
    (ranked_destinations : list (Destination.t * float))
    (must_visit_dests : list Destination.t)
    (clusters : list (list Destination.t)) (e : exn) :
  cluster_accommodations self accommodations ranked_destinations
    must_visit_dests clusters = Raise e →
  (∃ acc, acc ∈ accommodations ∧ accommodation_missing_coordinate acc)
  ∨ ∃ d, d ∈ ranked_destinations.*1
         ∧ is_must_visit (Service.prefs self) d = false
         ∧ missing_coordinate d.
Proof.
  revert must_visit_dests clusters.
  induction accommodations as [|acc rest IH]; intros mv clusters H; simpl in H;
    [done|].
  destruct (cluster_around self acc ranked_destinations mv [])
    as [[mv' nearby]|e'] eqn:Haround; simpl in H.
  - destruct (IH _ _ H) as [(a & Ha & Hmiss)|Hd]; [left | by right].
    exists a. split; [apply elem_of_cons; by right | done].
  - destruct (cluster_around_Raise _ _ _ _ _ _ Haround) as [Hmiss|Hd];
      [left | by right].
    exists acc. split; [apply elem_of_cons; by left | done].
Qed.

Lemma cluster_type_error_source (self : Service.t)
    (ranked_destinations : list (Destination.t * float))
    (accommodations : list Accommodation.t) :
  _cluster_destinations self ranked_destinations accommodations
  = Raise TypeError →
  (∃ acc, acc ∈ accommodations ∧ accommodation_missing_coordinate acc)
  ∨ ∃ d, d ∈ ranked_destinations.*1
         ∧ is_must_visit (Service.prefs self) d = false
         ∧ missing_coordinate d.
Proof.
  unfold _cluster_destinations. intros H.
  destruct (is_empty accommodations); [done|].
  destruct (cluster_accommodations self accommodations ranked_destinations [] [])
    as [clusters|e] eqn:Hloop; simpl in H.
  - by destruct (is_empty clusters).
  - by eapply cluster_accommodations_Raise.
Qed.

(** X6. A TypeError of the clusterer always comes from a missing
    coordinate: of a selected accommodation, or of a ranked destination
    outside the must-visit list. *)
Theorem cluster_type_error_means_missing_coordinate (self : Service.t)
    (ranked_destinations : list (Destination.t * float))
    (accommodations : list Accommodation.t) :
  _cluster_destinations self ranked_destinations accommodations
  = Raise TypeError →
  (∃ acc, acc ∈ accommodations ∧ accommodation_missing_coordinate acc)
  ∨ ∃ d, d ∈ ranked_destinations.*1
         ∧ is_must_visit (Service.prefs self) d = false
         ∧ missing_coordinate d.
Proof. apply cluster_type_error_source. Qed.

Lemma int_Raise (x : float) (e : exn) : int x = Raise e → e ≠ TypeError.
Proof. unfold int. destruct (Prim2SF x); by intros [= <-]. Qed.

Lemma create_travel_day_Raise (self : Service.t) (day_number : Z)
    (current_accommodation : option Accommodation.t) (is_arrival : bool)
    (e : exn) :
  _create_travel_day self day_number current_accommodation is_arrival = Raise e →
  e ≠ TypeError.
Proof.
  unfold _create_travel_day, travel_minutes.
  destruct (int _) as [m|e'] eqn:Hint; simpl; [done|].
  intros [= <-]. by eapply int_Raise.
Qed.

Lemma schedule_must_visit_Raise (self : Service.t) (num_activities : Z)
    (day_must_visit : list Destination.t) (st : DayState.t) (e : exn) :
  schedule_must_visit self num_activities day_must_visit st = Raise e →
  e ≠ TypeError.
Proof.
  revert st. induction day_must_visit as [|dest rest IH]; intros st H;
    simpl in H; [done|].
  destruct (num_activities <=? _); [done|].
  unfold _estimate_travel_time in H.
  destruct (int _) as [t|e'] eqn:Hint; simpl in H;
    [|injection H as <-; by eapply int_Raise].
  destruct (_ || _); [by eapply IH|].
  destruct (_ <? _); [done | by eapply IH].
Qed.

Lemma fill_remaining_Raise (self : Service.t) (num_activities : Z)
    (pending : list Destination.t) (idx : nat) (st : DayState.t) (e : exn) :
  fill_remaining self num_activities pending idx st = Raise e → e ≠ TypeError.
Proof.
  revert idx st. induction pending as [|dest rest IH]; intros idx st H;
    simpl in H; [done|].
  destruct (negb _); [done|].
  unfold _estimate_travel_time in H.
  destruct (int _) as [t|e'] eqn:Hint; simpl in H;
    [|injection H as <-; by eapply int_Raise].
  destruct (_ <? t); [by eapply IH|].
  destruct (_ <? _ + t); [done|].
  destruct (_ <? _); [done | by eapply IH].
Qed.

Lemma start_location_Raise
    (current_accommodation : option Accommodation.t) (e : exn) :
  start_location current_accommodation = Raise e →
  missing_longitude current_accommodation.
Proof.
  unfold start_location, missing_longitude.
  destruct current_accommodation as [acc|]; [|done].
  destruct (truthy (Accommodation.latitude acc)) eqn:Ht; [|done].
  intros H. exists acc. split; [done|]. split; [done|].
  destruct (Accommodation.longitude acc) as [w|]; [|done].
  by destruct (Accommodation.latitude acc).
Qed.

Lemma return_journey_Raise
    (current_accommodation : option Accommodation.t) (st : DayState.t) :
  return_journey current_accommodation st = Raise TypeError →
  missing_longitude current_accommodation.
Proof.
  unfold return_journey, missing_longitude.
  destruct current_accommodation as [acc|]; [|done].
  destruct (last _); [|done].
  destruct (truthy (Accommodation.latitude acc)) eqn:Ht; [|done].
  intros H. exists acc. split; [done|]. split; [done|].
  destruct (Accommodation.longitude acc) as [w|]; [|done].
  destruct (Accommodation.latitude acc) as [v|]; [|done]. simpl in H.
  unfold _estimate_travel_time in H.
  destruct (int _) as [minutes|e'] eqn:Hint; simpl in H; [done|].
  injection H as ->. by apply int_Raise in Hint.
Qed.

Lemma build_day_Raise (self : Service.t)
    (current_accommodation : option Accommodation.t)
    (other_dests : list Destination.t)
    (must_visit_per_day : gmap Z (list Destination.t))
    (day : Z) (ts : TripState.t) :
  build_day self current_accommodation other_dests must_visit_per_day day ts
  = Raise TypeError →
  missing_longitude current_accommodation.
Proof.
  unfold build_day. intros H. destruct (bool_decide _); [done|].
  destruct (day_start_time self day) as [t0|e] eqn:Hstart; simpl in H.
  2:{ injection H as ->. unfold day_start_time, travel_minutes in Hstart.
      destruct (_ && _); [|done].
      destruct (int _) as [m|e] eqn:Hint; simpl in Hstart; [done|].
      injection Hstart as ->. by apply int_Raise in Hint. }
  destruct (start_location current_accommodation) as [[la lo]|e] eqn:Hloc;
    simpl in H; [|by eapply start_location_Raise].
  destruct (schedule_must_visit _ _ _ _) as [st1|e] eqn:Hmv; simpl in H.
  2:{ injection H as ->. by apply schedule_must_visit_Raise in Hmv. }
  destruct (fill_remaining _ _ _ _ _) as [[idx' st2]|e] eqn:Hfill; simpl in H.
  2:{ injection H as ->. by apply fill_remaining_Raise in Hfill. }
  destruct (return_journey current_accommodation st2) as [[tt td]|e] eqn:Hret;
    simpl in H; [done|].
  injection H as ->. by eapply return_journey_Raise.
Qed.

Lemma build_days_Raise (self : Service.t)
    (current_accommodation : option Accommodation.t)
    (other_dests : list Destination.t)
    (must_visit_per_day : gmap Z (list Destination.t))
    (days : list Z) (ts : TripState.t) :
  build_days self current_accommodation other_dests must_visit_per_day days ts
  = Raise TypeError →
  missing_longitude current_accommodation.
Proof.
  revert ts. induction days as [|day days IH]; intros ts H; simpl in H; [done|].
  destruct (build_day _ _ _ _ _ _) as [ts1|e] eqn:Hday; simpl in H.
  - by eapply IH.
  - injection H as ->. by eapply build_day_Raise.
Qed.

Lemma build_daily_itinerary_Raise (self : Service.t)
    (clusters : list (list Destination.t))
    (accommodations : list Accommodation.t) :
  _build_daily_itinerary self clusters accommodations = Raise TypeError →
  missing_longitude (head accommodations).
Proof.
  unfold _build_daily_itinerary. intros H.
  match type of H with (?m ≫= _) = _ => destruct m as [ts0|e] eqn:Harr end;
    simpl in H.
  2:{ injection H as ->. destruct (arrival_travel_day self); [|done].
      destruct (_create_travel_day _ _ _ _) as [d|e] eqn:Hd; simpl in Harr;
        [done|].
      injection Harr as ->. by apply create_travel_day_Raise in Hd. }
  clear Harr. destruct (split_pool _ _) as [[seen mv] others].
  destruct (build_days _ _ _ _ _ _) as [ts1|e] eqn:Hdays; simpl in H.
  2:{ injection H as ->. by eapply build_days_Raise. }
  destruct (Service.needs_departure_travel self); [|done].
  destruct (_create_travel_day _ _ _ _) as [d|e] eqn:Hd; simpl in H; [done|].
  injection H as ->. by apply create_travel_day_Raise in Hd.
Qed.

(** X15. A TypeError of the scheduler always comes from the first selected
    accommodation: it has a latitude, neither null nor zero, and no
    longitude.  Missing coordinates of destinations raise nothing here: the
    scheduler puts the placeholder coordinate in their place. *)
Theorem build_type_error_means_missing_longitude (self : Service.t)
    (clusters : list (list Destination.t))
    (accommodations : list Accommodation.t) :
  _build_daily_itinerary self clusters accommodations = Raise TypeError →
  ∃ acc, head accommodations = Some acc
         ∧ truthy (Accommodation.latitude acc) = true
         ∧ Accommodation.longitude acc = None.
Proof. apply build_daily_itinerary_Raise. Qed.

Lemma select_accommodations_Raise (prefs : TravelPreferences.t)
    (catalog : list Accommodation.t) (e : exn) :
  _select_accommodations prefs catalog = Raise e → e ≠ TypeError.
Proof.
  unfold _select_accommodations, accommodation_get.
  destruct (negb _); [done|]. destruct (truthy_id _); [|done].
  destruct (List.filter _ catalog) as [|x [|y l]]; simpl; try done.
  by intros [= <-].
Qed.

Lemma select_accommodations_elem_of (prefs : TravelPreferences.t)
    (catalog selected : list Accommodation.t) (a : Accommodation.t) :
  _select_accommodations prefs catalog = Ok selected →
  a ∈ selected →
  a ∈ catalog ∧ Accommodation.is_active a = true.
Proof.
  assert (a ∈ auto_select_accommodations prefs catalog →
          a ∈ catalog ∧ Accommodation.is_active a = true) as Hauto.
  { rewrite auto_select_accommodations_spec. intros Ha.
    assert (a ∈ List.filter (auto_eligible prefs) catalog) as Hin
      by (eapply elem_of_sublist; [exact Ha | apply sublist_take]).
    apply elem_of_filter_bool in Hin as [Hin Hf]. unfold auto_eligible in Hf.
    rewrite !andb_true_iff in Hf. split; [done|]. apply Hf. }
  unfold _select_accommodations.
  destruct (negb _); [by intros [= <-] ?%elem_of_nil|].
  destruct (truthy_id _) as [aid|]; [|by intros [= <-]].
  destruct (accommodation_get catalog aid) as [[found|]|e] eqn:Hget; simpl;
    [| by intros [= <-] | done].
  intros [= <-] ->%list_elem_of_singleton.
  apply accommodation_get_Some in Hget as (Hin & _ & Hact & _). done.
Qed.

(** X17. A TypeError of the planner always comes from the catalog: an
    active accommodation or a destination that passes the filter and is not
    a must-visit one has a missing coordinate. *)
Theorem planner_type_error_means_missing_coordinate (now : Z)
    (prefs : TravelPreferences.t) (destinations : list Destination.t)
    (accommodations : list Accommodation.t) :
  generate_itinerary now prefs destinations accommodations = Raise TypeError →
  (∃ acc, acc ∈ accommodations ∧ Accommodation.is_active acc = true
          ∧ accommodation_missing_coordinate acc)
  ∨ ∃ d, d ∈ destinations ∧ eligible prefs d
         ∧ is_must_visit prefs d = false ∧ missing_coordinate d.
Proof.
  unfold generate_itinerary, plan_days. intros H.
  destruct (init now prefs) as [self|e] eqn:Hinit; simpl in H.
  2:{ unfold init in Hinit. destruct (PACE_RULES _); [done|]. congruence. }
  apply init_spec in Hinit as (Hprefs & _). rewrite Hprefs in H.
  destruct (_select_accommodations prefs accommodations) as [selected|e]
    eqn:Hsel; simpl in H.
  2:{ injection H as ->. by apply select_accommodations_Raise in Hsel. }
  destruct (_cluster_destinations _ _ _) as [clusters|e] eqn:Hclusters;
    simpl in H.
  - destruct (_build_daily_itinerary _ _ _) as [itinerary|e] eqn:Hbuild;
      simpl in H; [done|].
    injection H as ->.
    apply build_daily_itinerary_Raise in Hbuild as (acc & Hhead & _ & Hlon).
    left. exists acc.
    destruct (select_accommodations_elem_of prefs accommodations selected acc
                Hsel) as [Hin Hact].
    { destruct selected; [done|]. injection Hhead as ->.
      apply elem_of_cons. by left. }
    split; [done|]. split; [done | by right].
  - injection H as ->.
    apply cluster_type_error_source in Hclusters
      as [(acc & Hacc & Hmiss)|(d & Hd & Hmust & Hmiss)].
    + left. exists acc.
      destruct (select_accommodations_elem_of prefs accommodations selected acc
                  Hsel Hacc) as [Hin Hact].
      done.
    + right. exists d. rewrite Hprefs in Hmust.
      rewrite score_destinations_Permutation in Hd.
      apply filter_destinations_elem_of in Hd as [Hd Hel]. done.
Qed.

End Planner.

(** ** The theorems at work on the scenarios *)

(** C1, counterexample: for three requested days, two hours of origin travel
    and no same-day activity, the itinerary has 4 DayPlans (arrival travel
    day, days 2 and 3, departure travel day), not the 3 + 2 = 5 of one extra
    day per direction. *)
Lemma C1_counterexample :
  ∃ itinerary,
    init sample_strptime 739000 arrival_prefs = Ok arrival_self
    ∧ plan_days sample_distance sample_round arrival_self north_dests north_accs
      = Ok itinerary
    ∧ arrival_travel_day arrival_self = true
    ∧ Service.needs_departure_travel arrival_self = true
    ∧ DayPlan.day_type <$> itinerary
      = ["travel_to"; "regular"; "regular"; "travel_from"]%string
    ∧ Z.of_nat (length itinerary) = 4
    ∧ Z.of_nat (length itinerary)
      ≠ TravelPreferences.days arrival_prefs + 1 + 1.
Proof.
  eexists. split; [vm_compute; reflexivity|]. split; [vm_compute; reflexivity|].
  repeat split; vm_compute; congruence.
Qed.

(** C2, counterexample: three must-visit destinations, all active, within
    budget and passing the filters, on a one-day relaxed trip whose single
    day takes two activities: destination 3 is referenced by no Activity. *)
Lemma C2_counterexample :
  ∃ itinerary,
    init sample_strptime 739000 here_prefs = Ok here_self
    ∧ plan_days sample_distance sample_round here_self here_dests [] = Ok itinerary
    ∧ TravelPreferences.must_visit_ids here_prefs = [1; 2; 3]
    ∧ Destination.id <$> _filter_destinations here_prefs here_dests = [1; 2; 3]
    ∧ Destination.id <$> visited itinerary = [1; 2]
    ∧ activities_referencing 3 itinerary = 0%nat.
Proof.
  eexists. split; [vm_compute; reflexivity|]. split; [vm_compute; reflexivity|].
  repeat split; vm_compute; reflexivity.
Qed.

(** C3, witness: on the first day of the northern scenario the must-visit
    destination is reached in 75 minutes, within 1.5 x 60. *)
Lemma C3_scheduled_travel_bound_witness :
  ∃ itinerary dp,
    init sample_strptime 739000 north_prefs = Ok north_self
    ∧ _build_daily_itinerary sample_distance sample_round north_self
        [north_dests] north_accs
      = Ok itinerary
    ∧ itinerary !! 0%nat = Some dp
    ∧ scheduled_travel (DayPlan.activities dp) = 75
    ∧ 2 * scheduled_travel (DayPlan.activities dp)
        ≤ 3 * PaceConfig.max_daily_travel_time (Service.pace_config north_self).
Proof.
  eexists _, _. split; [vm_compute; reflexivity|].
  split; [vm_compute; reflexivity|]. split; [reflexivity|].
  split; [vm_compute; reflexivity|].
  refine (proj1 (C3_scheduled_travel_bound sample_distance sample_round
                   sample_strptime 739000 north_prefs north_self [north_dests]
                   north_accs _ _ _ _ _)).
  - vm_compute. reflexivity.
  - vm_compute. reflexivity.
  - apply elem_of_cons. left. reflexivity.
Defined.

(** C3, counterexample: in the northern scenario day 1 visits the must-visit
    destination (75 minutes out, 75 back) and records 150 minutes, more than
    1.5 x 60; day 2 visits a filler only (43 minutes out, 43 back) and
    records 86 minutes, more than 60. *)
Lemma C3_counterexample :
  ∃ itinerary dp1 dp2,
    init sample_strptime 739000 north_prefs = Ok north_self
    ∧ plan_days sample_distance sample_round north_self north_dests north_accs
      = Ok itinerary
    ∧ itinerary = [dp1; dp2]
    ∧ PaceConfig.max_daily_travel_time (Service.pace_config north_self) = 60
    ∧ DayPlan.total_travel_time dp1 = 150
    ∧ 3 * PaceConfig.max_daily_travel_time (Service.pace_config north_self)
        < 2 * DayPlan.total_travel_time dp1
    ∧ Forall (λ a, is_must_visit north_prefs (Activity.destination a) = false)
        (DayPlan.activities dp2)
    ∧ DayPlan.total_travel_time dp2 = 86
    ∧ PaceConfig.max_daily_travel_time (Service.pace_config north_self)
        < DayPlan.total_travel_time dp2.
Proof.
  eexists _, _, _. split; [vm_compute; reflexivity|].
  split; [vm_compute; reflexivity|].
  split; [reflexivity|]. repeat split; try (vm_compute; reflexivity).
  repeat constructor.
Qed.

(** C4, witness.  In the northern scenario, after the must-visit
    destination, the filler at index 0 is 31 minutes away: within the
    traveler's 120 minutes but past the day's 60 (75 + 31), so the loop
    stops with the index still 0.  For a traveler who accepts legs of at
    most 20 minutes the same filler is passed and the loop goes on from
    index 1. *)
Lemma C4_filler_rejection_policy_witness :
  leg_minutes sample_distance after_must_visit
    (mk_dest 11 (Some 12.84%float) (Some 124.08%float)) = Ok 31
  ∧ fill_remaining sample_distance north_self 3
      (drop 0 [mk_dest 11 (Some 12.84%float) (Some 124.08%float)]) 0
      after_must_visit
    = Ok (0%nat, after_must_visit)
  ∧ fill_remaining sample_distance hurried_self 3
      (drop 0 [mk_dest 11 (Some 12.84%float) (Some 124.08%float)]) 0
      after_must_visit
    = fill_remaining sample_distance hurried_self 3
        (drop 1 [mk_dest 11 (Some 12.84%float) (Some 124.08%float)]) 1
        after_must_visit.
Proof.
  assert (leg_minutes sample_distance after_must_visit
            (mk_dest 11 (Some 12.84%float) (Some 124.08%float)) = Ok 31) as Hleg
    by (vm_compute; reflexivity).
  split; [exact Hleg|]. split.
  - refine (proj1 (proj2 (C4_filler_rejection_policy sample_distance sample_round
                            north_self 3
                            [mk_dest 11 (Some 12.84%float) (Some 124.08%float)]
                            0 _ after_must_visit 31 _ _ Hleg) _ _));
      [reflexivity | simpl; lia | simpl; lia | simpl; lia].
  - refine (proj1 (C4_filler_rejection_policy sample_distance sample_round
                     hurried_self 3
                     [mk_dest 11 (Some 12.84%float) (Some 124.08%float)]
                     0 _ after_must_visit 31 _ _ Hleg) _);
      [reflexivity | simpl; lia | simpl; lia].
Defined.

(** C6, witness: around the inn, the first ranked destination has no
    coordinates and is not a must-visit one; the clusterer raises. *)
Lemma C6_cluster_raises_on_null_coordinate_witness :
  init sample_strptime 739000 inn_prefs = Ok inn_self
  ∧ _cluster_destinations sample_distance inn_self
      (_score_destinations inn_prefs (_filter_destinations inn_prefs here_dests))
      north_accs
    = Raise TypeError
  ∧ plan_days sample_distance sample_round inn_self here_dests north_accs
    = Raise TypeError.
Proof.
  split; [vm_compute; reflexivity|]. split; [|vm_compute; reflexivity].
  eapply (C6_cluster_raises_on_null_coordinate sample_distance inn_self _
            (mk_acc 1 (Some 12.58%float) (Some 124.08%float)) []
            (mk_dest 1 None None)).
  - vm_compute. apply elem_of_cons. left. reflexivity.
  - vm_compute. reflexivity.
  - left. reflexivity.
Defined.

(** C7, witness: the inn is returned when asked for by its id 1, whatever
    the filters; the unknown id 7 falls back to the automatic selection. *)
Lemma C7_explicit_accommodation_witness :
  _select_accommodations (with_accommodation_id inn_prefs (Some 1)) north_accs
  = Ok [mk_acc 1 (Some 12.58%float) (Some 124.08%float)]
  ∧ _select_accommodations (with_accommodation_id inn_prefs (Some 7)) north_accs
    = Ok (take 1 (List.filter
                    (auto_eligible (with_accommodation_id inn_prefs (Some 7)))
                    north_accs)).
Proof.
  split.
  - refine (proj1 (C7_explicit_accommodation
                     (with_accommodation_id inn_prefs (Some 1)) north_accs 1
                     _ _ _) _ _ _ _ _ _).
    + reflexivity.
    + reflexivity.
    + lia.
    + apply NoDup_singleton.
    + apply elem_of_cons. left. reflexivity.
    + reflexivity.
    + reflexivity.
    + reflexivity.
  - refine (proj2 (C7_explicit_accommodation
                     (with_accommodation_id inn_prefs (Some 7)) north_accs 7
                     _ _ _) _).
    + reflexivity.
    + reflexivity.
    + lia.
    + intros a Ha Hid. apply list_elem_of_singleton in Ha. subst a.
      discriminate Hid.
Defined.

(** C9, witness: with the start date 2025-06-01 the runs of two different
    days return the same result. *)
Lemma C9_deterministic_given_start_date_witness :
  generate_itinerary sample_distance sample_round sample_sum sample_strptime
    739000 week_prefs north_dests north_accs
  = generate_itinerary sample_distance sample_round sample_sum sample_strptime
      739500 week_prefs north_dests north_accs.
Proof.
  apply (C9_deterministic_given_start_date sample_distance sample_round
           sample_sum sample_strptime 739000 739500 week_prefs).
  right. exists "2025-06-01"%string, 739403.
  split; [reflexivity|]. split; [discriminate | reflexivity].
Defined.

(** C9, counterexample: without a start date, the same preferences and
    catalog give, on two consecutive days, results whose dates differ. *)
Lemma C9_counterexample :
  ∃ r1 r2,
    generate_itinerary sample_distance sample_round sample_sum sample_strptime
      739000 north_prefs north_dests north_accs = Ok r1
    ∧ generate_itinerary sample_distance sample_round sample_sum sample_strptime
        739001 north_prefs north_dests north_accs = Ok r2
    ∧ TravelPreferences.start_date north_prefs = None
    ∧ DayData.date <$> Itinerary.itinerary r1 = [739000; 739001]
    ∧ DayData.date <$> Itinerary.itinerary r2 = [739001; 739002]
    ∧ r1 ≠ r2.
Proof.
  eexists _, _. split; [vm_compute; reflexivity|].
  split; [vm_compute; reflexivity|]. split; [reflexivity|].
  split; [vm_compute; reflexivity|]. split; [vm_compute; reflexivity|].
  intros H. apply (f_equal (λ r, DayData.date <$> Itinerary.itinerary r)) in H.
  vm_compute in H. discriminate H.
Qed.

(** C10, witness: the two days of the northern scenario visit the
    destinations 10 and 11, each once. *)
Lemma C10_no_destination_twice_witness :
  ∃ itinerary,
    _build_daily_itinerary sample_distance sample_round north_self
      [north_dests] north_accs
    = Ok itinerary
    ∧ Destination.id <$> visited itinerary = [10; 11]
    ∧ NoDup (Destination.id <$> visited itinerary).
Proof.
  eexists. split; [vm_compute; reflexivity|]. split; [vm_compute; reflexivity|].
  refine (C10_no_destination_twice sample_distance sample_round north_self
            [north_dests] north_accs _ _).
  vm_compute. reflexivity.
Defined.


(** ** The further properties at work on the scenarios *)

(** X2, witness: the budget 'luxury' filters like 'medium'. *)
Lemma unknown_budget_is_medium_witness :
  _filter_destinations (with_budget_category north_prefs "luxury") north_dests
  = _filter_destinations (with_budget_category north_prefs "medium") north_dests
  ∧ auto_select_accommodations (with_budget_category north_prefs "luxury")
      north_accs
    = auto_select_accommodations (with_budget_category north_prefs "medium")
        north_accs.
Proof.
  refine (unknown_budget_is_medium north_prefs "luxury" north_dests north_accs
            _ _ _); discriminate.
Defined.

(** X3, witness: the selection from the catalog that holds the inn. *)
Lemma select_accommodations_returns_active_rows_witness :
  ∃ selected,
    _select_accommodations north_prefs north_accs = Ok selected
    ∧ (∀ a, a ∈ selected →
            a ∈ north_accs ∧ Accommodation.is_active a = true
            ∧ Accommodation.status a = "active"%string)
    ∧ (length selected
       ≤ if (TravelPreferences.days north_prefs <=? 3)%Z then 1 else 2)%nat
    ∧ (TravelPreferences.include_accommodation north_prefs = false →
       selected = []).
Proof.
  refine (select_accommodations_returns_active_rows north_prefs north_accs _).
  simpl. apply NoDup_singleton.
Defined.

(** X5, witness: around the inn, the must-visit destination 10, 50 km away,
    is in the cluster. *)
Lemma cluster_destinations_covers_must_visit_witness :
  ∃ clusters,
    _cluster_destinations sample_distance north_self
      (_score_destinations north_prefs
         (_filter_destinations north_prefs north_dests)) north_accs
    = Ok clusters
    ∧ Destination.id <$> concat clusters = [10; 11]
    ∧ clusters ≠ []
    ∧ concat clusters
      ⊆ (_score_destinations north_prefs
           (_filter_destinations north_prefs north_dests)).*1
    ∧ (north_accs ≠ [] →
       ∀ d, d ∈ (_score_destinations north_prefs
                   (_filter_destinations north_prefs north_dests)).*1 →
            is_must_visit (Service.prefs north_self) d = true →
            Destination.id d ∈ Destination.id <$> concat clusters).
Proof.
  eexists. split; [vm_compute; reflexivity|]. split; [vm_compute; reflexivity|].
  refine (cluster_destinations_covers_must_visit sample_distance north_self
            (_score_destinations north_prefs
               (_filter_destinations north_prefs north_dests)) north_accs _ _).
  vm_compute. reflexivity.
Defined.

(** X7, witness: the four day plans of the arrival scenario are dated from
    2025-06-01 on. *)
Lemma itinerary_dates_consecutive_witness :
  ∃ itinerary,
    _build_daily_itinerary sample_distance sample_round arrival_self
      [[mk_dest 11 (Some 12.84%float) (Some 124.08%float)]] north_accs
    = Ok itinerary
    ∧ DayPlan.date <$> itinerary = [739403; 739404; 739405; 739406]
    ∧ DayPlan.date <$> itinerary
      = seqZ (Service.trip_start_date arrival_self) (Z.of_nat (length itinerary)).
Proof.
  eexists. split; [vm_compute; reflexivity|]. split; [vm_compute; reflexivity|].
  refine (itinerary_dates_consecutive sample_distance sample_round arrival_self
            [[mk_dest 11 (Some 12.84%float) (Some 124.08%float)]] north_accs _ _).
  vm_compute. reflexivity.
Defined.

(** X8, witness: the days of the northern scenario have one activity each,
    the relaxed pace allows three. *)
Lemma day_activities_within_pace_witness :
  ∃ itinerary,
    _build_daily_itinerary sample_distance sample_round north_self
      [north_dests] north_accs
    = Ok itinerary
    ∧ DayPlan.total_activities <$> itinerary = [1; 1]
    ∧ Forall (λ dp,
          DayPlan.total_activities dp = Z.of_nat (length (DayPlan.activities dp))
          ∧ DayPlan.total_activities dp
            ≤ (PaceConfig.activities_per_day (Service.pace_config north_self)).2)
        itinerary.
Proof.
  eexists. split; [vm_compute; reflexivity|]. split; [vm_compute; reflexivity|].
  refine (day_activities_within_pace sample_distance sample_round sample_strptime
            739000 north_prefs north_self [north_dests] north_accs _ _ _);
    vm_compute; reflexivity.
Defined.

(** X9, witness: the arrival scenario has a travel day at either end and two
    regular days between them. *)
Lemma itinerary_day_kinds_witness :
  ∃ itinerary,
    _build_daily_itinerary sample_distance sample_round arrival_self
      [[mk_dest 11 (Some 12.84%float) (Some 124.08%float)]] north_accs
    = Ok itinerary
    ∧ DayPlan.day_type <$> itinerary
      = ["travel_to"; "regular"; "regular"; "travel_from"]%string
    ∧ Forall (day_kind arrival_self) itinerary.
Proof.
  eexists. split; [vm_compute; reflexivity|]. split; [vm_compute; reflexivity|].
  refine (itinerary_day_kinds sample_distance sample_round arrival_self
            [[mk_dest 11 (Some 12.84%float) (Some 124.08%float)]] north_accs _ _).
  vm_compute. reflexivity.
Defined.

(** X10, witness: without an accommodation, the one day of the scenario
    without coordinates records the travel between its activities. *)
Lemma travel_total_without_return_leg_witness :
  ∃ itinerary,
    _build_daily_itinerary sample_distance sample_round here_self [here_dests] []
    = Ok itinerary
    ∧ Forall (λ dp,
          DayPlan.is_travel_day dp = false →
          no_return_leg (head []) (DayPlan.activities dp) →
          DayPlan.total_travel_time dp = scheduled_travel (DayPlan.activities dp)
          ∧ 2 * DayPlan.total_travel_time dp
            ≤ 3 * PaceConfig.max_daily_travel_time (Service.pace_config here_self))
        itinerary.
Proof.
  eexists. split; [vm_compute; reflexivity|].
  refine (travel_total_without_return_leg sample_distance sample_round here_self
            [here_dests] [] _ _ _);
    [simpl; lia | vm_compute; reflexivity].
Defined.

(** X11, witness: the northern scenario visits rows of its catalog. *)
Lemma visited_destinations_eligible_witness :
  ∃ itinerary,
    plan_days sample_distance sample_round north_self north_dests north_accs
    = Ok itinerary
    ∧ Destination.id <$> visited itinerary = [10; 11]
    ∧ ∀ d, d ∈ visited itinerary →
           d ∈ north_dests ∧ eligible (Service.prefs north_self) d.
Proof.
  eexists. split; [vm_compute; reflexivity|]. split; [vm_compute; reflexivity|].
  refine (visited_destinations_eligible sample_distance sample_round north_self
            north_dests north_accs _ _).
  vm_compute. reflexivity.
Defined.

(** X12, witness: the only filler of the northern scenario. *)
Lemma fillers_nearest_first_witness :
  ∃ itinerary,
    _build_daily_itinerary sample_distance sample_round north_self
      [north_dests] north_accs
    = Ok itinerary
    ∧ List.filter (λ d, negb (is_must_visit (Service.prefs north_self) d))
        (visited itinerary)
      `sublist_of` sort_by_distance sample_distance (head north_accs)
                     (split_pool (Service.prefs north_self)
                        (concat [north_dests])).2.
Proof.
  eexists. split; [vm_compute; reflexivity|].
  refine (fillers_nearest_first sample_distance sample_round north_self
            [north_dests] north_accs _ _).
  vm_compute. reflexivity.
Defined.

(** X13, witness: the summary of the northern scenario counts its two
    activities. *)
Lemma summary_counts_every_activity_witness :
  ∃ result,
    generate_itinerary sample_distance sample_round sample_sum sample_strptime
      739000 north_prefs north_dests north_accs = Ok result
    ∧ Summary.total_destinations (Itinerary.summary result) = 2
    ∧ NoDup (ActivityData.destination_id
               <$> concat (DayData.activities <$> Itinerary.itinerary result))
    ∧ Summary.total_destinations (Itinerary.summary result)
      = Z.of_nat (length (concat (DayData.activities
                                    <$> Itinerary.itinerary result))).
Proof.
  eexists. split; [vm_compute; reflexivity|]. split; [vm_compute; reflexivity|].
  refine (summary_counts_every_activity sample_distance sample_round sample_sum
            sample_strptime 739000 north_prefs north_dests north_accs _ _).
  vm_compute. reflexivity.
Defined.

(** X14, witness: the three must-visit destinations of the one-day
    scenario all go to its day. *)
Lemma must_visit_all_assigned_witness :
  active_days here_self = [1]
  ∧ concat (day_must_visit (must_visit_per_day here_self here_dests)
              <$> active_days here_self)
    ≡ₚ here_dests
  ∧ ∀ day, day ∉ active_days here_self →
           day_must_visit (must_visit_per_day here_self here_dests) day = [].
Proof.
  split; [vm_compute; reflexivity|].
  refine (must_visit_all_assigned here_self here_dests _).
  vm_compute. discriminate.
Defined.

(** X16, witness: an inn with the latitude 12.58 and no longitude. *)
Lemma build_raises_without_longitude_witness :
  _build_daily_itinerary sample_distance sample_round north_self [north_dests]
    [mk_acc 2 (Some 12.58%float) None]
  = Raise TypeError.
Proof.
  refine (build_raises_without_longitude sample_distance sample_round north_self
            [north_dests] [mk_acc 2 (Some 12.58%float) None]
            (mk_acc 2 (Some 12.58%float) None) 0 _ _ _ _ _).
  - reflexivity.
  - vm_compute. reflexivity.
  - reflexivity.
  - vm_compute. reflexivity.
  - vm_compute. discriminate.
Defined.

(** X18, witness: the days of the arrival scenario stay at the inn, the
    departure day has no accommodation. *)
Lemma only_first_accommodation_used_witness :
  ∃ itinerary,
    _build_daily_itinerary sample_distance sample_round arrival_self
      [[mk_dest 11 (Some 12.84%float) (Some 124.08%float)]] north_accs
    = Ok itinerary
    ∧ Forall (λ dp,
          DayPlan.accommodation dp
          = if String.eqb (DayPlan.day_type dp) "travel_from"
            then None else head north_accs)
        itinerary.
Proof.
  eexists. split; [vm_compute; reflexivity|].
  refine (only_first_accommodation_used sample_distance sample_round arrival_self
            [[mk_dest 11 (Some 12.84%float) (Some 124.08%float)]] north_accs _ _).
  vm_compute. reflexivity.
Defined.

(** X19, witness: the two relaxed days of the northern scenario visit two
    destinations, of at most six. *)
Lemma visited_count_bounded_witness :
  ∃ itinerary,
    _build_daily_itinerary sample_distance sample_round north_self
      [north_dests] north_accs
    = Ok itinerary
    ∧ length (visited itinerary) = 2%nat
    ∧ Z.of_nat (length (visited itinerary))
      ≤ Z.max 0 (TravelPreferences.days north_prefs)
        * (PaceConfig.activities_per_day (Service.pace_config north_self)).2
    ∧ (length (visited itinerary) ≤ length (concat [north_dests]))%nat.
Proof.
  eexists. split; [vm_compute; reflexivity|]. split; [vm_compute; reflexivity|].
  refine (visited_count_bounded sample_distance sample_round sample_strptime
            739000 north_prefs north_self [north_dests] north_accs _ _ _);
    vm_compute; reflexivity.
Defined.


(** X22, witness: the must-visit destination 10 of the northern scenario
    goes to day 1. *)
Lemma must_visit_reaches_a_day_witness :
  ∃ clusters,
    _cluster_destinations sample_distance north_self
      (_score_destinations (Service.prefs north_self)
         (_filter_destinations (Service.prefs north_self) north_dests))
      north_accs
    = Ok clusters
    ∧ day_must_visit
        (must_visit_per_day north_self
           (split_pool (Service.prefs north_self) (concat clusters)).1.2) 1
      = [mk_dest 10 (Some 13.03%float) (Some 124.08%float)]
    ∧ ∃ day d',
        day ∈ active_days north_self
        ∧ d' ∈ day_must_visit
                 (must_visit_per_day north_self
                    (split_pool (Service.prefs north_self) (concat clusters)).1.2)
                 day
        ∧ Destination.id d'
          = Destination.id (mk_dest 10 (Some 13.03%float) (Some 124.08%float)).
Proof.
  eexists. split; [vm_compute; reflexivity|]. split; [vm_compute; reflexivity|].
  refine (must_visit_reaches_a_day sample_distance north_self north_dests
            north_accs _ (mk_dest 10 (Some 13.03%float) (Some 124.08%float))
            _ _ _ _ _ _).
  - vm_compute. reflexivity.
  - discriminate.
  - vm_compute. discriminate.
  - apply elem_of_cons. left. reflexivity.
  - unfold eligible. simpl. repeat split; try done.
    + apply not_elem_of_nil.
    + apply not_elem_of_nil.
    + vm_compute. apply elem_of_cons. left. reflexivity.
  - vm_compute. reflexivity.
Defined.


(** ** The revised statements at work on the scenarios *)

(** C1, witness: three days, two hours from the origin, no activity on the
    day of arrival: the arrival travel day is day 1, the days after it are
    numbered from 2, the departure travel day comes last. *)
Lemma C1_day_plan_count_witness :
  ∃ itinerary,
    init sample_strptime 739000 arrival_prefs = Ok arrival_self
    ∧ _build_daily_itinerary sample_distance sample_round arrival_self
        [[mk_dest 11 (Some 12.84%float) (Some 124.08%float)]] north_accs
      = Ok itinerary
    ∧ DayPlan.day_type <$> itinerary
      = ["travel_to"; "regular"; "regular"; "travel_from"]%string
    ∧ (∃ d rest,
         itinerary = d :: rest
         ∧ DayPlan.day_number d = 1
         ∧ DayPlan.is_travel_day d = true
         ∧ DayPlan.day_type d = "travel_to"%string
         ∧ Forall (λ dp, 2 ≤ DayPlan.day_number dp) rest)
    ∧ (∃ d, last itinerary = Some d
            ∧ DayPlan.is_travel_day d = true
            ∧ DayPlan.day_type d = "travel_from"%string)
    ∧ DayPlan.day_number <$> itinerary = seqZ 1 (Z.of_nat (length itinerary)).
Proof.
  eexists. split; [vm_compute; reflexivity|]. split; [vm_compute; reflexivity|].
  split; [vm_compute; reflexivity|].
  refine (match C1_day_plan_count sample_distance sample_round sample_strptime
                  739000 arrival_prefs arrival_self
                  [[mk_dest 11 (Some 12.84%float) (Some 124.08%float)]]
                  north_accs _ _ _ _
          with conj _ (conj Harrival (conj Hdeparture Hnumbers)) =>
            conj (Harrival _ _) (conj (Hdeparture _) Hnumbers)
          end);
    [vm_compute; reflexivity | simpl; lia | vm_compute; reflexivity
    | vm_compute; reflexivity | reflexivity | vm_compute; reflexivity].
Defined.

(** C2, witness: in the northern scenario the must-visit destination 10,
    75 minutes from the inn, is the only must-visit destination of two
    active days and is scheduled once. *)
Lemma C2_must_visit_at_most_once_witness :
  ∃ clusters itinerary,
    init sample_strptime 739000 north_prefs = Ok north_self
    ∧ _cluster_destinations sample_distance north_self
        (_score_destinations north_prefs
           (_filter_destinations north_prefs north_dests)) north_accs
      = Ok clusters
    ∧ _build_daily_itinerary sample_distance sample_round north_self clusters
        north_accs
      = Ok itinerary
    ∧ plan_days sample_distance sample_round north_self north_dests north_accs
      = Ok itinerary
    ∧ activities_referencing 10 itinerary = 1%nat.
Proof.
  eexists _, _. split; [vm_compute; reflexivity|].
  split; [vm_compute; reflexivity|]. split; [vm_compute; reflexivity|].
  split; [vm_compute; reflexivity|].
  refine (proj2 (proj2 (C2_must_visit_at_most_once sample_distance sample_round
                          sample_strptime 739000 north_prefs north_self
                          north_dests north_accs north_accs _ _
                          (mk_dest 10 (Some 13.03%float) (Some 124.08%float))
                          _ _ _ _ _ _ _))
            12.58%float 124.08%float 75 _ _ _ _ _ _ _ _).
  - vm_compute. reflexivity.
  - vm_compute. reflexivity.
  - vm_compute. reflexivity.
  - vm_compute. reflexivity.
  - apply elem_of_cons. left. reflexivity.
  - unfold eligible. simpl. repeat split; try done.
    + apply not_elem_of_nil.
    + apply not_elem_of_nil.
    + vm_compute. apply elem_of_cons. left. reflexivity.
  - apply elem_of_cons. left. reflexivity.
  - simpl. apply NoDup_cons. split; [|apply NoDup_singleton].
    intros Hin. apply list_elem_of_singleton in Hin. discriminate Hin.
  - discriminate.
  - vm_compute. lia.
  - vm_compute. reflexivity.
  - vm_compute. reflexivity.
  - vm_compute. reflexivity.
  - simpl. lia.
  - simpl. lia.
Defined.

(** C5, witness: five relaxed days with same-day activity, two hours from
    the origin.  The itinerary has five non-travel days, 1 to 5, and the
    departure travel day as day 6; none of them is a rest day. *)
Lemma C5_rest_day_witness :
  ∃ itinerary,
    init sample_strptime 739000 five_prefs = Ok five_self
    ∧ plan_days sample_distance sample_round five_self north_dests north_accs
      = Ok itinerary
    ∧ _build_daily_itinerary sample_distance sample_round five_self
        [[mk_dest 11 (Some 12.84%float) (Some 124.08%float)]] north_accs
      = Ok itinerary
    ∧ DayPlan.day_type <$> itinerary
      = ["regular"; "regular"; "regular"; "regular"; "regular";
         "travel_from"]%string
    ∧ effective_days five_self = 4
    ∧ active_count itinerary = 5%nat
    ∧ List.filter DayPlan.is_rest_day itinerary = [].
Proof.
  eexists. split; [vm_compute; reflexivity|]. split; [vm_compute; reflexivity|].
  split; [vm_compute; reflexivity|]. split; [vm_compute; reflexivity|].
  split; [vm_compute; reflexivity|]. split; [vm_compute; reflexivity|].
  refine (proj1 (proj2 (proj2 (C5_rest_day sample_distance sample_round
                                 sample_strptime 739000 five_prefs five_self
                                 [[mk_dest 11 (Some 12.84%float)
                                     (Some 124.08%float)]]
                                 north_accs _ _ _ _)) _) _);
    [vm_compute; reflexivity | simpl; lia | vm_compute; reflexivity
    | vm_compute; reflexivity | vm_compute; reflexivity].
Defined.

(** X6, witness: around the inn, the TypeError of the scenario without
    coordinates. *)
Lemma cluster_type_error_means_missing_coordinate_witness :
  _cluster_destinations sample_distance inn_self
    (_score_destinations inn_prefs (_filter_destinations inn_prefs here_dests))
    north_accs
  = Raise TypeError
  ∧ ((∃ acc, acc ∈ north_accs ∧ accommodation_missing_coordinate acc)
     ∨ ∃ d, d ∈ (_score_destinations inn_prefs
                   (_filter_destinations inn_prefs here_dests)).*1
            ∧ is_must_visit (Service.prefs inn_self) d = false
            ∧ missing_coordinate d).
Proof.
  split; [vm_compute; reflexivity|].
  refine (cluster_type_error_means_missing_coordinate sample_distance inn_self
            (_score_destinations inn_prefs
               (_filter_destinations inn_prefs here_dests)) north_accs _).
  vm_compute. reflexivity.
Defined.

(** X15, witness: the TypeError of an inn with the latitude 12.58 and no
    longitude. *)
Lemma build_type_error_means_missing_longitude_witness :
  _build_daily_itinerary sample_distance sample_round north_self [north_dests]
    [mk_acc 2 (Some 12.58%float) None]
  = Raise TypeError
  ∧ ∃ acc, head [mk_acc 2 (Some 12.58%float) None] = Some acc
           ∧ truthy (Accommodation.latitude acc) = true
           ∧ Accommodation.longitude acc = None.
Proof.
  split; [vm_compute; reflexivity|].
  refine (build_type_error_means_missing_longitude sample_distance sample_round
            north_self [north_dests] [mk_acc 2 (Some 12.58%float) None] _).
  vm_compute. reflexivity.
Defined.

(** X17, witness: the TypeError of the planner on the catalog without
    coordinates, with the inn selected. *)
Lemma planner_type_error_means_missing_coordinate_witness :
  generate_itinerary sample_distance sample_round sample_sum sample_strptime
    739000 inn_prefs here_dests north_accs
  = Raise TypeError
  ∧ ((∃ acc, acc ∈ north_accs ∧ Accommodation.is_active acc = true
             ∧ accommodation_missing_coordinate acc)
     ∨ ∃ d, d ∈ here_dests ∧ eligible inn_prefs d
            ∧ is_must_visit inn_prefs d = false ∧ missing_coordinate d).
Proof.
  split; [vm_compute; reflexivity|].
  refine (planner_type_error_means_missing_coordinate sample_distance
            sample_round sample_sum sample_strptime 739000 inn_prefs here_dests
            north_accs _).
  vm_compute. reflexivity.
Defined.
